(** * ai_shift_assistant: the shift orchestrator and its tools

    A shallow embedding of [src/app/tools.py], [src/app/memory.py] and
    [src/app/agent.py].  The program is dynamically typed Python over JSON
    data, so the embedding works over a type [pyval] of JSON-shaped Python
    values and an error type for the exceptions the code can raise.

    Conventions of the model.
    - Text is a [string] whose characters are the code points below 256;
      text with other code points has no counterpart in the model.  On this
      range [strip] and [lower] are those of [str]: white space is 9-13,
      28-32, U+0085 and U+00A0, and the cased letters are A-Z and U+00C0 to
      U+00DE without U+00D7.  A theorem that rests on what [strip] and
      [lower] do to particular text is stated for ASCII text.
    - A Python [float] is carried as the rational it stands for ([PFloat]);
      infinities and NaN have no counterpart.  Where the program computes
      in binary floating point (the mean age of the Analyzer), the
      computation is a field of [Runtime].
    - A [dict] is an association list in insertion order with string keys,
      as every dictionary of the program is built from JSON or from string
      literals.
    - Library functions whose result the program only passes along
      (the JSON codec, [datetime.fromisoformat], [repr], the SMTP transport,
      the file system, the model client) are fields of the classes
      [Runtime], [Host] and [LLM]; every theorem holds for all instances. *)

From Stdlib Require Import ZArith QArith Qround List String Ascii Bool Lia.
From Stdlib Require Import Sorted.
From Stdlib Require Import DecimalString.
Import ListNotations.

Local Close Scope Q_scope.
Local Open Scope Z_scope.
Local Open Scope list_scope.
Local Open Scope string_scope.

Set Implicit Arguments.
#[local] Set Warnings "-register-all".

(* ================================================================= *)
(** ** Python values *)

Module Py.

Inductive pyval : Type :=
| PNone
| PBool (b : bool)
| PInt (n : Z)
| PFloat (q : Q)
| PStr (s : string)
| PList (l : list pyval)
| PDict (d : list (string * pyval)).

Definition pydict := list (string * pyval).

(** The exceptions of the model.  [ExternalError] stands for an exception of
    a library the program calls (the model client, the file system);
    [Unmodelled] marks the one place where Python goes on with a value the
    model has no room for, a dictionary key that is no text. *)
Inductive exn : Type :=
| AttributeError
| TypeError
| KeyError
| ValueError
| OverflowError
| ExternalError (what : string)
| Unmodelled (what : string).

Inductive res (A : Type) : Type :=
| Ok (a : A)
| Raise (e : exn).

Arguments Ok {A} a.
Arguments Raise {A} e.

Definition rbind {A B} (m : res A) (k : A -> res B) : res B :=
  match m with
  | Ok a => k a
  | Raise e => Raise e
  end.

(** [try: m except Exception: h] *)
Definition rcatch {A} (m : res A) (h : res A) : res A :=
  match m with
  | Ok a => Ok a
  | Raise _ => h
  end.

Definition is_ok {A} (m : res A) : bool :=
  match m with Ok _ => true | Raise _ => false end.

(** Truth value of an object, as tested by [if], [not], [and], [or]. *)
Definition truthy (v : pyval) : bool :=
  match v with
  | PNone => false
  | PBool b => b
  | PInt n => negb (n =? 0)%Z
  | PFloat q => negb (Qeq_bool q 0)
  | PStr s => negb (s =? "")%string
  | PList l => match l with [] => false | _ => true end
  | PDict d => match d with [] => false | _ => true end
  end.

(** [a or b] *)
Definition py_or (a b : pyval) : pyval := if truthy a then a else b.

(** *** Dictionaries *)

Fixpoint dict_get {A} (d : list (string * A)) (k : string) : option A :=
  match d with
  | [] => None
  | (k', v) :: d' => if (k' =? k)%string then Some v else dict_get d' k
  end.

(** [d[k] = v]: an existing key keeps its position, a new key goes last. *)
Fixpoint dict_set {A} (d : list (string * A)) (k : string) (v : A)
  : list (string * A) :=
  match d with
  | [] => [(k, v)]
  | (k', v') :: d' =>
      if (k' =? k)%string then (k', v) :: d' else (k', v') :: dict_set d' k v
  end.

Definition dict_keys {A} (d : list (string * A)) : list string := map fst d.

(** [d.get(k, dflt)] on a dictionary. *)
Definition dict_get_d (d : pydict) (k : string) (dflt : pyval) : pyval :=
  match dict_get d k with Some v => v | None => dflt end.

(** [d[k]] *)
Definition dict_item (d : pydict) (k : string) : res pyval :=
  match dict_get d k with Some v => Ok v | None => Raise KeyError end.

(** [v.get(k, dflt)]: only a dictionary has the method. *)
Definition py_get_d (v : pyval) (k : string) (dflt : pyval) : res pyval :=
  match v with
  | PDict d => Ok (dict_get_d d k dflt)
  | _ => Raise AttributeError
  end.

(** [v.get(k)] *)
Definition py_get (v : pyval) (k : string) : res pyval := py_get_d v k PNone.

(** [v[k]] with a string key. *)
Definition py_item (v : pyval) (k : string) : res pyval :=
  match v with
  | PDict d => dict_item d k
  | _ => Raise TypeError
  end.

(** *** Text *)

(** [c.isspace()] for a code point below 256. *)
Definition is_space (c : ascii) : bool :=
  let n := nat_of_ascii c in
  ((9 <=? n) && (n <=? 13) || (28 <=? n) && (n <=? 32)
   || (n =? 133) || (n =? 160))%nat.

(** [c.lower()] for a code point below 256. *)
Definition lower_char (c : ascii) : ascii :=
  let n := nat_of_ascii c in
  if ((65 <=? n) && (n <=? 90)
      || (192 <=? n) && (n <=? 222) && negb (n =? 215))%nat
  then ascii_of_nat (n + 32) else c.

Fixpoint lower (s : string) : string :=
  match s with
  | EmptyString => EmptyString
  | String c s' => String (lower_char c) (lower s')
  end.

Fixpoint lstrip (s : string) : string :=
  match s with
  | EmptyString => EmptyString
  | String c s' => if is_space c then lstrip s' else s
  end.

Fixpoint rstrip (s : string) : string :=
  match s with
  | EmptyString => EmptyString
  | String c s' =>
      match rstrip s' with
      | EmptyString => if is_space c then EmptyString else String c EmptyString
      | r => String c r
      end
  end.

Definition strip (s : string) : string := rstrip (lstrip s).

(** [needle in hay] for text. *)
Fixpoint contains (needle hay : string) : bool :=
  prefix needle hay
  || match hay with
     | EmptyString => false
     | String _ hay' => contains needle hay'
     end.

(** [s.replace(c, by)] for a one-character pattern. *)
Fixpoint replace_char (c : ascii) (by_ : string) (s : string) : string :=
  match s with
  | EmptyString => EmptyString
  | String a s' =>
      if Ascii.eqb a c then by_ ++ replace_char c by_ s'
      else String a (replace_char c by_ s')
  end.

Fixpoint chars (s : string) : list pyval :=
  match s with
  | EmptyString => []
  | String c s' => PStr (String c EmptyString) :: chars s'
  end.

Definition str_of_Z (n : Z) : string := NilZero.string_of_int (Z.to_int n).

(** [v.strip()]: a method of text only. *)
Definition py_strip (v : pyval) : res string :=
  match v with
  | PStr s => Ok (strip s)
  | _ => Raise AttributeError
  end.

(** *** Iteration, length, conversions *)

(** The items a [for] loop visits. *)
Definition py_iter (v : pyval) : res (list pyval) :=
  match v with
  | PList l => Ok l
  | PStr s => Ok (chars s)
  | PDict d => Ok (map PStr (dict_keys d))
  | _ => Raise TypeError
  end.

(** [len(v)] *)
Definition py_len (v : pyval) : res Z :=
  match v with
  | PList l => Ok (Z.of_nat (List.length l))
  | PStr s => Ok (Z.of_nat (String.length s))
  | PDict d => Ok (Z.of_nat (List.length d))
  | _ => Raise TypeError
  end.

(** Truncation toward zero, as [int(x)] does on a float. *)
Definition Qtrunc (q : Q) : Z :=
  if Qle_bool 0 q then Qfloor q else Qceiling q.

(** The value of a number; [bool] is a subclass of [int]. *)
Definition num_of (v : pyval) : option Q :=
  match v with
  | PBool b => Some (inject_Z (Z.b2z b))
  | PInt n => Some (inject_Z n)
  | PFloat q => Some q
  | _ => None
  end.

(** [x >= v] for a number [x]; ordering a number against anything else
    raises [TypeError]. *)
Definition py_ge (x : Q) (v : pyval) : res bool :=
  match num_of v with
  | Some y => Ok (Qle_bool y x)
  | None => Raise TypeError
  end.

(** Fold of a loop body that may raise. *)
Fixpoint foldM {A B} (f : B -> A -> res B) (l : list A) (acc : B) : res B :=
  match l with
  | [] => Ok acc
  | x :: l' => rbind (f acc x) (foldM f l')
  end.

(** [xs[-n:]] for a positive [n]. *)
Definition lastn {A} (n : nat) (l : list A) : list A :=
  skipn (List.length l - n) l.

(** [sorted(set(xs))] on text. *)
Fixpoint insert_sorted (x : string) (l : list string) : list string :=
  match l with
  | [] => [x]
  | y :: l' => if String.leb x y then x :: l else y :: insert_sorted x l'
  end.

Fixpoint sort_strings (l : list string) : list string :=
  match l with
  | [] => []
  | x :: l' => insert_sorted x (sort_strings l')
  end.

Definition sorted_set (l : list string) : list string :=
  sort_strings (nodup string_dec l).

End Py.
Export Py.

Declare Scope res_scope.
Delimit Scope res_scope with res.
Notation "x <-? m ;; k" := (rbind m (fun x => k))
  (at level 61, m at next level, right associativity) : res_scope.
Notation "' pat <-? m ;; k" :=
  (rbind m (fun x => match x with pat => k end))
  (at level 61, pat pattern, m at next level, right associativity) : res_scope.
Local Open Scope res_scope.

(* ================================================================= *)
(** ** The environment of a run *)

(** Functions of the Python standard library whose output the program
    forwards without inspecting it, and the one computation it makes in
    floating point. *)
Class Runtime := {
  (** [json.dumps(v, ensure_ascii=False)] *)
  json_dumps : pyval -> string;
  (** [json.dumps(v, ensure_ascii=False, indent=2)] *)
  json_dumps_indent : pyval -> string;
  (** [json.loads(s)] *)
  json_loads : string -> res pyval;
  (** [datetime.fromisoformat(s)], a naive result read as UTC: the instant
      in microseconds since the epoch, [None] where the parser raises. *)
  fromisoformat : string -> option Z;
  (** [str(v)] for a float, a list or a dictionary. *)
  repr : pyval -> string;
  (** [int(s)] for text. *)
  int_of_text : string -> res Z;
  (** [round(sum(xs) / len(xs), 2)] in binary floating point, for the
      non-empty list of the numbers that [float] was applied to. *)
  mean_rounded : list Q -> Q;
  (** [MIMEText(body, _charset="utf-8")]: raises where the body cannot be
      encoded, as for text with a lone surrogate. *)
  mime_text : string -> res unit
}.

(** The machine the agent runs on.  Clock readings and mail deliveries are
    indexed by the number of interactions the run has performed so far. *)
Class Host := {
  FS : Type;
  path_exists : FS -> string -> bool;
  fd_exists : FS -> Z -> bool;
  (** [open(path, "r").read()] *)
  open_read : FS -> pyval -> res string;
  (** [os.makedirs(directory, exist_ok=True)] *)
  makedirs : FS -> string -> res FS;
  (** [open(path, "w").write(text)] *)
  open_write : FS -> string -> string -> res FS;
  (** [datetime.now(timezone.utc)] in microseconds since the epoch. *)
  now_utc : nat -> Z;
  (** [datetime.utcnow().isoformat()] *)
  utcnow_iso : nat -> string;
  (** [str(datetime.utcnow().date())] *)
  utcnow_date : nat -> string;
  (** [os.getenv(name)] *)
  getenv : string -> option string;
  (** The SMTP session of [send_email] (connect, starttls, login when both
      credentials are truthy, sendmail of the rendered message): [None] on
      success, [Some msg] when an exception with text [msg] is raised.
      Arguments: host, port, user, password, sender, recipient, subject,
      body. *)
  smtp_session :
    nat -> pyval -> Z -> pyval -> pyval -> pyval -> pyval -> pyval -> string ->
    option string
}.

(** The interface of [LLMClient] the agent uses; the first argument is the
    number of interactions performed so far, so that an instance stands
    for any sequence of answers. *)
Class LLM := {
  chat : nat -> list pyval -> res pyval;
  generate_text : nat -> string -> string -> res pyval
}.

Section Effects.
Context `{Host}.

Record world : Type := World { ticks : nat; disk : FS }.

(** Computations that interact with the host: an exception keeps the
    effects performed before it was raised. *)
Definition M (A : Type) : Type := world -> res A * world.

Definition ret {A} (a : A) : M A := fun w => (Ok a, w).

Definition bind {A B} (m : M A) (k : A -> M B) : M B :=
  fun w =>
    match m w with
    | (Ok a, w') => k a w'
    | (Raise e, w') => (Raise e, w')
    end.

Definition lift {A} (r : res A) : M A := fun w => (r, w).

Definition raise {A} (e : exn) : M A := lift (Raise e).

(** [try: m except Exception: h] *)
Definition catch {A} (m : M A) (h : M A) : M A :=
  fun w =>
    match m w with
    | (Ok a, w') => (Ok a, w')
    | (Raise _, w') => h w'
    end.

(** One interaction with the outside: returns its index. *)
Definition tick : M nat :=
  fun w => (Ok (ticks w), World (S (ticks w)) (disk w)).

Definition get_disk : M FS := fun w => (Ok (disk w), w).

Definition put_disk (fs : FS) : M unit :=
  fun w => (Ok tt, World (ticks w) fs).

End Effects.

Declare Scope M_scope.
Delimit Scope M_scope with M.
Notation "x <- m ;; k" := (bind m (fun x => k))
  (at level 61, m at next level, right associativity) : M_scope.
Notation "' pat <- m ;; k" := (bind m (fun x => match x with pat => k end))
  (at level 61, pat pattern, m at next level, right associativity) : M_scope.

Section Builtins.
Context `{Runtime}.

(** [str(v)], also the text an f-string inserts for [{v}]. *)
Definition py_str (v : pyval) : string :=
  match v with
  | PNone => "None"
  | PBool true => "True"
  | PBool false => "False"
  | PInt n => str_of_Z n
  | PStr s => s
  | _ => repr v
  end.

(** [int(v)] *)
Definition py_int (v : pyval) : res Z :=
  match v with
  | PBool b => Ok (Z.b2z b)
  | PInt n => Ok n
  | PFloat q => Ok (Qtrunc q)
  | PStr s => int_of_text s
  | _ => Raise TypeError
  end.

(** [xs[-n:]] on a value; slicing a dictionary is taken to raise
    [TypeError], as it does before Python 3.12. *)
Definition py_last (n : nat) (v : pyval) : res pyval :=
  match v with
  | PList l => Ok (PList (lastn n l))
  | PStr s => Ok (PStr (string_of_list_ascii (lastn n (list_ascii_of_string s))))
  | _ => Raise TypeError
  end.

End Builtins.

(** [v[k] = x] with a string key. *)
Definition py_setitem (v : pyval) (k : string) (x : pyval) : res pyval :=
  match v with
  | PDict d => Ok (PDict (dict_set d k x))
  | _ => Raise TypeError
  end.

(** [v.setdefault(k, dflt)]: the dictionary afterwards and the value found. *)
Definition py_setdefault (v : pyval) (k : string) (dflt : pyval)
  : res (pyval * pyval) :=
  match v with
  | PDict d =>
      match dict_get d k with
      | Some x => Ok (v, x)
      | None => Ok (PDict (dict_set d k dflt), dflt)
      end
  | _ => Raise AttributeError
  end.

(** [xs.append(x)]: a method of lists only. *)
Definition py_append (xs : pyval) (x : pyval) : res pyval :=
  match xs with
  | PList l => Ok (PList (l ++ [x]))
  | _ => Raise AttributeError
  end.

(* ================================================================= *)
(** ** [src/app/memory.py] *)

Module Memory.
Section Memory.
Context `{Runtime} `{Host}.
Local Open Scope M_scope.

Definition DEFAULT_MEMORY : pyval :=
  PDict [ ("past_shifts", PList []);
          ("recurring_sites", PDict []);
          ("escalations", PList []);
          ("stats", PDict [("total_shifts", PInt 0); ("total_srs", PInt 0)]) ].

(** [os.path.dirname] of a POSIX path: everything up to the last slash,
    without trailing slashes unless it consists of slashes only. *)
Fixpoint dir_head (p : string) : string :=
  match p with
  | EmptyString => EmptyString
  | String c p' =>
      if contains "/" p' then String c (dir_head p')
      else if Ascii.eqb c "/" then "/" else EmptyString
  end.

Fixpoint only_slashes (p : string) : bool :=
  match p with
  | EmptyString => true
  | String c p' => Ascii.eqb c "/" && only_slashes p'
  end.

Fixpoint rstrip_slashes (p : string) : string :=
  match p with
  | EmptyString => EmptyString
  | String c p' =>
      match rstrip_slashes p' with
      | EmptyString => if Ascii.eqb c "/" then EmptyString else String c EmptyString
      | r => String c r
      end
  end.

Definition dirname (p : string) : string :=
  let head := dir_head p in
  if only_slashes head then head else rstrip_slashes head.

Definition _ensure_dir (path : pyval) : M unit :=
  match path with
  | PStr p =>
      let directory := dirname p in
      if (directory =? "")%string then ret tt
      else
        fs <- get_disk ;;
        fs' <- lift (makedirs fs directory) ;;
        put_disk fs'
  | _ => raise TypeError
  end.

(** [os.path.exists]: an integer is taken as a file descriptor, any other
    object that is no path raises. *)
Definition os_path_exists (path : pyval) : M bool :=
  fs <- get_disk ;;
  match path with
  | PStr p => ret (path_exists fs p)
  | PInt n => ret (fd_exists fs n)
  | PBool b => ret (fd_exists fs (Z.b2z b))
  | _ => raise TypeError
  end.

Definition load_memory (path : pyval) : M pyval :=
  if negb (truthy path) then ret DEFAULT_MEMORY
  else
    present <- os_path_exists path ;;
    if negb present then ret DEFAULT_MEMORY
    else
      catch (fs <- get_disk ;;
             text <- lift (open_read fs path) ;;
             lift (json_loads text))
            (ret DEFAULT_MEMORY).

Definition save_memory (path : pyval) (memory : pyval) : M bool :=
  if negb (truthy path) then ret false
  else
    _ <- _ensure_dir path ;;
    match path with
    | PStr p =>
        fs <- get_disk ;;
        fs' <- lift (open_write fs p (json_dumps_indent memory)) ;;
        _ <- put_disk fs' ;;
        ret true
    | _ => raise TypeError
    end.

(** The body of [for site in persistent_sites or []]. *)
Definition bump_site (memory : pyval) (site : pyval) : res pyval :=
  '(memory, _) <-? py_setdefault memory "recurring_sites" (PDict []) ;;
  rs <-? py_item memory "recurring_sites" ;;
  match rs with
  | PDict _ =>
      match site with
      | PStr k =>
          old <-? py_get_d rs k (PInt 0) ;;
          n <-? py_int old ;;
          rs' <-? py_setitem rs k (PInt (n + 1)) ;;
          py_setitem memory "recurring_sites" rs'
      | PList _ | PDict _ => Raise TypeError
      | _ => Raise (Unmodelled "dictionary key that is not text")
      end
  | _ => Raise AttributeError
  end.

(** The body of [for esc in classifications.get("escalations", [])]. *)
Definition log_escalation (memory : pyval) (esc : pyval) : res pyval :=
  '(memory, log) <-? py_setdefault memory "escalations" (PList []) ;;
  log' <-? py_append log esc ;;
  py_setitem memory "escalations" log'.

(** [memory["stats"]["total_shifts"]] and [memory["stats"]["total_srs"]]. *)
Definition count_run (memory stats : pyval) : res pyval :=
  mstats <-? py_item memory "stats" ;;
  shifts <-? (a <-? py_get_d mstats "total_shifts" (PInt 0) ;; py_int a) ;;
  mstats <-? py_setitem mstats "total_shifts" (PInt (shifts + 1)) ;;
  memory <-? py_setitem memory "stats" mstats ;;
  mstats <-? py_item memory "stats" ;;
  srs_so_far <-? (a <-? py_get_d mstats "total_srs" (PInt 0) ;; py_int a) ;;
  total <-? (a <-? py_get_d stats "total" (PInt 0) ;; py_int a) ;;
  mstats <-? py_setitem mstats "total_srs" (PInt (srs_so_far + total)) ;;
  py_setitem memory "stats" mstats.

(** The shift record, its append to [past_shifts] and the cut to 50. *)
Definition record_shift (timestamp : string) (memory report stats : pyval)
  : res pyval :=
  shift_id <-? py_get report "shift_id" ;;
  summary <-? py_get report "summary" ;;
  let shift_record :=
    PDict [ ("timestamp", PStr timestamp);
            ("shift_id", shift_id);
            ("summary", summary);
            ("stats", stats) ] in
  '(memory, past) <-? py_setdefault memory "past_shifts" (PList []) ;;
  past <-? py_append past shift_record ;;
  memory <-? py_setitem memory "past_shifts" past ;;
  past <-? (a <-? py_item memory "past_shifts" ;; py_last 50 a) ;;
  py_setitem memory "past_shifts" past.

Definition bump_sites (memory persistent_sites : pyval) : res pyval :=
  sites <-? py_iter (py_or persistent_sites (PList [])) ;;
  foldM bump_site sites memory.

Definition log_escalations (memory classifications : pyval) : res pyval :=
  escs <-? (a <-? py_get_d classifications "escalations" (PList []) ;;
            py_iter a) ;;
  memory <-? foldM log_escalation escs memory ;;
  log <-? (a <-? py_item memory "escalations" ;; py_last 200 a) ;;
  py_setitem memory "escalations" log.

Definition update_memory
  (memory report classifications persistent_sites stats : pyval) : M pyval :=
  let memory := py_or memory DEFAULT_MEMORY in
  memory <- lift (count_run memory stats) ;;
  t <- tick ;;
  memory <- lift (record_shift (utcnow_iso t ++ "Z") memory report stats) ;;
  memory <- lift (bump_sites memory persistent_sites) ;;
  memory <- lift (log_escalations memory classifications) ;;
  ret memory.

End Memory.
End Memory.

(* ================================================================= *)
(** ** [src/app/prompts.py] *)

Definition nl : string := String (ascii_of_nat 10) EmptyString.

Definition SUMMARY_SYSTEM_PROMPT : string :=
  nl ++ "You are an expert shift engineer writing a handover summary." ++
  nl ++ "Write a short, actionable summary in clear English." ++
  nl ++ "Mention totals, open issues, escalations, follow-ups, and persistent sites." ++
  nl ++ "Keep it under 10 lines." ++ nl.

Definition ORCHESTRATOR_SYSTEM_PROMPT : string :=
  nl ++ "You are Shift Orchestrator Agent, a virtual NMC shift engineer." ++
  nl ++ "Your job is to autonomously analyze shift tickets, decide which tools to use, call them, and produce a complete handover report." ++
  nl ++ "You must be proactive, risk-aware, and concise." ++
  nl ++ "Always choose the next best tool based on current state." ++
  nl ++ "Preferred order: analyze_tickets -> classify_tickets -> detect_persistent_sites -> create_action_list -> generate_summary." ++
  nl ++ "Use send_email only if asked to notify. Use save_memory after report is ready." ++
  nl ++ "When all key artifacts exist (stats, classifications, persistent_sites, actions, summary), you may stop calling tools." ++
  nl.

(* ================================================================= *)
(** ** [src/app/tools.py] *)

Module Tools.
Section Tools.
Context `{Runtime} `{Host} `{LLM}.

Definition CLOSED_STATUSES : list string :=
  ["closed"; "resolved"; "done"; "completed"; "cancelled"].

Definition HIGH_PRIORITIES : list string :=
  ["p1"; "p2"; "critical"; "high"; "urgent"].

(** [s in a_set] *)
Definition in_set (s : string) (l : list string) : bool :=
  existsb (String.eqb s) l.

Definition _norm (text : pyval) : res string :=
  s <-? py_strip (py_or text (PStr "")) ;;
  Ok (lower s).

Definition _is_closed (status : pyval) : res bool :=
  s <-? _norm status ;;
  Ok (in_set s CLOSED_STATUSES).

(** Every exception of the body is caught, so a value without [replace]
    yields [None] like a text that does not parse. *)
Definition _parse_datetime (value : pyval) : option Z :=
  if negb (truthy value) then None
  else
    match value with
    | PStr s => fromisoformat (replace_char "Z" "+00:00" s)
    | _ => None
    end.

(** [sr.get(k)] once [sr] is known to be a dictionary. *)
Definition fld (sr : pydict) (k : string) : pyval := dict_get_d sr k PNone.

Definition joined_text (sr : pydict) : res string :=
  title <-? _norm (fld sr "title") ;;
  description <-? _norm (fld sr "description") ;;
  notes <-? _norm (fld sr "notes") ;;
  Ok (title ++ " " ++ description ++ " " ++ notes).

Definition _ticket_reason (sr : pydict) : res string :=
  status <-? _norm (fld sr "status") ;;
  text <-? joined_text sr ;;
  Ok (if contains "pending" status || contains "waiting" status
      then "Pending response"
      else if contains "vendor" text then "Pending vendor"
      else if contains "customer" text then "Pending customer"
      else if contains "waiting" text || contains "await" text
      then "Waiting action"
      else "Needs follow-up").

(** A loop variable bound to something that is no dictionary fails at its
    first [.get]. *)
Definition as_dict (v : pyval) : res pydict :=
  match v with
  | PDict d => Ok d
  | _ => Raise AttributeError
  end.

Definition counter := list (string * Z).

(** [c[k] = c.get(k, 0) + 1] *)
Definition bump (c : counter) (k : string) : counter :=
  dict_set c k (match dict_get c k with Some n => n | None => 0 end + 1).

Definition counter_dict (c : counter) : pyval :=
  PDict (map (fun kn => (fst kn, PInt (snd kn))) c).

(** *** analyze_tickets *)

Record tally : Type := Tally {
  status_counts : counter;
  priority_counts : counter;
  open_count : Z;
  age_values : list Q
}.

Definition or_unknown (s : string) : string :=
  if (s =? "")%string then "unknown" else s.

(** [float(n)] of an integer raises [OverflowError] from the first
    integer that rounds beyond the largest double. *)
Definition fits_double (n : Z) : bool :=
  (Z.abs n <? 2 ^ 1024 - 2 ^ 970)%Z.

(** [if isinstance(age, (int, float)): age_values.append(float(age))] *)
Definition add_age (ages : list Q) (age : pyval) : res (list Q) :=
  match age with
  | PInt n =>
      if fits_double n then Ok (ages ++ [inject_Z n])%list
      else Raise OverflowError
  | _ =>
      match num_of age with
      | Some q => Ok (ages ++ [q])%list
      | None => Ok ages
      end
  end.

Definition analyze_step (acc : tally) (item : pyval) : res tally :=
  sr <-? as_dict item ;;
  ns <-? _norm (fld sr "status") ;;
  let status := or_unknown ns in
  closed <-? _is_closed (PStr status) ;;
  np <-? _norm (fld sr "priority") ;;
  let priority := or_unknown np in
  ages <-? add_age (age_values acc) (fld sr "age_hours") ;;
  Ok (Tally (bump (status_counts acc) status)
            (bump (priority_counts acc) priority)
            (if closed then open_count acc else open_count acc + 1)
            ages).

Definition analyze_tickets (srs : pyval) : res pyval :=
  items <-? py_iter srs ;;
  acc <-? foldM analyze_step items (Tally [] [] 0 []) ;;
  let avg_age :=
    match age_values acc with
    | [] => inject_Z 0
    | _ => mean_rounded (age_values acc)
    end in
  total <-? py_len srs ;;
  Ok (PDict [ ("total", PInt total);
              ("open", PInt (open_count acc));
              ("status_counts", counter_dict (status_counts acc));
              ("priority_counts", counter_dict (priority_counts acc));
              ("avg_age_hours", PFloat avg_age) ]).

(** *** classify_tickets *)

Record buckets : Type := Buckets {
  open_issues : list pyval;
  follow_up : list pyval;
  escalations : list pyval;
  recurrent : list pyval
}.

(** [(now - last_update).total_seconds() / 3600.0] *)
Definition hours_between (now last_update : Z) : Q :=
  Qdiv (inject_Z (now - last_update)) (inject_Z 3600000000).

Definition classify_step (now : Z) (followup_hours sla_hours : pyval)
  (acc : buckets) (item : pyval) : res buckets :=
  sr <-? as_dict item ;;
  let sr_id := py_or (fld sr "id") (fld sr "sr_id") in
  let status := fld sr "status" in
  priority <-? _norm (fld sr "priority") ;;
  let last_update := _parse_datetime (fld sr "last_update") in
  let escalation_flag := truthy (fld sr "escalation_flag") in
  closed <-? _is_closed status ;;
  let open_issues' :=
    if negb closed
    then (open_issues acc ++
           [PDict [("id", sr_id); ("title", fld sr "title"); ("status", status)]])%list
    else open_issues acc in
  '(stale, hours_since) <-?
    match last_update with
    | Some t =>
        late <-? py_ge (hours_between now t) followup_hours ;;
        Ok (late, PFloat (hours_between now t))
    | None => Ok (false, PNone)
    end ;;
  nstatus <-? _norm status ;;
  let needs_followup :=
    negb closed
    && (stale || contains "pending" nstatus || contains "waiting" nstatus) in
  follow_up' <-?
    (if needs_followup
     then
       reason <-? _ticket_reason sr ;;
       Ok (follow_up acc ++
             [PDict [ ("id", sr_id); ("title", fld sr "title");
                      ("status", status);
                      ("hours_since_update", hours_since);
                      ("reason", PStr reason) ]])%list
     else Ok (follow_up acc)) ;;
  escalation_text <-? joined_text sr ;;
  sla_risk <-?
    match last_update with
    | Some t => py_ge (hours_between now t) sla_hours
    | None => Ok false
    end ;;
  let escalations' :=
    if escalation_flag
       || in_set priority HIGH_PRIORITIES
       || contains "sla" escalation_text
       || contains "breach" escalation_text
       || contains "escalat" escalation_text
       || sla_risk
    then (escalations acc ++
           [PDict [ ("id", sr_id); ("title", fld sr "title");
                    ("priority", fld sr "priority");
                    ("reason", PStr "SLA risk or high priority") ]])%list
    else escalations acc in
  let recurrent' :=
    if truthy (fld sr "reopen_count")
    then (recurrent acc ++
           [PDict [ ("id", sr_id); ("title", fld sr "title");
                    ("reason", PStr "Repeated reopen") ]])%list
    else recurrent acc in
  Ok (Buckets open_issues' follow_up' escalations' recurrent').

Definition classify_result (b : buckets) : pyval :=
  PDict [ ("open_issues", PList (open_issues b));
          ("follow_up_required", PList (follow_up b));
          ("escalations", PList (escalations b));
          ("recurrent", PList (recurrent b)) ].

(** The loop of [classify_tickets] for a given reading of the clock. *)
Definition classify_at (now : Z) (srs followup_hours sla_hours : pyval)
  : res pyval :=
  items <-? py_iter srs ;;
  b <-? foldM (classify_step now followup_hours sla_hours) items
          (Buckets [] [] [] []) ;;
  Ok (classify_result b).

Local Open Scope M_scope.

Definition classify_tickets (srs followup_hours sla_hours : pyval) : M pyval :=
  t <- tick ;;
  lift (classify_at (now_utc t) srs followup_hours sla_hours).

Local Close Scope M_scope.

(** *** detect_persistent_sites *)

(** The key under which a ticket is counted, if any. *)
Definition site_key (sr : pydict) : option string :=
  let site := py_or (fld sr "site") (fld sr "node") in
  if negb (truthy site) then None
  else
    let key := strip (py_str site) in
    if (key =? "")%string then None else Some key.

Definition count_step (counts : counter) (item : pyval) : res counter :=
  sr <-? as_dict item ;;
  match site_key sr with
  | Some key => Ok (bump counts key)
  | None => Ok counts
  end.

Definition persistent_step (memory_counts min_recurrence : pyval)
  (persistent : list string) (entry : string * Z) : res (list string) :=
  let '(site, count) := entry in
  historical <-? (a <-? py_get_d memory_counts site (PInt 0) ;; py_int a) ;;
  current_hit <-? py_ge (inject_Z count) min_recurrence ;;
  hit <-? (if current_hit then Ok true
           else py_ge (inject_Z historical) min_recurrence) ;;
  Ok (if hit then (persistent ++ [site])%list else persistent).

Definition detect_persistent_sites (srs memory min_recurrence : pyval)
  : res pyval :=
  items <-? py_iter srs ;;
  counts <-? foldM count_step items [] ;;
  memory_counts <-?
    (if truthy memory then py_get_d memory "recurring_sites" (PDict [])
     else Ok (PDict [])) ;;
  persistent <-? foldM (persistent_step memory_counts min_recurrence) counts [] ;;
  Ok (PDict [ ("persistent_sites", PList (map PStr (sorted_set persistent)));
              ("current_counts", counter_dict counts) ]).

(** *** create_action_list *)

Definition escalation_action (acc : list pyval) (item : pyval)
  : res (list pyval) :=
  esc <-? as_dict item ;;
  Ok (acc ++
        [PDict [ ("action",
                  PStr ("Escalate SR " ++ py_str (fld esc "id")
                        ++ " to L2/management"));
                 ("sr_id", fld esc "id");
                 ("priority", py_or (fld esc "priority") (PStr "high")) ]])%list.

Definition followup_action (acc : list pyval) (item : pyval)
  : res (list pyval) :=
  fu <-? as_dict item ;;
  Ok (acc ++
        [PDict [ ("action",
                  PStr ("Follow up on SR " ++ py_str (fld fu "id") ++ ": "
                        ++ py_str (fld fu "reason")));
                 ("sr_id", fld fu "id");
                 ("priority", PStr "medium") ]])%list.

Definition NO_ACTION : pyval :=
  PDict [ ("action", PStr "No critical actions detected.");
          ("priority", PStr "low") ].

Definition create_action_list (classifications srs : pyval) : res pyval :=
  escs <-? (a <-? py_get_d classifications "escalations" (PList []) ;;
            py_iter a) ;;
  actions <-? foldM escalation_action escs [] ;;
  fus <-? (a <-? py_get_d classifications "follow_up_required" (PList []) ;;
           py_iter a) ;;
  actions <-? foldM followup_action fus actions ;;
  let actions := match actions with [] => [NO_ACTION] | _ => actions end in
  Ok (PDict [("actions", PList actions)]).

(** *** generate_summary *)

Local Open Scope M_scope.

(** [len(d.get(k, []))] *)
Definition count_of (d : pyval) (k : string) : res Z :=
  a <-? py_get_d d k (PList []) ;;
  py_len a.

Definition fallback_summary (shift_id total open_ : pyval) (n_escalations : Z)
  : string :=
  strip ("Shift " ++ py_str (py_or shift_id (PStr "")) ++ " summary: "
         ++ py_str total ++ " SRs handled, "
         ++ py_str open_ ++ " open, "
         ++ str_of_Z n_escalations ++ " escalations.").

Definition generate_summary
  (stats classifications persistent_sites action_list shift_id : pyval)
  : M pyval :=
  let persistent_sites :=
    match persistent_sites with
    | PList _ => PDict [("persistent_sites", persistent_sites)]
    | PDict _ => persistent_sites
    | _ => PDict []
    end in
  n_open <- lift (count_of classifications "open_issues") ;;
  n_follow_up <- lift (count_of classifications "follow_up_required") ;;
  n_escalations <- lift (count_of classifications "escalations") ;;
  sites <- lift (py_get_d persistent_sites "persistent_sites" (PList [])) ;;
  actions <- lift (py_get_d action_list "actions" (PList [])) ;;
  let payload :=
    PDict [ ("shift_id", shift_id);
            ("stats", stats);
            ("open", PInt n_open);
            ("follow_up", PInt n_follow_up);
            ("escalations", PInt n_escalations);
            ("persistent_sites", sites);
            ("actions", actions) ] in
  answer <-
    catch (t <- tick ;;
           text <- lift (generate_text t SUMMARY_SYSTEM_PROMPT
                           ("Summarize shift data:" ++ nl
                            ++ json_dumps_indent payload)) ;;
           summary <- lift (py_strip text) ;;
           ret (if (summary =? "")%string then None else Some summary))
          (ret None) ;;
  match answer with
  | Some summary => ret (PDict [("summary", PStr summary)])
  | None =>
      total <- lift (py_get_d stats "total" (PInt 0)) ;;
      open_ <- lift (py_get_d stats "open" (PInt 0)) ;;
      n <- lift (count_of classifications "escalations") ;;
      ret (PDict [("summary", PStr (fallback_summary shift_id total open_ n))])
  end.

(** *** send_email *)

Definition env (name : string) : pyval :=
  match getenv name with Some s => PStr s | None => PNone end.

Definition env_d (name dflt : string) : pyval :=
  match getenv name with Some s => PStr s | None => PStr dflt end.

Definition action_line (acc : list pyval) (item : pyval) : res (list pyval) :=
  action <-? as_dict item ;;
  Ok (acc ++ [PStr ("- " ++ py_str (fld action "action"))])%list.

(** [sep.join(items)]: every item has to be text. *)
Fixpoint join (sep : string) (items : list pyval) : res string :=
  match items with
  | [] => Ok ""
  | [PStr s] => Ok s
  | PStr s :: rest => r <-? join sep rest ;; Ok (s ++ sep ++ r)
  | _ => Raise TypeError
  end.

Definition send_email (report to subject smtp_settings : pyval) : M pyval :=
  host <- lift (a <-? py_get smtp_settings "SMTP_HOST" ;;
                Ok (py_or a (env "SMTP_HOST"))) ;;
  port <- lift (a <-? py_get smtp_settings "SMTP_PORT" ;;
                py_int (py_or a (env_d "SMTP_PORT" "587"))) ;;
  user <- lift (a <-? py_get smtp_settings "SMTP_USER" ;;
                Ok (py_or a (env "SMTP_USER"))) ;;
  password <- lift (a <-? py_get smtp_settings "SMTP_PASSWORD" ;;
                    Ok (py_or a (env "SMTP_PASSWORD"))) ;;
  sender <- lift (a <-? py_get smtp_settings "SMTP_FROM" ;;
                  Ok (py_or a (env "SMTP_FROM"))) ;;
  recipient <- (if truthy to then ret to
                else lift (a <-? py_get smtp_settings "SMTP_TO" ;;
                           Ok (py_or a (env "SMTP_TO")))) ;;
  if negb (truthy host) || negb (truthy sender) || negb (truthy recipient)
  then ret (PDict [ ("sent", PBool false);
                    ("message", PStr "SMTP settings missing; email not sent.");
                    ("to", recipient) ])
  else
    subject <-
      (if truthy subject then ret subject
       else
         shift_id <- lift (py_get report "shift_id") ;;
         label <- (if truthy shift_id then ret (py_str shift_id)
                   else t <- tick ;; ret (utcnow_date t)) ;;
         ret (PStr ("Shift Summary - " ++ label))) ;;
    summary <- lift (py_get_d report "summary" (PStr "")) ;;
    actions <- lift (a <-? py_get_d report "actions" (PList []) ;; py_iter a) ;;
    body_lines <- lift (foldM action_line actions
                          [summary; PStr ""; PStr "Actions:"]) ;;
    body <- lift (join nl body_lines) ;;
    _ <- lift (mime_text body) ;;
    t <- tick ;;
    match smtp_session t host port user password sender recipient subject body with
    | None => ret (PDict [ ("sent", PBool true);
                           ("message", PStr "Email sent.");
                           ("to", recipient) ])
    | Some msg => ret (PDict [ ("sent", PBool false);
                               ("message", PStr ("Email failed: " ++ msg));
                               ("to", recipient) ])
    end.

(** *** save_memory, load_memory *)

Definition save_memory (memory_path memory : pyval) : M pyval :=
  saved <- Memory.save_memory memory_path memory ;;
  ret (PDict [("saved", PBool saved); ("path", memory_path)]).

Definition load_memory (memory_path : pyval) : M pyval :=
  memory <- Memory.load_memory memory_path ;;
  ret (PDict [("memory", memory)]).

End Tools.
End Tools.

(* ================================================================= *)
(** ** [src/app/agent.py] *)

Module Agent.

(** The fields of a [ShiftOrchestratorAgent] other than the client. *)
Record config : Type := Config {
  memory_path : string;
  followup_hours : Q;
  sla_hours : Q;
  max_steps : Z
}.

Section Agent.
Context `{Runtime} `{Host} `{LLM}.
Variable self : config.

Local Open Scope M_scope.

Definition _parse_args (raw_args : pyval) : pyval :=
  match raw_args with
  | PNone => PDict []
  | PDict _ => raw_args
  | PStr s =>
      match json_loads s with
      | Ok v => v
      | Raise _ => PDict []
      end
  | _ => PDict []
  end.

(** Objects with a [model_dump] method do not occur among JSON values. *)
Definition _normalize_srs (srs : pyval) : res (list pyval) :=
  if negb (truthy srs) then Ok []
  else
    match srs with
    | PList l =>
        Ok (filter (fun sr => match sr with PDict _ => true | _ => false end) l)
    | _ => Raise ValueError
    end.

(** [state.get(k)] *)
Definition slot (state : pydict) (k : string) : pyval := dict_get_d state k PNone.

(** [args.get(k) or fallback] *)
Definition arg_or (args : pyval) (k : string) (fallback : res pyval)
  : res pyval :=
  a <-? py_get args k ;;
  if truthy a then Ok a else fallback.

Definition is_name (name : pyval) (s : string) : bool :=
  match name with
  | PStr n => (n =? s)%string
  | _ => false
  end.

Definition _execute_tool (name args : pyval) (state : pydict)
  : M (pyval * pydict) :=
  if is_name name "analyze_tickets" then
    srs <- lift (arg_or args "srs" (dict_item state "srs")) ;;
    result <- lift (Tools.analyze_tickets srs) ;;
    ret (result, dict_set state "stats" result)
  else if is_name name "classify_tickets" then
    srs <- lift (arg_or args "srs" (dict_item state "srs")) ;;
    fh <- lift (py_get_d args "followup_hours" (PFloat (followup_hours self))) ;;
    sh <- lift (py_get_d args "sla_hours" (PFloat (sla_hours self))) ;;
    result <- Tools.classify_tickets srs fh sh ;;
    ret (result, dict_set state "classifications" result)
  else if is_name name "detect_persistent_sites" then
    srs <- lift (arg_or args "srs" (dict_item state "srs")) ;;
    memory <- lift (arg_or args "memory"
                      (Ok (dict_get_d state "memory" (PDict [])))) ;;
    min_recurrence <- lift (py_get_d args "min_recurrence" (PInt 2)) ;;
    result <- lift (Tools.detect_persistent_sites srs memory min_recurrence) ;;
    ret (result, dict_set state "persistent_sites" result)
  else if is_name name "create_action_list" then
    classifications <- lift (arg_or args "classifications"
                               (Ok (dict_get_d state "classifications" (PDict [])))) ;;
    srs <- lift (arg_or args "srs" (dict_item state "srs")) ;;
    result <- lift (Tools.create_action_list classifications srs) ;;
    ret (result, dict_set state "action_list" result)
  else if is_name name "generate_summary" then
    stats <- lift (arg_or args "stats"
                     (Ok (dict_get_d state "stats" (PDict [])))) ;;
    classifications <- lift (arg_or args "classifications"
                               (Ok (dict_get_d state "classifications" (PDict [])))) ;;
    persistent_sites <- lift (arg_or args "persistent_sites"
                                (Ok (dict_get_d state "persistent_sites" (PDict [])))) ;;
    action_list <- lift (arg_or args "action_list"
                           (Ok (dict_get_d state "action_list" (PDict [])))) ;;
    shift_id <- lift (arg_or args "shift_id" (Ok (slot state "shift_id"))) ;;
    result <- Tools.generate_summary stats classifications persistent_sites
                action_list shift_id ;;
    summary <- lift (py_get result "summary") ;;
    ret (result, dict_set state "summary" summary)
  else if is_name name "send_email" then
    report <- lift (arg_or args "report"
                      (Ok (dict_get_d state "report" (PDict [])))) ;;
    to <- lift (py_get args "to") ;;
    subject <- lift (py_get args "subject") ;;
    smtp_settings <- lift (arg_or args "smtp_settings" (Ok (PDict []))) ;;
    result <- Tools.send_email report to subject smtp_settings ;;
    ret (result, dict_set state "email" result)
  else if is_name name "save_memory" then
    memory <- lift (arg_or args "memory" (Ok (slot state "memory"))) ;;
    path <- lift (arg_or args "memory_path" (Ok (PStr (memory_path self)))) ;;
    result <- Tools.save_memory path memory ;;
    ret (result, state)
  else if is_name name "load_memory" then
    path <- lift (arg_or args "memory_path" (Ok (PStr (memory_path self)))) ;;
    result <- Tools.load_memory path ;;
    memory <- lift (py_get_d result "memory" (PDict [])) ;;
    ret (result, dict_set state "memory" memory)
  else
    ret (PDict [("error", PStr ("Unknown tool: " ++ py_str name))], state).

(** The test at the head of each iteration. *)
Definition all_present (state : pydict) : bool :=
  truthy (slot state "stats")
  && truthy (slot state "classifications")
  && truthy (slot state "persistent_sites")
  && truthy (slot state "action_list")
  && truthy (slot state "summary").

(** One entry of the assistant message's [tool_calls]. *)
Definition record_call (acc : list pyval) (item : pyval) : res (list pyval) :=
  call <-? Tools.as_dict item ;;
  Ok (acc ++
        [PDict [ ("id", dict_get_d call "id" PNone);
                 ("type", PStr "function");
                 ("function",
                  PDict [ ("name", dict_get_d call "name" PNone);
                          ("arguments", dict_get_d call "arguments" PNone) ]) ]])%list.

(** The second [for call in tool_calls] loop: decode, dispatch, append the
    tool message. *)
Fixpoint dispatch_all (calls : list pyval) (messages : list pyval)
  (state : pydict) : M (list pyval * pydict) :=
  match calls with
  | [] => ret (messages, state)
  | item :: rest =>
      call <- lift (Tools.as_dict item) ;;
      let args := _parse_args (dict_get_d call "arguments" PNone) in
      let name := dict_get_d call "name" PNone in
      let tool_call_id := dict_get_d call "id" PNone in
      '(result, state) <- _execute_tool name args state ;;
      dispatch_all rest
        (messages ++
           [PDict [ ("role", PStr "tool");
                    ("tool_call_id", tool_call_id);
                    ("name", name);
                    ("content", PStr (json_dumps result)) ]])%list
        state
  end.

(** [for _ in range(self.max_steps)], with the iterations left as fuel. *)
Fixpoint loop (fuel : nat) (messages : list pyval) (state : pydict)
  : M pydict :=
  match fuel with
  | O => ret state
  | S fuel' =>
      if all_present state then ret state
      else
        t <- tick ;;
        response <- lift (chat t messages) ;;
        proposed <- lift (py_get response "tool_calls") ;;
        let tool_calls := py_or proposed (PList []) in
        if negb (truthy tool_calls) then
          text <- lift (py_get response "content") ;;
          content <- lift (py_strip (py_or text (PStr ""))) ;;
          ret (if negb (content =? "")%string
                  && negb (truthy (slot state "summary"))
               then dict_set state "summary" (PStr content)
               else state)
        else
          text <- lift (py_get response "content") ;;
          calls <- lift (py_iter tool_calls) ;;
          recorded <- lift (foldM record_call calls []) ;;
          let assistant_message :=
            PDict [ ("role", PStr "assistant");
                    ("content", text);
                    ("tool_calls", PList recorded) ] in
          '(messages, state) <-
            dispatch_all calls (messages ++ [assistant_message])%list state ;;
          loop fuel' messages state
  end.

(** The closure step: whatever the loop left unset is computed, in this
    order, from the run's own tickets and memory. *)
Definition closure (srs : list pyval) (memory shift_id : pyval)
  (state : pydict) : M pydict :=
  state <-
    (if negb (truthy (slot state "stats")) then
       r <- lift (Tools.analyze_tickets (PList srs)) ;;
       ret (dict_set state "stats" r)
     else ret state) ;;
  state <-
    (if negb (truthy (slot state "classifications")) then
       r <- Tools.classify_tickets (PList srs)
              (PFloat (followup_hours self)) (PFloat (sla_hours self)) ;;
       ret (dict_set state "classifications" r)
     else ret state) ;;
  state <-
    (if negb (truthy (slot state "persistent_sites")) then
       r <- lift (Tools.detect_persistent_sites (PList srs) memory (PInt 2)) ;;
       ret (dict_set state "persistent_sites" r)
     else ret state) ;;
  state <-
    (if negb (truthy (slot state "action_list")) then
       classifications <- lift (dict_item state "classifications") ;;
       r <- lift (Tools.create_action_list classifications (PList srs)) ;;
       ret (dict_set state "action_list" r)
     else ret state) ;;
  (if negb (truthy (slot state "summary")) then
     stats <- lift (dict_item state "stats") ;;
     classifications <- lift (dict_item state "classifications") ;;
     persistent_sites <- lift (dict_item state "persistent_sites") ;;
     action_list <- lift (dict_item state "action_list") ;;
     r <- Tools.generate_summary stats classifications persistent_sites
            action_list shift_id ;;
     summary <- lift (py_get r "summary") ;;
     ret (dict_set state "summary" summary)
   else ret state).

Definition initial_state (srs : list pyval) (shift_id memory : pyval) : pydict :=
  [ ("srs", PList srs);
    ("shift_id", shift_id);
    ("memory", memory);
    ("stats", PNone);
    ("classifications", PNone);
    ("persistent_sites", PNone);
    ("action_list", PNone);
    ("summary", PNone);
    ("email", PNone) ].

Definition EMPTY_REPORT (shift_id : pyval) : pydict :=
  [ ("shift_id", shift_id);
    ("summary", PStr "No SRs provided for this shift.");
    ("stats", PDict [("total", PInt 0); ("open", PInt 0)]);
    ("classifications",
     PDict [ ("open_issues", PList []);
             ("follow_up_required", PList []);
             ("escalations", PList []);
             ("recurrent", PList []) ]);
    ("actions",
     PList [PDict [ ("action", PStr "No actions required.");
                    ("priority", PStr "low") ]]);
    ("persistent_sites", PList []) ].

Definition initial_messages (srs : list pyval) (shift_id memory_stats : pyval)
  : list pyval :=
  [ PDict [("role", PStr "system"); ("content", PStr ORCHESTRATOR_SYSTEM_PROMPT)];
    PDict [ ("role", PStr "user");
            ("content",
             PStr (json_dumps_indent
                     (PDict [ ("shift_id", shift_id);
                              ("srs_count", PInt (Z.of_nat (List.length srs)));
                              ("memory_stats", memory_stats);
                              ("available_state",
                               PList [ PStr "stats"; PStr "classifications";
                                       PStr "persistent_sites";
                                       PStr "action_list"; PStr "summary" ]) ]))) ] ].

Definition run (srs shift_id : pyval) (notify_email : bool) (email_to : pyval)
  : M pyval :=
  srs <- lift (_normalize_srs srs) ;;
  memory <- Memory.load_memory (PStr (memory_path self)) ;;
  let state := initial_state srs shift_id memory in
  match srs with
  | [] =>
      let report := EMPTY_REPORT shift_id in
      classifications <- lift (dict_item report "classifications") ;;
      persistent_sites <- lift (dict_item report "persistent_sites") ;;
      stats <- lift (dict_item report "stats") ;;
      updated_memory <- Memory.update_memory memory (PDict report)
                          classifications persistent_sites stats ;;
      memory_saved <- Memory.save_memory (PStr (memory_path self)) updated_memory ;;
      ret (PDict (dict_set (dict_set report "email" PNone)
                    "memory_updated" (PBool memory_saved)))
  | _ =>
      memory_stats <- lift (py_get_d memory "stats" (PDict [])) ;;
      let messages := initial_messages srs shift_id memory_stats in
      state <- loop (Z.to_nat (max_steps self)) messages state ;;
      state <- closure srs memory shift_id state ;;
      actions <- lift (py_get_d (dict_get_d state "action_list" (PDict []))
                         "actions" (PList [])) ;;
      sites <- lift (py_get_d (dict_get_d state "persistent_sites" (PDict []))
                       "persistent_sites" (PList [])) ;;
      let report :=
        [ ("shift_id", shift_id);
          ("summary", dict_get_d state "summary" (PStr ""));
          ("stats", dict_get_d state "stats" (PDict []));
          ("classifications", dict_get_d state "classifications" (PDict []));
          ("actions", actions);
          ("persistent_sites", sites) ] in
      let state := dict_set state "report" (PDict report) in
      sites' <- lift (py_get_d (dict_get_d state "persistent_sites" (PDict []))
                        "persistent_sites" (PList [])) ;;
      updated_memory <- Memory.update_memory memory (PDict report)
                          (dict_get_d state "classifications" (PDict []))
                          sites'
                          (dict_get_d state "stats" (PDict [])) ;;
      memory_saved <- Memory.save_memory (PStr (memory_path self)) updated_memory ;;
      email_result <-
        (if notify_email || truthy email_to
         then Tools.send_email (PDict report) email_to PNone (PDict [])
         else ret PNone) ;;
      ret (PDict (dict_set (dict_set report "email" email_result)
                    "memory_updated" (PBool memory_saved)))
  end.

End Agent.
End Agent.

(* ================================================================= *)
(** ** A concrete environment

    Used to evaluate the embedding on explicit inputs. *)

Module Demo.

(** The mean over the rationals, rounded to two decimals with ties to
    even: what the floating-point computation gives where it is exact. *)
Definition round_half_even (q : Q) : Z :=
  let f := Qfloor q in
  match Qcompare (Qminus q (inject_Z f)) (1 # 2) with
  | Lt => f
  | Gt => f + 1
  | Eq => if Z.even f then f else f + 1
  end.

Definition round2 (q : Q) : Q :=
  Qred (Qdiv (inject_Z (round_half_even (Qmult q (inject_Z 100)))) (inject_Z 100)).

Definition average (l : list Q) : Q :=
  Qdiv (fold_left Qplus l (inject_Z 0)) (inject_Z (Z.of_nat (List.length l))).

(** A codec that agrees with [json] on the few texts it knows; every
    message body can be encoded. *)
Definition runtime : Runtime := {|
  json_dumps := fun v =>
    match v with
    | PNone => "null"
    | PDict [] => "{}"
    | PList [] => "[]"
    | _ => "{...}"
    end;
  json_dumps_indent := fun v =>
    match v with
    | PNone => "null"
    | PDict [] => "{}"
    | PList [] => "[]"
    | _ => "{...}"
    end;
  json_loads := fun s =>
    if (s =? "{}")%string then Ok (PDict [])
    else if (s =? "[]")%string then Ok (PList [])
    else if (s =? "null")%string then Ok PNone
    else Raise ValueError;
  fromisoformat := fun _ => None;
  repr := fun _ => "<object>";
  int_of_text := fun s =>
    match NilZero.int_of_string s with
    | Some d => Ok (Z.of_int d)
    | None => Raise ValueError
    end;
  mean_rounded := fun l => round2 (average l);
  mime_text := fun _ => Ok tt
|}.

(** A disk that is a table from paths to contents, no SMTP server, no
    environment variables, a clock stopped at the epoch. *)
Definition host : Host := {|
  FS := list (string * string);
  path_exists := fun fs p =>
    match dict_get fs p with Some _ => true | None => false end;
  fd_exists := fun _ _ => false;
  open_read := fun fs p =>
    match p with
    | PStr s =>
        match dict_get fs s with
        | Some text => Ok text
        | None => Raise (ExternalError "FileNotFoundError")
        end
    | _ => Raise TypeError
    end;
  makedirs := fun fs _ => Ok fs;
  open_write := fun fs p text => Ok (dict_set fs p text);
  now_utc := fun _ => 0;
  utcnow_iso := fun _ => "1970-01-01T00:00:00";
  utcnow_date := fun _ => "1970-01-01";
  getenv := fun _ => None;
  smtp_session := fun _ _ _ _ _ _ _ _ _ => Some "connection refused"
|}.

(** A backend that answers every request with neither text nor operations. *)
Definition silent : LLM := {|
  chat := fun _ _ => Ok (PDict [("content", PNone); ("tool_calls", PList [])]);
  generate_text := fun _ _ _ => Ok (PStr "")
|}.

(** One proposed invocation. *)
Definition tool_call (id name : string) (arguments : pyval) : pyval :=
  PDict [("id", PStr id); ("name", PStr name); ("arguments", arguments)].

(** A backend whose first answer proposes the given invocations and which
    is silent afterwards; its text generation is out of service. *)
Definition proposing (calls : list pyval) : LLM := {|
  chat := fun n _ =>
    match n with
    | O => Ok (PDict [("content", PNone); ("tool_calls", PList calls)])
    | S _ => Ok (PDict [("content", PNone); ("tool_calls", PList [])])
    end;
  generate_text := fun _ _ _ => Raise (ExternalError "APIConnectionError")
|}.

(** A backend that answers every request with free text only. *)
Definition talkative : LLM := {|
  chat := fun _ _ =>
    Ok (PDict [("content", PStr " All quiet. "); ("tool_calls", PList [])]);
  generate_text := fun _ _ _ => Ok (PStr "Generated summary.")
|}.

(** A backend that cannot be reached. *)
Definition unreachable : LLM := {|
  chat := fun _ _ => Raise (ExternalError "APIConnectionError");
  generate_text := fun _ _ _ => Raise (ExternalError "APIConnectionError")
|}.

Definition cfg : Agent.config :=
  Agent.Config "data/memory.json" (8 # 1) (24 # 1) 10.

Definition w0 : @world host := @World host O [].

Definition ticket1 : pyval :=
  PDict [ ("id", PStr "SR-1"); ("title", PStr "Link down");
          ("status", PStr "Open"); ("priority", PStr "P1");
          ("site", PStr "ATH-01") ].

Definition ticket2 : pyval :=
  PDict [ ("id", PStr "SR-2"); ("title", PStr "Fan alarm");
          ("status", PStr " Closed "); ("priority", PStr "low");
          ("site", PStr "ATH-01") ].

(** Three tickets on two sites, and a memory that has seen the second site
    three times and a third site forty times. *)
Definition site_batch : list pyval :=
  [ PDict [("id", PStr "SR-1"); ("site", PStr "ATH-01")];
    PDict [("id", PStr "SR-2"); ("site", PStr " ATH-01 ")];
    PDict [("id", PStr "SR-3"); ("node", PStr "SKG-07")] ].

Definition site_memory : pyval :=
  PDict [ ("past_shifts", PList []);
          ("recurring_sites",
           PDict [("SKG-07", PInt 3); ("HER-02", PInt 40)]);
          ("escalations", PList []);
          ("stats", PDict [("total_shifts", PInt 3); ("total_srs", PInt 9)]) ].

(** A fresh memory document and the artifacts of a run of two tickets. *)
Definition fresh_memory : pydict :=
  [ ("past_shifts", PList []);
    ("recurring_sites", PDict []);
    ("escalations", PList []);
    ("stats", PDict [("total_shifts", PInt 0); ("total_srs", PInt 0)]) ].

Definition run_stats : pydict := [("total", PInt 2); ("open", PInt 1)].

Definition run_escalations : list pyval :=
  [PDict [ ("id", PStr "SR-1"); ("title", PStr "Link down");
           ("priority", PStr "P1");
           ("reason", PStr "SLA risk or high priority") ]].


Definition run_report : pydict :=
  [("shift_id", PStr "N-12"); ("summary", PStr "Quiet night.")].

(** The run state at the start of a run over the two demo tickets. *)
Definition two_ticket_state : pydict :=
  Agent.initial_state [ticket1; ticket2] PNone (PDict fresh_memory).

(** The dispatcher of the demo agent with the silent backend. *)
Definition dispatch :=
  @Agent._execute_tool runtime host silent cfg.

End Demo.

(* ================================================================= *)
(** ** Vocabulary of the statements *)

(** The five artifact slots of the run state. *)
Definition artifact_slots : list string :=
  ["stats"; "classifications"; "persistent_sites"; "action_list"; "summary"].

(** The action derived from one escalation entry. *)
Definition escalation_entry `{Runtime} (esc : pydict) : pyval :=
  PDict [ ("action",
           PStr ("Escalate SR " ++ py_str (Tools.fld esc "id")
                 ++ " to L2/management"));
          ("sr_id", Tools.fld esc "id");
          ("priority", py_or (Tools.fld esc "priority") (PStr "high")) ].

(** The action derived from one follow-up entry. *)
Definition followup_entry `{Runtime} (fu : pydict) : pyval :=
  PDict [ ("action",
           PStr ("Follow up on SR " ++ py_str (Tools.fld fu "id") ++ ": "
                 ++ py_str (Tools.fld fu "reason")));
          ("sr_id", Tools.fld fu "id");
          ("priority", PStr "medium") ].

Definition is_nil {A} (l : list A) : bool :=
  match l with [] => true | _ => false end.

(** Two sets of result lists put one after the other. *)
Definition merge (a b : Tools.buckets) : Tools.buckets :=
  Tools.Buckets (Tools.open_issues a ++ Tools.open_issues b)%list
                (Tools.follow_up a ++ Tools.follow_up b)%list
                (Tools.escalations a ++ Tools.escalations b)%list
                (Tools.recurrent a ++ Tools.recurrent b)%list.

Definition no_buckets : Tools.buckets := Tools.Buckets [] [] [] [].



(** The content of a memory document: the two aggregate counters, the
    shift history, the recurrence counter of each site, the escalation
    log. *)
Record memory_view : Type := View {
  v_shifts : Z;
  v_tickets : Z;
  v_past : list pyval;
  v_sites : Tools.counter;
  v_log : list pyval
}.

(** The dictionary [m] is a memory document with content [v]. *)
Definition views (m : pydict) (v : memory_view) : Prop :=
  (exists ms,
      dict_get m "stats" = Some (PDict ms)
      /\ dict_get ms "total_shifts" = Some (PInt (v_shifts v))
      /\ dict_get ms "total_srs" = Some (PInt (v_tickets v)))
  /\ dict_get m "past_shifts" = Some (PList (v_past v))
  /\ dict_get m "recurring_sites" = Some (Tools.counter_dict (v_sites v))
  /\ dict_get m "escalations" = Some (PList (v_log v)).

(** The recurrence count recorded for a site, 0 when there is none. *)
Definition site_count (c : Tools.counter) (site : string) : Z :=
  match dict_get c site with Some n => n | None => 0 end.

(** The record [update_memory] appends to the history. *)
Definition shift_record (timestamp : string) (report : pydict) (stats : pyval)
  : pyval :=
  PDict [ ("timestamp", PStr timestamp);
          ("shift_id", dict_get_d report "shift_id" PNone);
          ("summary", dict_get_d report "summary" PNone);
          ("stats", stats) ].

(** The arguments a handler takes from the run state when they are not
    given, as (operation, argument); the slot has the argument's name. *)
Definition state_backed : list (string * string) :=
  [ ("analyze_tickets", "srs");
    ("classify_tickets", "srs");
    ("detect_persistent_sites", "srs");
    ("detect_persistent_sites", "memory");
    ("create_action_list", "classifications");
    ("create_action_list", "srs");
    ("generate_summary", "stats");
    ("generate_summary", "classifications");
    ("generate_summary", "persistent_sites");
    ("generate_summary", "action_list");
    ("generate_summary", "shift_id");
    ("send_email", "report");
    ("save_memory", "memory") ].

(** [del d[k]] *)
Fixpoint dict_remove {A} (d : list (string * A)) (k : string)
  : list (string * A) :=
  match d with
  | [] => []
  | (k', v) :: d' =>
      if (k' =? k)%string then dict_remove d' k else (k', v) :: dict_remove d' k
  end.

(** What a dispatch returns to the loop, and the world it leaves. *)
Definition returned `{Host} (x : res (pyval * pydict) * world)
  : res pyval * world :=
  (match fst x with
   | Ok (result, _) => Ok result
   | Raise e => Raise e
   end, snd x).

(** The slot an operation stores its result in. *)
Definition writes (name : pyval) : option string :=
  if Agent.is_name name "analyze_tickets" then Some "stats"
  else if Agent.is_name name "classify_tickets" then Some "classifications"
  else if Agent.is_name name "detect_persistent_sites" then Some "persistent_sites"
  else if Agent.is_name name "create_action_list" then Some "action_list"
  else if Agent.is_name name "generate_summary" then Some "summary"
  else if Agent.is_name name "send_email" then Some "email"
  else if Agent.is_name name "save_memory" then None
  else if Agent.is_name name "load_memory" then Some "memory"
  else None.

(** What an operation stores there: its result, or the result's summary
    text for [generate_summary]. *)
Definition stored (name result : pyval) : res pyval :=
  if Agent.is_name name "generate_summary" then py_get result "summary"
  else if Agent.is_name name "load_memory"
  then py_get_d result "memory" (PDict [])
  else Ok result.

(** Every slot that holds a truthy value in [st] holds the same in [st']. *)
Definition keeps (st st' : pydict) : Prop :=
  forall k, truthy (Agent.slot st k) = true -> Agent.slot st' k = Agent.slot st k.

(** ** Vocabulary of the further properties *)

(** Text of ASCII characters only. *)
Definition ascii_char (c : ascii) : bool := (nat_of_ascii c <? 128)%nat.

Fixpoint is_ascii (s : string) : bool :=
  match s with
  | EmptyString => true
  | String c s' => ascii_char c && is_ascii s'
  end.

(** A value that is ASCII text or no text at all. *)
Definition ascii_text (v : pyval) : bool :=
  match v with
  | PStr s => is_ascii s
  | _ => true
  end.

(** A batch in which the status of every ticket is ASCII text or no text. *)
Definition ascii_statuses (items : list pyval) : bool :=
  forallb (fun item => match item with
                       | PDict sr => ascii_text (Tools.fld sr "status")
                       | _ => true
                       end) items.

(** The sum of the counts of a counter. *)
Definition counter_total (c : Tools.counter) : Z :=
  fold_right (fun kn acc => snd kn + acc) 0 c.

(** The entries the Classifier makes for a ticket. *)
Definition open_issue_of (sr : pydict) : pyval :=
  PDict [ ("id", py_or (Tools.fld sr "id") (Tools.fld sr "sr_id"));
          ("title", Tools.fld sr "title");
          ("status", Tools.fld sr "status") ].

Definition follow_up_of (sr : pydict) (hours_since : pyval) (reason : string)
  : pyval :=
  PDict [ ("id", py_or (Tools.fld sr "id") (Tools.fld sr "sr_id"));
          ("title", Tools.fld sr "title");
          ("status", Tools.fld sr "status");
          ("hours_since_update", hours_since);
          ("reason", PStr reason) ].

Definition escalation_of (sr : pydict) : pyval :=
  PDict [ ("id", py_or (Tools.fld sr "id") (Tools.fld sr "sr_id"));
          ("title", Tools.fld sr "title");
          ("priority", Tools.fld sr "priority");
          ("reason", PStr "SLA risk or high priority") ].

(** The number of tickets of a batch that are counted under a site key. *)
Definition site_occurrences `{Runtime} (tickets : list pydict) (site : string)
  : Z :=
  Z.of_nat
    (List.length
       (filter (fun sr => match Tools.site_key sr with
                          | Some key => (key =? site)%string
                          | None => false
                          end) tickets)).

(** A site reaches the threshold in the batch or in the history. *)
Definition recurs (hist : Tools.counter) (m : Z) (entry : string * Z) : bool :=
  (m <=? snd entry)%Z || (m <=? site_count hist (fst entry))%Z.

(** Ascending order of text. *)
Definition ascending : list string -> Prop :=
  Sorted (fun a b => String.leb a b = true).

(** A connection parameter of [send_email]: the explicit setting, else the
    process environment. *)
Definition setting `{Host} (settings : pydict) (name : string) : pyval :=
  py_or (dict_get_d settings name PNone) (Tools.env name).

(** The address [send_email] writes to. *)
Definition recipient_of `{Host} (to : pyval) (settings : pydict) : pyval :=
  if truthy to then to else setting settings "SMTP_TO".

(** The text [send_email] hands to [MIMEText]: the summary, an empty
    line, "Actions:" and one line per action. *)
Definition action_text `{Runtime} (action : pydict) : string :=
  "- " ++ py_str (Tools.fld action "action").

Definition email_body `{Runtime} (summary : string) (actions : list pydict)
  : string :=
  String.concat nl (summary :: "" :: "Actions:" :: map action_text actions).

(** The port [send_email] connects to. *)
Definition port_of `{Runtime} `{Host} (settings : pydict) : res Z :=
  py_int (py_or (dict_get_d settings "SMTP_PORT" PNone)
            (Tools.env_d "SMTP_PORT" "587")).

(** The names of the dispatch table. *)
Definition tool_names : list string :=
  [ "analyze_tickets"; "classify_tickets"; "detect_persistent_sites";
    "create_action_list"; "generate_summary"; "send_email"; "save_memory";
    "load_memory" ].

(** The tool message that answers a proposed invocation. *)
Definition answers (call message : pyval) : Prop :=
  py_get message "role" = Ok (PStr "tool")
  /\ py_get message "tool_call_id" = py_get call "id"
  /\ py_get message "name" = py_get call "name".

(** A memory document with content [v] whose escalation log is [log], or
    which has no "escalations" entry at all. *)
Definition views_core (m : pydict) (v : memory_view)
  (log : option (list pyval)) : Prop :=
  (exists ms,
      dict_get m "stats" = Some (PDict ms)
      /\ dict_get ms "total_shifts" = Some (PInt (v_shifts v))
      /\ dict_get ms "total_srs" = Some (PInt (v_tickets v)))
  /\ dict_get m "past_shifts" = Some (PList (v_past v))
  /\ dict_get m "recurring_sites" = Some (Tools.counter_dict (v_sites v))
  /\ dict_get m "escalations" = option_map PList log.

(** The report of a run without tickets. *)
Definition empty_batch_report (shift_id : pyval) (memory_updated : bool)
  : pyval :=
  PDict [ ("shift_id", shift_id);
          ("summary", PStr "No SRs provided for this shift.");
          ("stats", PDict [("total", PInt 0); ("open", PInt 0)]);
          ("classifications",
           PDict [ ("open_issues", PList []);
                   ("follow_up_required", PList []);
                   ("escalations", PList []);
                   ("recurrent", PList []) ]);
          ("actions",
           PList [PDict [ ("action", PStr "No actions required.");
                          ("priority", PStr "low") ]]);
          ("persistent_sites", PList []);
          ("email", PNone);
          ("memory_updated", PBool memory_updated) ].

(* ================================================================= *)
(** ** Further sample data *)

Module Sample.

(** The two demo tickets, and what the Analyzer and the Classifier return
    on them. *)
Definition link_down : pydict :=
  [ ("id", PStr "SR-1"); ("title", PStr "Link down");
    ("status", PStr "Open"); ("priority", PStr "P1");
    ("site", PStr "ATH-01") ].

Definition batch : list pyval := [Demo.ticket1; Demo.ticket2].

Definition stats : pyval :=
  PDict [ ("total", PInt 2); ("open", PInt 1);
          ("status_counts", PDict [("open", PInt 1); ("closed", PInt 1)]);
          ("priority_counts", PDict [("p1", PInt 1); ("low", PInt 1)]);
          ("avg_age_hours", PFloat 0) ].

Definition classifications : pyval :=
  PDict [ ("open_issues",
           PList [PDict [ ("id", PStr "SR-1"); ("title", PStr "Link down");
                          ("status", PStr "Open") ]]);
          ("follow_up_required", PList []);
          ("escalations", PList Demo.run_escalations);
          ("recurrent", PList []) ].

Definition nothing_classified : pyval :=
  PDict [ ("open_issues", PList []); ("follow_up_required", PList []);
          ("escalations", PList []); ("recurrent", PList []) ].

(** A ticket that waits for a vendor next to the closed demo ticket, and
    what the Classifier returns on them: the waiting ticket is an open
    issue and a follow-up. *)
Definition waiting : pydict :=
  [ ("id", PStr "SR-3"); ("title", PStr "Spare part ordered");
    ("status", PStr "Waiting vendor"); ("priority", PStr "low");
    ("site", PStr "SKG-07") ].

Definition waiting_batch : list pyval := [PDict waiting; Demo.ticket2].

Definition waiting_classified : pyval :=
  PDict [ ("open_issues",
           PList [PDict [ ("id", PStr "SR-3");
                          ("title", PStr "Spare part ordered");
                          ("status", PStr "Waiting vendor") ]]);
          ("follow_up_required",
           PList [PDict [ ("id", PStr "SR-3");
                          ("title", PStr "Spare part ordered");
                          ("status", PStr "Waiting vendor");
                          ("hours_since_update", PNone);
                          ("reason", PStr "Pending response") ]]);
          ("escalations", PList []);
          ("recurrent", PList []) ].

(** The tickets of [Demo.site_batch], the counters of [Demo.site_memory]
    and what the detection returns on them with threshold 2. *)
Definition site_tickets : list pydict :=
  [ [("id", PStr "SR-1"); ("site", PStr "ATH-01")];
    [("id", PStr "SR-2"); ("site", PStr " ATH-01 ")];
    [("id", PStr "SR-3"); ("node", PStr "SKG-07")] ].

Definition site_history : Tools.counter := [("SKG-07", 3); ("HER-02", 40)].

Definition site_document : pydict :=
  [ ("past_shifts", PList []);
    ("recurring_sites", Tools.counter_dict site_history);
    ("escalations", PList []);
    ("stats", PDict [("total_shifts", PInt 3); ("total_srs", PInt 9)]) ].

Definition sites : pyval :=
  PDict [ ("persistent_sites", PList [PStr "ATH-01"; PStr "SKG-07"]);
          ("current_counts", PDict [("ATH-01", PInt 2); ("SKG-07", PInt 1)]) ].

(** Connection settings that name a host, a sender and a recipient. *)
Definition relay : pydict :=
  [ ("SMTP_HOST", PStr "mail.example.net");
    ("SMTP_FROM", PStr "noc@example.net");
    ("SMTP_TO", PStr "lead@example.net") ].

(** A memory document that has lost its escalation log. *)
Definition memory_without_log : pydict :=
  [ ("past_shifts", PList []);
    ("recurring_sites", PDict []);
    ("stats", PDict [("total_shifts", PInt 0); ("total_srs", PInt 0)]) ].

(** The demo codec, which also knows the text of a one-element list, and
    a disk whose memory file holds that text. *)
Definition runtime : Runtime := {|
  json_dumps := @json_dumps Demo.runtime;
  json_dumps_indent := @json_dumps_indent Demo.runtime;
  json_loads := fun s =>
    if (s =? "[1]")%string then Ok (PList [PInt 1])
    else @json_loads Demo.runtime s;
  fromisoformat := @fromisoformat Demo.runtime;
  repr := @repr Demo.runtime;
  int_of_text := @int_of_text Demo.runtime;
  mean_rounded := @mean_rounded Demo.runtime;
  mime_text := @mime_text Demo.runtime
|}.

Definition foreign_memory_world : @world Demo.host :=
  @World Demo.host O [("data/memory.json", "[1]")].

(** Two proposed invocations, the second of an operation that does not
    exist, and the tool messages that answer them. *)
Definition proposals : list pyval :=
  [ Demo.tool_call "c1" "analyze_tickets" PNone;
    Demo.tool_call "c2" "no_such_tool" PNone ].

Definition answers_given : list pyval :=
  [ PDict [ ("role", PStr "tool"); ("tool_call_id", PStr "c1");
            ("name", PStr "analyze_tickets"); ("content", PStr "{...}") ];
    PDict [ ("role", PStr "tool"); ("tool_call_id", PStr "c2");
            ("name", PStr "no_such_tool"); ("content", PStr "{...}") ] ].

(** The run state after the closure step on the two demo tickets, with
    the silent backend. *)
Definition closed_state : pydict :=
  Eval vm_compute in
    match fst (@Agent.closure Demo.runtime Demo.host Demo.silent Demo.cfg
                 batch (PDict Demo.fresh_memory) PNone Demo.two_ticket_state
                 Demo.w0) with
    | Ok state => state
    | Raise _ => []
    end.

End Sample.

(* ================================================================= *)
(** * Properties *)

(** ** Dictionaries and lists *)

Lemma dict_get_set_same {A} (d : list (string * A)) k v :
  dict_get (dict_set d k v) k = Some v.
Proof.
  induction d as [|[k' v'] d IH]; simpl.
  - now rewrite String.eqb_refl.
  - destruct (String.eqb_spec k' k) as [->|Hne]; simpl.
    + now rewrite String.eqb_refl.
    + destruct (String.eqb_spec k' k); [contradiction | exact IH].
Qed.

Lemma dict_get_set_other {A} (d : list (string * A)) k k' v :
  k <> k' -> dict_get (dict_set d k v) k' = dict_get d k'.
Proof.
  intros Hne. induction d as [|[k0 v0] d IH]; simpl.
  - destruct (String.eqb_spec k k'); [contradiction | reflexivity].
  - destruct (String.eqb_spec k0 k) as [->|Hk]; simpl.
    + destruct (String.eqb_spec k k'); [contradiction | reflexivity].
    + destruct (String.eqb_spec k0 k'); [reflexivity | exact IH].
Qed.

Lemma foldM_app {A B} (f : B -> A -> res B) (l1 l2 : list A) (acc : B) :
  foldM f (l1 ++ l2) acc = rbind (foldM f l1 acc) (foldM f l2).
Proof.
  revert acc. induction l1 as [|x l1 IH]; intros acc; simpl; [reflexivity|].
  destruct (f acc x); simpl; [apply IH | reflexivity].
Qed.

(** ** ActionBuilder *)

Section ActionBuilder.
Context `{Runtime}.

Lemma escalation_actions (escs : list pydict) (acc : list pyval) :
  foldM Tools.escalation_action (map PDict escs) acc
  = Ok (acc ++ map escalation_entry escs)%list.
Proof.
  revert acc. induction escs as [|e escs IH]; intros acc; simpl.
  - now rewrite app_nil_r.
  - rewrite IH, <- app_assoc. reflexivity.
Qed.

Lemma followup_actions (fus : list pydict) (acc : list pyval) :
  foldM Tools.followup_action (map PDict fus) acc
  = Ok (acc ++ map followup_entry fus)%list.
Proof.
  revert acc. induction fus as [|e fus IH]; intros acc; simpl.
  - now rewrite app_nil_r.
  - rewrite IH, <- app_assoc. reflexivity.
Qed.

(** C4, as the code has it: with no escalation and no follow-up the action
    list is the single sentinel entry whose text is
    "No critical actions detected." and whose priority is "low"; otherwise
    it is one action per escalation, in order, followed by one action per
    follow-up, in order. *)
Theorem create_action_list_actions
  (cls : pydict) (srs : pyval) (escs fus : list pydict) :
  dict_get_d cls "escalations" (PList []) = PList (map PDict escs) ->
  dict_get_d cls "follow_up_required" (PList []) = PList (map PDict fus) ->
  Tools.create_action_list (PDict cls) srs
  = Ok (PDict
          [("actions",
            PList (if is_nil escs && is_nil fus
                   then [PDict [ ("action", PStr "No critical actions detected.");
                                 ("priority", PStr "low") ]]
                   else (map escalation_entry escs
                         ++ map followup_entry fus)%list))]).
Proof.
  intros He Hf. unfold Tools.create_action_list. simpl.
  rewrite He, Hf. simpl.
  rewrite escalation_actions. simpl.
  rewrite followup_actions. simpl.
  destruct escs as [|e escs]; destruct fus as [|f fus]; reflexivity.
Qed.

End ActionBuilder.

(** The statement of [create_action_list_actions] at a batch with one
    escalation and one follow-up. *)
Lemma create_action_list_actions_witness :
  @Tools.create_action_list Demo.runtime
    (PDict [ ("escalations", PList [PDict [("id", PStr "SR-1")]]);
             ("follow_up_required",
              PList [PDict [("id", PStr "SR-2"); ("reason", PStr "Pending vendor")]]) ])
    (PList [])
  = Ok (PDict
          [("actions",
            PList [ PDict [ ("action", PStr "Escalate SR SR-1 to L2/management");
                            ("sr_id", PStr "SR-1");
                            ("priority", PStr "high") ];
                    PDict [ ("action", PStr "Follow up on SR SR-2: Pending vendor");
                            ("sr_id", PStr "SR-2");
                            ("priority", PStr "medium") ] ])]).
Proof.
  exact (@create_action_list_actions Demo.runtime
           [ ("escalations", PList [PDict [("id", PStr "SR-1")]]);
             ("follow_up_required",
              PList [PDict [("id", PStr "SR-2"); ("reason", PStr "Pending vendor")]]) ]
           (PList [])
           [[("id", PStr "SR-1")]]
           [[("id", PStr "SR-2"); ("reason", PStr "Pending vendor")]]
           eq_refl eq_refl).
Defined.

(** C4 as worded fails: on empty escalation and follow-up lists the single
    entry does not read "no actions required". *)
Lemma sentinel_text_is_not_no_actions_required :
  ~ (exists a,
       @Tools.create_action_list Demo.runtime
         (PDict [("escalations", PList []); ("follow_up_required", PList [])])
         (PList [])
       = Ok (PDict [("actions", PList [a])])
       /\ py_get a "action" = Ok (PStr "no actions required")
       /\ py_get a "priority" = Ok (PStr "low")).
Proof.
  intros [a [Hrun [Htext _]]].
  vm_compute in Hrun. inversion Hrun; subst a.
  vm_compute in Htext. discriminate.
Qed.

(** ** Classifier *)

Section Classifier.
Context `{Runtime} `{Host}.

Lemma merge_assoc a b c : merge (merge a b) c = merge a (merge b c).
Proof. unfold merge; simpl. now rewrite <- !app_assoc. Qed.

Lemma merge_no_buckets_l a : merge no_buckets a = a.
Proof. now destruct a. Qed.

Lemma merge_no_buckets_r a : merge a no_buckets = a.
Proof. destruct a; unfold merge; simpl. now rewrite !app_nil_r. Qed.

(** What a ticket adds to the four lists does not depend on what they hold. *)
Lemma classify_step_merge now fh sh acc item :
  Tools.classify_step now fh sh acc item
  = rbind (Tools.classify_step now fh sh no_buckets item)
          (fun d => Ok (merge acc d)).
Proof.
  unfold Tools.classify_step.
  destruct (Tools.as_dict item) as [sr|e]; simpl; [|reflexivity].
  destruct (Tools._norm (Tools.fld sr "priority")); simpl; [|reflexivity].
  destruct (Tools._is_closed (Tools.fld sr "status")) as [closed|]; simpl;
    [|reflexivity].
  destruct (match Tools._parse_datetime (Tools.fld sr "last_update") with
            | Some t =>
                rbind (py_ge (Tools.hours_between now t) fh)
                  (fun late => Ok (late, PFloat (Tools.hours_between now t)))
            | None => Ok (false, PNone)
            end) as [[stale hours_since]|]; simpl; [|reflexivity].
  destruct (Tools._norm (Tools.fld sr "status")); simpl; [|reflexivity].
  destruct (negb closed && _) eqn:Hneed; simpl.
  - destruct (Tools._ticket_reason sr); simpl; [|reflexivity].
    destruct (Tools.joined_text sr); simpl; [|reflexivity].
    destruct (match Tools._parse_datetime (Tools.fld sr "last_update") with
              | Some t => py_ge (Tools.hours_between now t) sh
              | None => Ok false
              end); simpl; [|reflexivity].
    unfold merge; simpl.
    repeat match goal with
           | |- context [if ?b then _ else _] => destruct b; simpl
           end; now rewrite ?app_nil_r.
  - destruct (Tools.joined_text sr); simpl; [|reflexivity].
    destruct (match Tools._parse_datetime (Tools.fld sr "last_update") with
              | Some t => py_ge (Tools.hours_between now t) sh
              | None => Ok false
              end); simpl; [|reflexivity].
    unfold merge; simpl.
    repeat match goal with
           | |- context [if ?b then _ else _] => destruct b; simpl
           end; now rewrite ?app_nil_r.
Qed.

Lemma classify_fold_merge now fh sh items acc :
  foldM (Tools.classify_step now fh sh) items acc
  = rbind (foldM (Tools.classify_step now fh sh) items no_buckets)
          (fun d => Ok (merge acc d)).
Proof.
  revert acc. induction items as [|item items IH]; intros acc; simpl.
  - now rewrite merge_no_buckets_r.
  - rewrite (classify_step_merge now fh sh acc item).
    destruct (Tools.classify_step now fh sh no_buckets item) as [d|e]; simpl;
      [|reflexivity].
    rewrite (IH (merge acc d)), (IH d).
    destruct (foldM _ items no_buckets); simpl; [|reflexivity].
    now rewrite merge_assoc.
Qed.

(** A closed ticket adds nothing to the open issues nor to the follow-ups. *)
Lemma classify_step_closed now fh sh sr d :
  Tools._is_closed (Tools.fld sr "status") = Ok true ->
  Tools.classify_step now fh sh no_buckets (PDict sr) = Ok d ->
  Tools.open_issues d = [] /\ Tools.follow_up d = [].
Proof.
  intros Hc. unfold Tools.classify_step. simpl. rewrite Hc. simpl.
  destruct (Tools._norm (Tools.fld sr "priority")); simpl; [|discriminate].
  destruct (match Tools._parse_datetime (Tools.fld sr "last_update") with
            | Some t =>
                rbind (py_ge (Tools.hours_between now t) fh)
                  (fun late => Ok (late, PFloat (Tools.hours_between now t)))
            | None => Ok (false, PNone)
            end) as [[stale hours_since]|]; simpl; [|discriminate].
  destruct (Tools._norm (Tools.fld sr "status")); simpl; [|discriminate].
  destruct (Tools.joined_text sr); simpl; [|discriminate].
  destruct (match Tools._parse_datetime (Tools.fld sr "last_update") with
            | Some t => py_ge (Tools.hours_between now t) sh
            | None => Ok false
            end); simpl; [|discriminate].
  intros Hd; inversion Hd; subst d; simpl. split; reflexivity.
Qed.

Lemma in_set_In s l : In s l -> Tools.in_set s l = true.
Proof.
  intros Hin. unfold Tools.in_set. apply existsb_exists.
  exists s. split; [exact Hin | apply String.eqb_refl].
Qed.

Lemma norm_text s : Tools._norm (PStr s) = Ok (lower (strip s)).
Proof. now destruct s. Qed.

Lemma is_closed_text s :
  In (lower (strip s)) Tools.CLOSED_STATUSES ->
  Tools._is_closed (PStr s) = Ok true.
Proof.
  intros Hin. unfold Tools._is_closed. rewrite norm_text.
  cbn [rbind]. now rewrite (in_set_In _ _ Hin).
Qed.

(** C2: a ticket whose normalised status is one of closed, resolved, done,
    completed, cancelled contributes no entry to [open_issues] nor to
    [follow_up_required], whatever its other fields are: the two lists are
    those of the batch without the ticket. *)
Theorem closed_ticket_not_listed
  (pre post : list pyval) (sr : pydict) (status : string)
  (followup_hours sla_hours : pyval) (w : world) (r : pyval) :
  Tools.fld sr "status" = PStr status ->
  In (lower (strip status)) Tools.CLOSED_STATUSES ->
  fst (Tools.classify_tickets (PList (pre ++ PDict sr :: post))
         followup_hours sla_hours w) = Ok r ->
  exists r',
    fst (Tools.classify_tickets (PList (pre ++ post))
           followup_hours sla_hours w) = Ok r'
    /\ py_get r' "open_issues" = py_get r "open_issues"
    /\ py_get r' "follow_up_required" = py_get r "follow_up_required".
Proof.
  intros Hst Hin. apply is_closed_text in Hin. rewrite <- Hst in Hin.
  unfold Tools.classify_tickets, bind, tick, lift, Tools.classify_at. simpl.
  set (now := now_utc (ticks w)).
  rewrite !foldM_app. simpl.
  destruct (foldM _ pre _) as [b1|e]; simpl; [|discriminate].
  rewrite classify_step_merge.
  destruct (Tools.classify_step now followup_hours sla_hours no_buckets (PDict sr))
    as [d|e] eqn:Hd; simpl; [|discriminate].
  destruct (classify_step_closed _ _ _ _ Hin Hd) as [Ho Hf].
  rewrite classify_fold_merge, (classify_fold_merge _ _ _ post b1).
  destruct (foldM _ post no_buckets) as [b2|e]; simpl; [|discriminate].
  intros Hr; inversion Hr; subst r. eexists. split; [reflexivity|].
  unfold Tools.classify_result; simpl. rewrite Ho, Hf, !app_nil_r.
  split; reflexivity.
Qed.

End Classifier.

(** [closed_ticket_not_listed] at a batch of two tickets whose second one
    is closed, with status text " Closed ". *)
Lemma closed_ticket_not_listed_witness :
  exists r',
    fst (@Tools.classify_tickets Demo.runtime Demo.host
           (PList ([Demo.ticket1] ++ [])) (PFloat (8 # 1)) (PFloat (24 # 1))
           Demo.w0) = Ok r'
    /\ py_get r' "open_issues"
       = Ok (PList [PDict [ ("id", PStr "SR-1"); ("title", PStr "Link down");
                            ("status", PStr "Open") ]])
    /\ py_get r' "follow_up_required" = Ok (PList []).
Proof.
  apply (@closed_ticket_not_listed Demo.runtime Demo.host
           [Demo.ticket1] []
           [ ("id", PStr "SR-2"); ("title", PStr "Fan alarm");
             ("status", PStr " Closed "); ("priority", PStr "low");
             ("site", PStr "ATH-01") ]
           " Closed " (PFloat (8 # 1)) (PFloat (24 # 1)) Demo.w0
           (PDict
              [ ("open_issues",
                 PList [PDict [ ("id", PStr "SR-1"); ("title", PStr "Link down");
                                ("status", PStr "Open") ]]);
                ("follow_up_required", PList []);
                ("escalations",
                 PList [PDict [ ("id", PStr "SR-1"); ("title", PStr "Link down");
                                ("priority", PStr "P1");
                                ("reason", PStr "SLA risk or high priority") ]]);
                ("recurrent", PList []) ])).
  - reflexivity.
  - vm_compute. tauto.
  - reflexivity.
Defined.

(** ** SiteDetector *)

Lemma In_insert_sorted x y l : In x (insert_sorted y l) <-> x = y \/ In x l.
Proof.
  induction l as [|z l IH]; simpl.
  - intuition.
  - destruct (String.leb y z); simpl; rewrite ?IH; intuition.
Qed.

Lemma In_sort_strings x l : In x (sort_strings l) <-> In x l.
Proof.
  induction l as [|y l IH]; simpl; [tauto|].
  rewrite In_insert_sorted, IH. intuition.
Qed.

Lemma In_sorted_set x l : In x (sorted_set l) <-> In x l.
Proof. unfold sorted_set. now rewrite In_sort_strings, nodup_In. Qed.

Lemma In_keys_dict_set {A} (d : list (string * A)) k v s :
  In s (dict_keys (dict_set d k v)) -> s = k \/ In s (dict_keys d).
Proof.
  unfold dict_keys. induction d as [|[k' v'] d IH]; simpl.
  - intuition.
  - destruct (String.eqb_spec k' k) as [->|Hne]; simpl; intuition.
Qed.

Lemma ge_int (c t : Z) : py_ge (inject_Z c) (PInt t) = Ok (t <=? c)%Z.
Proof.
  unfold py_ge, num_of, Qle_bool. simpl. now rewrite !Z.mul_1_r.
Qed.

Section SiteDetector.
Context `{Runtime}.

(** Every counted site is the key of a ticket of the batch. *)
Lemma counted_site_has_ticket items acc counts s :
  foldM Tools.count_step items acc = Ok counts ->
  In s (dict_keys counts) ->
  In s (dict_keys acc)
  \/ exists sr, In (PDict sr) items /\ Tools.site_key sr = Some s.
Proof.
  revert acc. induction items as [|item items IH]; intros acc; simpl.
  - intros Hc; inversion Hc; subst. now left.
  - unfold Tools.count_step at 1.
    destruct item as [| | | | | |sr]; simpl; try discriminate.
    destruct (Tools.site_key sr) as [key|] eqn:Hk; simpl; intros Hf Hin.
    + destruct (IH _ Hf Hin) as [Hacc|[sr' [Hin' Hs]]].
      * apply In_keys_dict_set in Hacc. destruct Hacc as [->|Hacc].
        -- right. exists sr. split; [now left | exact Hk].
        -- now left.
      * right. exists sr'. split; [now right | exact Hs].
    + destruct (IH _ Hf Hin) as [Hacc|[sr' [Hin' Hs]]].
      * now left.
      * right. exists sr'. split; [now right | exact Hs].
Qed.

(** Every reported site is a counted site. *)
Lemma persistent_is_counted mc m counts acc persistent s :
  foldM (Tools.persistent_step mc m) counts acc = Ok persistent ->
  In s persistent -> In s acc \/ In s (dict_keys counts).
Proof.
  revert acc. induction counts as [|[site count] counts IH]; intros acc; simpl.
  - intros Hp; inversion Hp; subst. now left.
  - destruct (rbind (py_get_d mc site (PInt 0)) _) as [hist|]; simpl;
      [|discriminate].
    destruct (py_ge (inject_Z count) m) as [hit1|]; simpl; [|discriminate].
    destruct (if hit1 then Ok true else py_ge (inject_Z hist) m) as [hit|]; simpl;
      [|discriminate].
    intros Hf Hin. destruct (IH _ Hf Hin) as [Hacc|Hc]; [|now right; right].
    destruct hit; [|now left].
    apply in_app_or in Hacc. destruct Hacc as [Hacc|[<-|[]]].
    + now left.
    + right. now left.
Qed.

(** C10: every site reported as persistent is the site (or node) of a
    ticket of the current batch; a site that only memory knows, however
    often it recurred, is not reported. *)
Theorem persistent_site_has_ticket
  (srs : list pyval) (memory min_recurrence r : pyval) :
  Tools.detect_persistent_sites (PList srs) memory min_recurrence = Ok r ->
  exists sites,
    py_get r "persistent_sites" = Ok (PList (map PStr sites))
    /\ (forall s, In s sites ->
         exists sr, In (PDict sr) srs /\ Tools.site_key sr = Some s)
    /\ (forall s, (forall sr, In (PDict sr) srs -> Tools.site_key sr <> Some s) ->
         ~ In s sites).
Proof.
  unfold Tools.detect_persistent_sites. simpl.
  destruct (foldM Tools.count_step srs []) as [counts|] eqn:Hc; simpl;
    [|discriminate].
  destruct (if truthy memory then _ else _) as [mc|]; simpl; [|discriminate].
  destruct (foldM _ counts []) as [persistent|] eqn:Hp; simpl; [|discriminate].
  intros Hr; inversion Hr; subst r. exists (sorted_set persistent).
  assert (Hsite : forall s, In s (sorted_set persistent) ->
                   exists sr, In (PDict sr) srs /\ Tools.site_key sr = Some s).
  { intros s Hin. apply (proj1 (In_sorted_set _ _)) in Hin.
    destruct (persistent_is_counted _ _ _ _ s Hp Hin) as [[]|Hk].
    destruct (counted_site_has_ticket _ _ s Hc Hk) as [[]|Hsr]. exact Hsr. }
  split; [reflexivity|]. split; [exact Hsite|].
  intros s Hnone Hin. destruct (Hsite s Hin) as [sr [Hsr Hkey]].
  exact (Hnone sr Hsr Hkey).
Qed.

Lemma persistent_step_antitone mc site count (t1 t2 : Z) acc1 acc2 :
  t1 <= t2 -> incl acc2 acc1 ->
  match Tools.persistent_step mc (PInt t2) acc2 (site, count),
        Tools.persistent_step mc (PInt t1) acc1 (site, count) with
  | Ok p2, Ok p1 => incl p2 p1
  | Raise e2, Raise e1 => e2 = e1
  | _, _ => False
  end.
Proof.
  intros Hle Hincl. unfold Tools.persistent_step.
  destruct (rbind (py_get_d mc site (PInt 0)) _) as [hist|e]; cbn [rbind];
    [|reflexivity].
  rewrite !ge_int; cbn [rbind].
  assert (Hmono : forall c, (t2 <=? c)%Z = true -> (t1 <=? c)%Z = true).
  { intros c Hc. apply Z.leb_le in Hc. apply Z.leb_le. lia. }
  assert (Hgrow : incl (acc2 ++ [site]) (acc1 ++ [site])).
  { apply incl_app; [now apply incl_appl | now apply incl_appr]. }
  destruct (t2 <=? count)%Z eqn:H2; cbn [rbind].
  - rewrite (Hmono _ H2); cbn [rbind]. exact Hgrow.
  - destruct (t1 <=? count)%Z; cbn [rbind].
    + destruct (t2 <=? hist)%Z; [exact Hgrow | now apply incl_appl].
    + destruct (t2 <=? hist)%Z eqn:H2h.
      * rewrite (Hmono _ H2h). exact Hgrow.
      * destruct (t1 <=? hist)%Z; [now apply incl_appl | exact Hincl].
Qed.

(** Raising the threshold can only drop sites, and does not change whether
    the detection raises. *)
Lemma persistent_fold_antitone mc counts (t1 t2 : Z) acc1 acc2 :
  t1 <= t2 -> incl acc2 acc1 ->
  match foldM (Tools.persistent_step mc (PInt t2)) counts acc2,
        foldM (Tools.persistent_step mc (PInt t1)) counts acc1 with
  | Ok p2, Ok p1 => incl p2 p1
  | Raise e2, Raise e1 => e2 = e1
  | _, _ => False
  end.
Proof.
  intros Hle. revert acc1 acc2.
  induction counts as [|[site count] counts IH]; intros acc1 acc2 Hincl;
    cbn [foldM].
  - exact Hincl.
  - pose proof (persistent_step_antitone mc site count Hle Hincl)
      as Hstep.
    destruct (Tools.persistent_step mc (PInt t2) acc2 (site, count));
      destruct (Tools.persistent_step mc (PInt t1) acc1 (site, count));
      cbn [rbind]; try contradiction; try exact Hstep.
    now apply IH.
Qed.

(** C3: with the batch and the memory fixed, the persistent sites found
    with the larger threshold are among those found with the smaller one. *)
Theorem persistent_sites_antitone (srs memory : pyval) (t1 t2 : Z) :
  t1 <= t2 ->
  match Tools.detect_persistent_sites srs memory (PInt t2),
        Tools.detect_persistent_sites srs memory (PInt t1) with
  | Ok r2, Ok r1 =>
      exists sites1 sites2,
        py_get r1 "persistent_sites" = Ok (PList (map PStr sites1))
        /\ py_get r2 "persistent_sites" = Ok (PList (map PStr sites2))
        /\ incl sites2 sites1
  | Raise e2, Raise e1 => e2 = e1
  | _, _ => False
  end.
Proof.
  intros Hle. unfold Tools.detect_persistent_sites.
  destruct (py_iter srs) as [items|]; simpl; [|reflexivity].
  destruct (foldM Tools.count_step items []) as [counts|]; simpl; [|reflexivity].
  destruct (if truthy memory then _ else _) as [mc|]; simpl; [|reflexivity].
  pose proof (persistent_fold_antitone mc counts Hle (incl_refl [])) as Hfold.
  destruct (foldM (Tools.persistent_step mc (PInt t2)) counts []) as [p2|e2];
    destruct (foldM (Tools.persistent_step mc (PInt t1)) counts []) as [p1|e1];
    simpl; try contradiction; try exact Hfold.
  exists (sorted_set p1), (sorted_set p2). repeat split.
  intros s Hin. apply In_sorted_set. apply Hfold.
  exact (proj1 (In_sorted_set _ _) Hin).
Qed.

End SiteDetector.

(** [persistent_sites_antitone] at thresholds 2 and 3. *)
Lemma persistent_sites_antitone_witness :
  match @Tools.detect_persistent_sites Demo.runtime
          (PList Demo.site_batch) Demo.site_memory (PInt 3),
        @Tools.detect_persistent_sites Demo.runtime
          (PList Demo.site_batch) Demo.site_memory (PInt 2) with
  | Ok r2, Ok r1 =>
      exists sites1 sites2,
        py_get r1 "persistent_sites" = Ok (PList (map PStr sites1))
        /\ py_get r2 "persistent_sites" = Ok (PList (map PStr sites2))
        /\ incl sites2 sites1
  | Raise e2, Raise e1 => e2 = e1
  | _, _ => False
  end.
Proof.
  apply (@persistent_sites_antitone Demo.runtime
           (PList Demo.site_batch) Demo.site_memory 2 3).
  lia.
Defined.

(** The two results of the example: the site with three past recurrences
    stays at threshold 3, the site seen twice in the batch does not, and
    the site that only memory knows is in neither. *)
Example detect_at_2_and_3 :
  @Tools.detect_persistent_sites Demo.runtime
    (PList Demo.site_batch) Demo.site_memory (PInt 2)
  = Ok (PDict [ ("persistent_sites", PList [PStr "ATH-01"; PStr "SKG-07"]);
                ("current_counts",
                 PDict [("ATH-01", PInt 2); ("SKG-07", PInt 1)]) ])
  /\ @Tools.detect_persistent_sites Demo.runtime
       (PList Demo.site_batch) Demo.site_memory (PInt 3)
     = Ok (PDict [ ("persistent_sites", PList [PStr "SKG-07"]);
                   ("current_counts",
                    PDict [("ATH-01", PInt 2); ("SKG-07", PInt 1)]) ]).
Proof. split; reflexivity. Qed.

(** [persistent_site_has_ticket] on the same batch at threshold 2. *)
Lemma persistent_site_has_ticket_witness :
  exists sites,
    py_get (PDict [ ("persistent_sites", PList [PStr "ATH-01"; PStr "SKG-07"]);
                    ("current_counts",
                     PDict [("ATH-01", PInt 2); ("SKG-07", PInt 1)]) ])
      "persistent_sites" = Ok (PList (map PStr sites))
    /\ (forall s, In s sites ->
         exists sr, In (PDict sr) Demo.site_batch
                    /\ @Tools.site_key Demo.runtime sr = Some s)
    /\ (forall s,
          (forall sr, In (PDict sr) Demo.site_batch ->
                      @Tools.site_key Demo.runtime sr <> Some s) ->
          ~ In s sites).
Proof.
  apply (@persistent_site_has_ticket Demo.runtime
           Demo.site_batch Demo.site_memory (PInt 2)).
  reflexivity.
Defined.

(** ** MemoryStore: load *)

Section MemoryLoad.
Context `{Runtime} `{Host}.

(** C6: for every path, [load_memory] returns without raising and leaves
    the disk as it is: the zeroed default document when the path is empty,
    the file is missing, cannot be read or does not parse, the parsed
    document otherwise. *)
Theorem load_memory_never_raises (path : string) (w : world) :
  Memory.load_memory (PStr path) w
  = (Ok (if (path =? "")%string || negb (path_exists (disk w) path)
         then PDict [ ("past_shifts", PList []);
                      ("recurring_sites", PDict []);
                      ("escalations", PList []);
                      ("stats", PDict [ ("total_shifts", PInt 0);
                                        ("total_srs", PInt 0) ]) ]
         else
           match rbind (open_read (disk w) (PStr path)) json_loads with
           | Ok document => document
           | Raise _ =>
               PDict [ ("past_shifts", PList []);
                       ("recurring_sites", PDict []);
                       ("escalations", PList []);
                       ("stats", PDict [ ("total_shifts", PInt 0);
                                         ("total_srs", PInt 0) ]) ]
           end),
     w).
Proof.
  unfold Memory.load_memory. cbn [truthy].
  destruct (path =? "")%string; cbn [negb orb]; [reflexivity|].
  unfold bind, Memory.os_path_exists, get_disk, ret, catch, lift. cbn.
  destruct (path_exists (disk w) path); cbn; [|reflexivity].
  destruct (open_read (disk w) (PStr path)) as [text|]; cbn; [|reflexivity].
  destruct (json_loads text); reflexivity.
Qed.

End MemoryLoad.

(** ** SummaryComposer *)

Lemma rstrip_kept (s t : string) :
  rstrip t = t -> t <> "" -> rstrip (s ++ t) = s ++ t /\ s ++ t <> "".
Proof.
  intros Ht Hne. induction s as [|c s [IH1 IH2]]; simpl.
  - split; assumption.
  - rewrite IH1. split; [|discriminate].
    destruct (s ++ t); [contradiction | reflexivity].
Qed.

Section SummaryComposer.
Context `{Runtime} `{Host} `{LLM}.

(** The stripped fallback text is the template itself. *)
Lemma fallback_summary_template shift_id total open_ n :
  Tools.fallback_summary shift_id total open_ n
  = "Shift " ++ py_str (py_or shift_id (PStr "")) ++ " summary: "
    ++ py_str total ++ " SRs handled, " ++ py_str open_ ++ " open, "
    ++ str_of_Z n ++ " escalations.".
Proof.
  unfold Tools.fallback_summary, strip.
  change (lstrip ("Shift " ++ ?x)) with ("Shift " ++ x).
  assert (K0 : rstrip " escalations." = " escalations."
               /\ " escalations." <> "") by (split; [reflexivity | discriminate]).
  destruct K0 as [K0 K0'].
  destruct (rstrip_kept (str_of_Z n) K0 K0') as [K1 K1'].
  destruct (rstrip_kept " open, " K1 K1') as [K2 K2'].
  destruct (rstrip_kept (py_str open_) K2 K2') as [K3 K3'].
  destruct (rstrip_kept " SRs handled, " K3 K3') as [K4 K4'].
  destruct (rstrip_kept (py_str total) K4 K4') as [K5 K5'].
  destruct (rstrip_kept " summary: " K5 K5') as [K6 K6'].
  destruct (rstrip_kept (py_str (py_or shift_id (PStr ""))) K6 K6') as [K7 K7'].
  destruct (rstrip_kept "Shift " K7 K7') as [K8 _].
  exact K8.
Qed.

#[local] Arguments Tools.fallback_summary : simpl never.




End SummaryComposer.



(** ** MemoryStore: update *)


Lemma counter_get (c : Tools.counter) k :
  dict_get (map (fun kn => (fst kn, PInt (snd kn))) c) k
  = option_map PInt (dict_get c k).
Proof.
  induction c as [|[k' n] c IH]; simpl; [reflexivity|].
  destruct (k' =? k)%string; [reflexivity | exact IH].
Qed.

Lemma counter_set (c : Tools.counter) k n :
  dict_set (map (fun kn => (fst kn, PInt (snd kn))) c) k (PInt n)
  = map (fun kn => (fst kn, PInt (snd kn))) (dict_set c k n).
Proof.
  induction c as [|[k' n'] c IH]; simpl; [reflexivity|].
  destruct (k' =? k)%string; simpl; [reflexivity | now rewrite IH].
Qed.

Lemma counter_dict_get (c : Tools.counter) k :
  py_get_d (Tools.counter_dict c) k (PInt 0) = Ok (PInt (site_count c k)).
Proof.
  unfold Tools.counter_dict, site_count. cbn [py_get_d]. unfold dict_get_d.
  rewrite counter_get. now destruct (dict_get c k).
Qed.

Lemma counter_dict_set (c : Tools.counter) k n :
  py_setitem (Tools.counter_dict c) k (PInt n)
  = Ok (Tools.counter_dict (dict_set c k n)).
Proof.
  unfold Tools.counter_dict. cbn [py_setitem]. now rewrite counter_set.
Qed.

Lemma site_count_bump (c : Tools.counter) k s :
  site_count (Tools.bump c k) s
  = site_count c s + (if string_dec k s then 1 else 0).
Proof.
  unfold site_count, Tools.bump.
  destruct (string_dec k s) as [->|Hne].
  - rewrite dict_get_set_same. reflexivity.
  - rewrite (dict_get_set_other _ _ Hne). lia.
Qed.


Ltac other_key :=
  repeat first [ rewrite dict_get_set_same
               | rewrite dict_get_set_other by discriminate ];
  try assumption; try reflexivity.

Lemma views_stats m v ms a b :
  views m v ->
  dict_get ms "total_shifts" = Some (PInt a) ->
  dict_get ms "total_srs" = Some (PInt b) ->
  views (dict_set m "stats" (PDict ms))
        (View a b (v_past v) (v_sites v) (v_log v)).
Proof.
  intros [_ [Hp [Hs Hl]]] Ha Hb. unfold views; simpl.
  split; [exists ms; other_key; auto|]. repeat split; other_key.
Qed.

Lemma views_past m v l :
  views m v ->
  views (dict_set m "past_shifts" (PList l))
        (View (v_shifts v) (v_tickets v) l (v_sites v) (v_log v)).
Proof.
  intros [[ms [Hm [Ha Hb]]] [Hp [Hs Hl]]]. unfold views; simpl.
  split; [exists ms; other_key; auto|]. repeat split; other_key.
Qed.

Lemma views_sites m v c :
  views m v ->
  views (dict_set m "recurring_sites" (Tools.counter_dict c))
        (View (v_shifts v) (v_tickets v) (v_past v) c (v_log v)).
Proof.
  intros [[ms [Hm [Ha Hb]]] [Hp [Hs Hl]]]. unfold views; simpl.
  split; [exists ms; other_key; auto|]. repeat split; other_key.
Qed.

Lemma views_log m v l :
  views m v ->
  views (dict_set m "escalations" (PList l))
        (View (v_shifts v) (v_tickets v) (v_past v) (v_sites v) l).
Proof.
  intros [[ms [Hm [Ha Hb]]] [Hp [Hs Hl]]]. unfold views; simpl.
  split; [exists ms; other_key; auto|]. repeat split; other_key.
Qed.

Section MemoryUpdate.
Context `{Runtime} `{Host}.

Lemma count_run_views m v (stats : pydict) total :
  views m v ->
  dict_get_d stats "total" (PInt 0) = PInt total ->
  exists m',
    Memory.count_run (PDict m) (PDict stats) = Ok (PDict m')
    /\ views m' (View (v_shifts v + 1) (v_tickets v + total)
                   (v_past v) (v_sites v) (v_log v)).
Proof.
  intros Hv Ht. pose proof Hv as [[ms [Hm [Ha Hb]]] _].
  unfold Memory.count_run. cbn [py_item]. unfold dict_item.
  rewrite Hm. cbn [rbind py_get_d]. unfold dict_get_d at 1. rewrite Ha.
  cbn [rbind py_int py_setitem py_item]. unfold dict_item.
  rewrite dict_get_set_same.
  cbn [rbind py_get_d]. unfold dict_get_d at 1.
  rewrite dict_get_set_other by discriminate. rewrite Hb, Ht.
  cbn [rbind py_int py_setitem]. eexists. split; [reflexivity|].
  destruct Hv as [_ [Hp [Hs Hl]]].
  unfold views; cbn [v_past v_sites v_log v_shifts v_tickets].
  split; [eexists; split; [apply dict_get_set_same | split; other_key]|].
  repeat split; other_key.
Qed.

Lemma record_shift_views timestamp m v (report : pydict) stats :
  views m v ->
  exists m',
    Memory.record_shift timestamp (PDict m) (PDict report) stats = Ok (PDict m')
    /\ views m' (View (v_shifts v) (v_tickets v)
                   (lastn 50 (v_past v ++ [shift_record timestamp report stats]))
                   (v_sites v) (v_log v)).
Proof.
  intros Hv. pose proof Hv as [_ [Hp _]].
  unfold Memory.record_shift. cbn [py_get py_get_d rbind py_setdefault].
  rewrite Hp. cbn [rbind py_append py_setitem py_item]. unfold dict_item.
  rewrite dict_get_set_same. cbn [rbind py_last py_setitem].
  eexists. split; [reflexivity|].
  apply (views_past (lastn 50 (v_past v ++ [shift_record timestamp report stats])))
    in Hv.
  destruct Hv as [[ms [Hm Hms]] [Hp' [Hs Hl]]].
  cbn [v_past v_sites v_log v_shifts v_tickets] in *.
  unfold views; cbn [v_past v_sites v_log v_shifts v_tickets].
  rewrite dict_get_set_other in Hm, Hs, Hl by discriminate.
  split; [exists ms; other_key; auto|]. repeat split; other_key.
Qed.

Lemma bump_site_views m v k :
  views m v ->
  exists m',
    Memory.bump_site (PDict m) (PStr k) = Ok (PDict m')
    /\ views m' (View (v_shifts v) (v_tickets v) (v_past v)
                   (Tools.bump (v_sites v) k) (v_log v)).
Proof.
  intros Hv. pose proof Hv as [_ [_ [Hs _]]].
  unfold Memory.bump_site. cbn [py_setdefault]. rewrite Hs.
  cbn [rbind py_item]. unfold dict_item. rewrite Hs.
  cbn [rbind].
  rewrite counter_dict_get.
  cbn [rbind py_int]. rewrite counter_dict_set. cbn [rbind py_setitem].
  eexists. split; [reflexivity|].
  exact (views_sites (Tools.bump (v_sites v) k) Hv).
Qed.

Lemma bump_sites_views (sites : list string) m v :
  views m v ->
  exists m',
    foldM Memory.bump_site (map PStr sites) (PDict m) = Ok (PDict m')
    /\ views m' (View (v_shifts v) (v_tickets v) (v_past v)
                   (fold_left Tools.bump sites (v_sites v)) (v_log v)).
Proof.
  revert m v. induction sites as [|k sites IH]; intros m v Hv; cbn [map foldM].
  - exists m. split; [reflexivity | now destruct v].
  - destruct (bump_site_views k Hv) as [m1 [-> Hv1]]. cbn [rbind].
    destruct (IH _ _ Hv1) as [m2 [-> Hv2]]. exists m2. split; [reflexivity|].
    exact Hv2.
Qed.

Lemma log_escalation_views m v esc :
  views m v ->
  exists m',
    Memory.log_escalation (PDict m) esc = Ok (PDict m')
    /\ views m' (View (v_shifts v) (v_tickets v) (v_past v) (v_sites v)
                   (v_log v ++ [esc])).
Proof.
  intros Hv. pose proof Hv as [_ [_ [_ Hl]]].
  unfold Memory.log_escalation. cbn [py_setdefault]. rewrite Hl.
  cbn [rbind py_append py_setitem]. eexists. split; [reflexivity|].
  exact (views_log (v_log v ++ [esc]) Hv).
Qed.

Lemma log_escalations_views (escs : list pyval) m v :
  views m v ->
  exists m',
    foldM Memory.log_escalation escs (PDict m) = Ok (PDict m')
    /\ views m' (View (v_shifts v) (v_tickets v) (v_past v) (v_sites v)
                   (v_log v ++ escs)).
Proof.
  revert m v. induction escs as [|esc escs IH]; intros m v Hv; cbn [foldM].
  - exists m. split; [reflexivity|]. rewrite app_nil_r. now destruct v.
  - destruct (log_escalation_views esc Hv) as [m1 [-> Hv1]]. cbn [rbind].
    destruct (IH _ _ Hv1) as [m2 [-> Hv2]]. exists m2. split; [reflexivity|].
    cbn [v_past v_sites v_log v_shifts v_tickets] in Hv2.
    now rewrite <- app_assoc in Hv2.
Qed.

(** What one update does to a memory document. *)
Lemma update_memory_views
  (m report classifications stats : pydict) (v : memory_view)
  (sites : list string) (escs : list pyval) (total : Z) (w : world) :
  views m v ->
  dict_get_d stats "total" (PInt 0) = PInt total ->
  dict_get_d classifications "escalations" (PList []) = PList escs ->
  exists m',
    Memory.update_memory (PDict m) (PDict report) (PDict classifications)
      (PList (map PStr sites)) (PDict stats) w
    = (Ok (PDict m'), World (S (ticks w)) (disk w))
    /\ views m'
         (View (v_shifts v + 1) (v_tickets v + total)
            (lastn 50 (v_past v
                       ++ [shift_record (utcnow_iso (ticks w) ++ "Z") report
                             (PDict stats)]))
            (fold_left Tools.bump sites (v_sites v))
            (lastn 200 (v_log v ++ escs))).
Proof.
  intros Hv Ht He.
  assert (Hm : py_or (PDict m) Memory.DEFAULT_MEMORY = PDict m).
  { destruct Hv as [[ms [Hm _]] _]. destruct m; [discriminate | reflexivity]. }
  unfold Memory.update_memory. rewrite Hm.
  destruct (count_run_views stats Hv Ht) as [m1 [E1 Hv1]].
  destruct (record_shift_views (utcnow_iso (ticks w) ++ "Z") report (PDict stats) Hv1)
    as [m2 [E2 Hv2]].
  destruct (bump_sites_views sites Hv2) as [m3 [E3 Hv3]].
  destruct (log_escalations_views escs Hv3) as [m4 [E4 Hv4]].
  cbn [v_past v_sites v_log v_shifts v_tickets] in *.
  unfold bind, lift, tick, ret. rewrite E1. cbn [ticks disk]. rewrite E2.
  unfold Memory.bump_sites.
  assert (Hit : py_iter (py_or (PList (map PStr sites)) (PList []))
                = Ok (map PStr sites)) by (destruct sites; reflexivity).
  rewrite Hit. cbn [rbind]. rewrite E3.
  unfold Memory.log_escalations. cbn [py_get_d rbind]. rewrite He.
  cbn [py_iter rbind]. rewrite E4. cbn [rbind py_item]. unfold dict_item.
  pose proof Hv4 as [_ [_ [_ Hl4]]].
  cbn [v_log] in Hl4.
  rewrite Hl4. cbn [rbind py_last py_setitem].
  eexists. split; [reflexivity|].
  exact (views_log (lastn 200 (v_log v ++ escs)) Hv4).
Qed.


(** Two successive updates, for runs of [a] and [b] tickets: the ticket
    counter grows by [a + b] and the shift counter by 2. *)
Lemma update_memory_twice
  (m rep1 cls1 st1 rep2 cls2 st2 : pydict) (v : memory_view)
  (sites1 sites2 : list string) (escs1 escs2 : list pyval) (a b : Z)
  (w : world) :
  views m v ->
  dict_get_d st1 "total" (PInt 0) = PInt a ->
  dict_get_d cls1 "escalations" (PList []) = PList escs1 ->
  dict_get_d st2 "total" (PInt 0) = PInt b ->
  dict_get_d cls2 "escalations" (PList []) = PList escs2 ->
  exists m1 w1 m2 w2 v2,
    Memory.update_memory (PDict m) (PDict rep1) (PDict cls1)
      (PList (map PStr sites1)) (PDict st1) w = (Ok (PDict m1), w1)
    /\ Memory.update_memory (PDict m1) (PDict rep2) (PDict cls2)
         (PList (map PStr sites2)) (PDict st2) w1 = (Ok (PDict m2), w2)
    /\ views m2 v2
    /\ v_tickets v2 = v_tickets v + a + b
    /\ v_shifts v2 = v_shifts v + 2.
Proof.
  intros Hv Ha He1 Hb He2.
  destruct (@update_memory_views m rep1 cls1 st1 v sites1 escs1 a w Hv Ha He1)
    as [m1 [R1 Hv1]].
  destruct (@update_memory_views m1 rep2 cls2 st2 _ sites2 escs2 b
              (World (S (ticks w)) (disk w)) Hv1 Hb He2) as [m2 [R2 Hv2]].
  do 5 eexists. split; [exact R1|]. split; [exact R2|].
  split; [exact Hv2|]. cbn [v_shifts v_tickets]. split; lia.
Qed.

End MemoryUpdate.


(** ** ToolRouter: arguments and state *)

Lemma dict_get_remove_same {A} (d : list (string * A)) k :
  dict_get (dict_remove d k) k = None.
Proof.
  induction d as [|[k' v] d IH]; simpl; [reflexivity|].
  destruct (String.eqb_spec k' k) as [->|Hne]; simpl; [exact IH|].
  destruct (String.eqb_spec k' k); [contradiction | exact IH].
Qed.

Lemma dict_get_remove_other {A} (d : list (string * A)) k k' :
  k <> k' -> dict_get (dict_remove d k) k' = dict_get d k'.
Proof.
  intros Hne. induction d as [|[k0 v] d IH]; simpl; [reflexivity|].
  destruct (String.eqb_spec k0 k) as [->|Hk]; simpl.
  - destruct (String.eqb_spec k k'); [contradiction | exact IH].
  - destruct (String.eqb_spec k0 k'); [reflexivity | exact IH].
Qed.

Lemma dict_set_set {A} (d : list (string * A)) k v v' :
  dict_set (dict_set d k v) k v' = dict_set d k v'.
Proof.
  induction d as [|[k0 v0] d IH]; simpl.
  - now rewrite String.eqb_refl.
  - destruct (String.eqb_spec k0 k) as [->|Hk]; simpl.
    + now rewrite String.eqb_refl.
    + destruct (String.eqb_spec k0 k); [contradiction | now rewrite IH].
Qed.

Lemma dict_get_d_set_same d k v dflt : dict_get_d (dict_set d k v) k dflt = v.
Proof. unfold dict_get_d. now rewrite dict_get_set_same. Qed.

Lemma dict_get_d_set_other d k k' v dflt :
  k <> k' -> dict_get_d (dict_set d k v) k' dflt = dict_get_d d k' dflt.
Proof. intros Hne. unfold dict_get_d. now rewrite dict_get_set_other. Qed.

Lemma dict_item_set_same d k v : dict_item (dict_set d k v) k = Ok v.
Proof. unfold dict_item. now rewrite dict_get_set_same. Qed.

Lemma dict_item_set_other d k k' v :
  k <> k' -> dict_item (dict_set d k v) k' = dict_item d k'.
Proof. intros Hne. unfold dict_item. now rewrite dict_get_set_other. Qed.

Lemma py_get_d_remove_other d k k' dflt :
  k <> k' ->
  py_get_d (PDict (dict_remove d k)) k' dflt = py_get_d (PDict d) k' dflt.
Proof.
  intros Hne. cbn [py_get_d]. unfold dict_get_d.
  now rewrite dict_get_remove_other.
Qed.

Lemma py_get_remove_other d k k' :
  k <> k' -> py_get (PDict (dict_remove d k)) k' = py_get (PDict d) k'.
Proof. intros Hne. unfold py_get. now apply py_get_d_remove_other. Qed.

Section Arguments.
Context `{Runtime} `{Host} `{LLM}.
Variable self : Agent.config.

Lemma slot_set_same st k v : Agent.slot (dict_set st k v) k = v.
Proof. apply dict_get_d_set_same. Qed.

Lemma slot_set_other st k k' v :
  k <> k' -> Agent.slot (dict_set st k v) k' = Agent.slot st k'.
Proof. apply dict_get_d_set_other. Qed.

Lemma arg_or_truthy d k fb :
  truthy (dict_get_d d k PNone) = true ->
  Agent.arg_or (PDict d) k fb = Ok (dict_get_d d k PNone).
Proof. intros Ht. unfold Agent.arg_or. cbn. now rewrite Ht. Qed.

Lemma arg_or_falsy d k fb :
  truthy (dict_get_d d k PNone) = false -> Agent.arg_or (PDict d) k fb = fb.
Proof. intros Ht. unfold Agent.arg_or. cbn. now rewrite Ht. Qed.

Lemma arg_or_removed d k fb : Agent.arg_or (PDict (dict_remove d k)) k fb = fb.
Proof.
  unfold Agent.arg_or. cbn. unfold dict_get_d.
  now rewrite dict_get_remove_same.
Qed.

Lemma arg_or_remove_other d k k' fb :
  k <> k' ->
  Agent.arg_or (PDict (dict_remove d k)) k' fb = Agent.arg_or (PDict d) k' fb.
Proof.
  intros Hne. unfold Agent.arg_or. now rewrite py_get_remove_other.
Qed.

(** Two dispatches that agree step by step return the same. *)
Lemma returned_bind {A} (m : M A) (k1 k2 : A -> M (pyval * pydict)) w :
  (forall x w', returned (k1 x w') = returned (k2 x w')) ->
  returned (bind m k1 w) = returned (bind m k2 w).
Proof.
  intros Hk. unfold bind. destruct (m w) as [[x|e] w']; [apply Hk | reflexivity].
Qed.

Lemma bind_ext {A B} (m : M A) (k1 k2 : A -> M B) w :
  (forall x w', k1 x w' = k2 x w') -> bind m k1 w = bind m k2 w.
Proof.
  intros Hk. unfold bind. destruct (m w) as [[x|e] w']; [apply Hk | reflexivity].
Qed.

Ltac norm_args :=
  repeat first
    [ rewrite arg_or_removed
    | rewrite arg_or_remove_other by discriminate
    | rewrite py_get_d_remove_other by discriminate
    | rewrite py_get_remove_other by discriminate
    | rewrite dict_item_set_same
    | rewrite dict_item_set_other by discriminate
    | rewrite dict_get_d_set_same
    | rewrite dict_get_d_set_other by discriminate
    | rewrite slot_set_same
    | rewrite slot_set_other by discriminate
    | rewrite arg_or_truthy by assumption
    | rewrite arg_or_falsy by assumption ].

(** Select the handler of a literal operation name. *)
Ltac pick_handler :=
  unfold Agent._execute_tool; cbn [Agent.is_name];
  repeat match goal with
         | |- context [String.eqb ?a ?b] =>
             let r := eval vm_compute in (String.eqb a b) in
             change (String.eqb a b) with r
         end;
  cbv iota.

Ltac each_backed Hin name key :=
  unfold state_backed in Hin;
  repeat (destruct Hin as [Hin|Hin];
          [inversion Hin; subst name key; clear Hin|]);
  try contradiction.

(** A truthy argument is used exactly as the slot's value would be, had the
    argument been left out. *)
Lemma explicit_as_slot name key args st w :
  In (name, key) state_backed ->
  truthy (dict_get_d args key PNone) = true ->
  returned (Agent._execute_tool self (PStr name) (PDict args) st w)
  = returned (Agent._execute_tool self (PStr name)
                (PDict (dict_remove args key))
                (dict_set st key (dict_get_d args key PNone)) w).
Proof.
  intros Hin Ht. each_backed Hin name key; pick_handler;
    repeat (norm_args;
            first [ reflexivity
                  | apply returned_bind; intros ? ?; cbv beta ]).
Qed.

(** A falsy argument is treated like an argument that is not there. *)
Lemma falsy_as_absent name key args st w :
  In (name, key) state_backed ->
  truthy (dict_get_d args key PNone) = false ->
  Agent._execute_tool self (PStr name) (PDict args) st w
  = Agent._execute_tool self (PStr name) (PDict (dict_remove args key)) st w.
Proof.
  intros Hin Ht. each_backed Hin name key; pick_handler;
    repeat (norm_args;
            first [ reflexivity | apply bind_ext; intros ? ?; cbv beta ]).
Qed.

(** C8, as the code has it.  For every operation and every argument that
    is backed by a slot of the run state: an argument given with a truthy
    value overrides the slot (the handler returns what it would return with
    the argument left out and the slot holding that value, and what it
    returns does not depend on the slot); an argument that is absent or
    given with a falsy value falls back to the slot, exactly as if it had
    been left out. *)
Theorem argument_overrides_slot_when_truthy
  (name key : string) (args st : pydict) (w : world) :
  In (name, key) state_backed ->
  (truthy (dict_get_d args key PNone) = true ->
     returned (Agent._execute_tool self (PStr name) (PDict args) st w)
     = returned (Agent._execute_tool self (PStr name)
                   (PDict (dict_remove args key))
                   (dict_set st key (dict_get_d args key PNone)) w)
     /\ forall v,
          returned (Agent._execute_tool self (PStr name) (PDict args)
                      (dict_set st key v) w)
          = returned (Agent._execute_tool self (PStr name) (PDict args) st w))
  /\ (truthy (dict_get_d args key PNone) = false ->
      Agent._execute_tool self (PStr name) (PDict args) st w
      = Agent._execute_tool self (PStr name) (PDict (dict_remove args key)) st w).
Proof.
  intros Hin. split.
  - intros Ht. split; [now apply explicit_as_slot|].
    intros v.
    rewrite (@explicit_as_slot name key args (dict_set st key v) w Hin Ht).
    rewrite (@explicit_as_slot name key args st w Hin Ht).
    now rewrite dict_set_set.
  - intros Hf. now apply falsy_as_absent.
Qed.

End Arguments.

(** [argument_overrides_slot_when_truthy] for [analyze_tickets] called with
    one explicit ticket while the run state holds two. *)
Lemma argument_overrides_slot_when_truthy_witness :
  (truthy (dict_get_d [("srs", PList [Demo.ticket2])] "srs" PNone) = true ->
     returned (Demo.dispatch (PStr "analyze_tickets")
                 (PDict [("srs", PList [Demo.ticket2])])
                 Demo.two_ticket_state Demo.w0)
     = returned (Demo.dispatch (PStr "analyze_tickets")
                   (PDict (dict_remove [("srs", PList [Demo.ticket2])] "srs"))
                   (dict_set Demo.two_ticket_state "srs"
                      (dict_get_d [("srs", PList [Demo.ticket2])] "srs" PNone))
                   Demo.w0)
     /\ forall v,
          returned (Demo.dispatch (PStr "analyze_tickets")
                      (PDict [("srs", PList [Demo.ticket2])])
                      (dict_set Demo.two_ticket_state "srs" v) Demo.w0)
          = returned (Demo.dispatch (PStr "analyze_tickets")
                        (PDict [("srs", PList [Demo.ticket2])])
                        Demo.two_ticket_state Demo.w0))
  /\ (truthy (dict_get_d [("srs", PList [Demo.ticket2])] "srs" PNone) = false ->
      Demo.dispatch (PStr "analyze_tickets")
        (PDict [("srs", PList [Demo.ticket2])]) Demo.two_ticket_state Demo.w0
      = Demo.dispatch (PStr "analyze_tickets")
          (PDict (dict_remove [("srs", PList [Demo.ticket2])] "srs"))
          Demo.two_ticket_state Demo.w0).
Proof.
  apply (@argument_overrides_slot_when_truthy Demo.runtime Demo.host
           Demo.silent Demo.cfg "analyze_tickets" "srs"
           [("srs", PList [Demo.ticket2])] Demo.two_ticket_state Demo.w0).
  simpl. left. reflexivity.
Defined.

(** C8 as worded fails: an explicit empty ticket list does not override the
    run state.  The handler analyses the two tickets of the state, while
    the analysis of the explicit value counts none. *)
Lemma explicit_empty_srs_falls_back_to_state :
  exists r,
    fst (returned
           (Demo.dispatch (PStr "analyze_tickets") (PDict [("srs", PList [])])
              Demo.two_ticket_state Demo.w0)) = Ok r
    /\ py_get r "total" = Ok (PInt 2)
    /\ rbind (@Tools.analyze_tickets Demo.runtime (PList []))
         (fun r' => py_get r' "total")
       = Ok (PInt 0).
Proof. eexists. repeat split; reflexivity. Qed.

(** ** Orchestrator: the artifact slots *)

Lemma bind_ok `{Host} {A B} (m : M A) (k : A -> M B) w y w' :
  bind m k w = (Ok y, w') ->
  exists x w1, m w = (Ok x, w1) /\ k x w1 = (Ok y, w').
Proof.
  unfold bind. destruct (m w) as [[x|e] w1]; [|discriminate].
  intros Hk. now exists x, w1.
Qed.

Lemma is_name_true name s : Agent.is_name name s = true -> name = PStr s.
Proof.
  destruct name; simpl; try discriminate.
  intros E. apply String.eqb_eq in E. now subst.
Qed.

(** Read a successful run backwards, one step at a time. *)
Ltac inv_M Hrun :=
  repeat (apply bind_ok in Hrun; destruct Hrun as (? & ? & ? & Hrun));
  unfold ret in Hrun; inversion Hrun; subst; clear Hrun.

Ltac compute_names :=
  repeat match goal with
         | |- context [Agent.is_name (PStr ?a) ?b] =>
             let r := eval vm_compute in (Agent.is_name (PStr a) b) in
             change (Agent.is_name (PStr a) b) with r
         end;
  cbv iota.

Ltac by_name name :=
  repeat match goal with
         | |- context [Agent.is_name name ?s] =>
             let E := fresh "E" in
             destruct (Agent.is_name name s) eqn:E;
             [ apply is_name_true in E; subst name; compute_names | ]
         end.

Ltac each_slot Hk k :=
  unfold artifact_slots in Hk;
  repeat (destruct Hk as [Hk|Hk]; [subst k|]); try contradiction.

Section Slots.
Context `{Runtime} `{Host} `{LLM}.
Variable self : Agent.config.

Lemma keeps_refl st : keeps st st.
Proof. now intros k _. Qed.

Lemma keeps_trans st1 st2 st3 : keeps st1 st2 -> keeps st2 st3 -> keeps st1 st3.
Proof.
  intros H12 H23 k Hk. rewrite <- (H12 k Hk). apply H23.
  now rewrite (H12 k Hk).
Qed.

Lemma keeps_set st k v :
  truthy (Agent.slot st k) = false -> keeps st (dict_set st k v).
Proof.
  intros Hf k' Hk'. destruct (string_dec k k') as [<-|Hne].
  - congruence.
  - now apply slot_set_other.
Qed.

(** One step of the closure: a slot is filled only when it is falsy. *)
Ltac fill_step Hstep :=
  match type of Hstep with
  | (if negb (truthy ?s) then _ else _) _ = _ =>
      let E := fresh "E" in
      destruct (truthy s) eqn:E; cbn [negb] in Hstep;
      [ unfold ret in Hstep; inversion Hstep; subst; apply keeps_refl
      | inv_M Hstep; now apply keeps_set ]
  end.

Lemma closure_keeps srs memory shift_id st w st' w' :
  Agent.closure self srs memory shift_id st w = (Ok st', w') -> keeps st st'.
Proof.
  unfold Agent.closure. intros Hrun.
  apply bind_ok in Hrun. destruct Hrun as (st1 & w1 & S1 & Hrun).
  apply bind_ok in Hrun. destruct Hrun as (st2 & w2 & S2 & Hrun).
  apply bind_ok in Hrun. destruct Hrun as (st3 & w3 & S3 & Hrun).
  apply bind_ok in Hrun. destruct Hrun as (st4 & w4 & S4 & Hrun).
  apply (@keeps_trans _ st1 _); [fill_step S1|].
  apply (@keeps_trans _ st2 _); [fill_step S2|].
  apply (@keeps_trans _ st3 _); [fill_step S3|].
  apply (@keeps_trans _ st4 _); [fill_step S4|].
  fill_step Hrun.
Qed.

(** The iteration in which the backend proposes no operation: its text is
    adopted as the summary only where there is none. *)
Lemma adoption_keeps fuel messages st w response proposed st' w' :
  Agent.all_present st = false ->
  chat (ticks w) messages = Ok response ->
  py_get response "tool_calls" = Ok proposed ->
  truthy (py_or proposed (PList [])) = false ->
  Agent.loop self (S fuel) messages st w = (Ok st', w') ->
  keeps st st'.
Proof.
  intros Hall Hchat Hcalls Hnone. cbn [Agent.loop]. rewrite Hall.
  unfold bind at 1. cbn [tick]. unfold bind at 1, lift at 1. rewrite Hchat.
  unfold bind at 1, lift at 1. rewrite Hcalls. rewrite Hnone. cbn [negb].
  intros Hrun. inv_M Hrun.
  destruct (negb (_ =? "") && negb (truthy (Agent.slot st "summary"))) eqn:E.
  - apply keeps_set. apply andb_prop in E. destruct E as [_ E].
    now apply negb_true_iff in E.
  - apply keeps_refl.
Qed.

(** A dispatch leaves the artifact slots of the other operations alone and
    stores its own result whatever its slot held. *)
Lemma dispatch_slots name args st w r st' w' :
  Agent._execute_tool self name args st w = (Ok (r, st'), w') ->
  (forall k, In k artifact_slots -> writes name <> Some k ->
             Agent.slot st' k = Agent.slot st k)
  /\ (forall k, In k artifact_slots -> writes name = Some k ->
                stored name r = Ok (Agent.slot st' k)).
Proof.
  unfold Agent._execute_tool, writes, stored.
  by_name name; intros Hrun; inv_M Hrun;
    (split; intros k Hk Hw; each_slot Hk k;
     try congruence;
     rewrite ?slot_set_same; try reflexivity; try assumption;
     try (apply slot_set_other; discriminate);
     try match goal with
         | Hl : lift ?c _ = (Ok ?x, _) |- ?c = Ok ?x =>
             unfold lift in Hl; now inversion Hl
         end).
Qed.

(** C9, as the code has it.  The closure step and the adoption of the
    backend's free text never change a slot that holds a truthy value, and
    a dispatch never changes the artifact slot of another operation; but a
    dispatch stores its fresh result in its own slot whatever the slot
    held before. *)
Theorem set_slots_survive_closure_but_not_redispatch :
  (forall srs memory shift_id st w st' w',
      Agent.closure self srs memory shift_id st w = (Ok st', w') ->
      keeps st st')
  /\ (forall fuel messages st w response proposed st' w',
        Agent.all_present st = false ->
        chat (ticks w) messages = Ok response ->
        py_get response "tool_calls" = Ok proposed ->
        truthy (py_or proposed (PList [])) = false ->
        Agent.loop self (S fuel) messages st w = (Ok st', w') ->
        keeps st st')
  /\ (forall name args st w r st' w',
        Agent._execute_tool self name args st w = (Ok (r, st'), w') ->
        (forall k, In k artifact_slots -> writes name <> Some k ->
                   Agent.slot st' k = Agent.slot st k)
        /\ (forall k, In k artifact_slots -> writes name = Some k ->
                      stored name r = Ok (Agent.slot st' k))).
Proof.
  split; [exact closure_keeps|]. split; [exact adoption_keeps|].
  exact dispatch_slots.
Qed.

End Slots.

(** The closure step on a state whose stats slot was set beforehand: the
    stats stay, the four other artifacts are filled in. *)
Example closure_keeps_preset_stats :
  exists st' w',
    @Agent.closure Demo.runtime Demo.host Demo.silent Demo.cfg
      [Demo.ticket1; Demo.ticket2] (PDict Demo.fresh_memory) (PStr "N-12")
      (dict_set Demo.two_ticket_state "stats" (PDict [("total", PInt 99)]))
      Demo.w0
    = (Ok st', w')
    /\ Agent.slot st' "stats" = PDict [("total", PInt 99)]
    /\ Agent.all_present st' = true
    /\ Agent.slot st' "summary"
       = PStr "Shift N-12 summary: 99 SRs handled, 0 open, 1 escalations.".
Proof. do 2 eexists. split; [vm_compute; reflexivity|]. repeat split. Qed.

(** Free text of the backend becomes the summary where there is none, and
    is dropped where there is one. *)
Example free_text_adopted_once :
  fst (@Agent.loop Demo.runtime Demo.host Demo.talkative Demo.cfg 10 []
         Demo.two_ticket_state Demo.w0)
  = Ok (dict_set Demo.two_ticket_state "summary" (PStr "All quiet."))
  /\ fst (@Agent.loop Demo.runtime Demo.host Demo.talkative Demo.cfg 10 []
            (dict_set Demo.two_ticket_state "summary" (PStr "Earlier text."))
            Demo.w0)
     = Ok (dict_set Demo.two_ticket_state "summary" (PStr "Earlier text.")).
Proof. split; vm_compute; reflexivity. Qed.

(** C9 as worded fails: the backend has [analyze_tickets] run on one
    explicit ticket, which sets the stats slot, and then has it run again
    without arguments; the second dispatch replaces the stats. *)
Lemma second_dispatch_overwrites_stats :
  exists r1 st1 w1 r2 st2 w2,
    Demo.dispatch (PStr "analyze_tickets")
      (PDict [("srs", PList [Demo.ticket1])]) Demo.two_ticket_state Demo.w0
    = (Ok (r1, st1), w1)
    /\ truthy (Agent.slot st1 "stats") = true
    /\ Demo.dispatch (PStr "analyze_tickets") (PDict []) st1 w1
       = (Ok (r2, st2), w2)
    /\ py_get (Agent.slot st1 "stats") "total" = Ok (PInt 1)
    /\ py_get (Agent.slot st2 "stats") "total" = Ok (PInt 2)
    /\ Agent.slot st2 "stats" <> Agent.slot st1 "stats".
Proof.
  do 6 eexists.
  split; [vm_compute; reflexivity|].
  split; [reflexivity|].
  split; [vm_compute; reflexivity|].
  split; [reflexivity|]. split; [reflexivity|].
  vm_compute. discriminate.
Qed.

(** ** Orchestrator: the closure step completes the report *)

Section Completion.
Context `{Runtime} `{Host} `{LLM}.
Variable self : Agent.config.

Lemma lift_ok {A} (c : res A) w x w' : lift c w = (Ok x, w') -> c = Ok x /\ w' = w.
Proof. unfold lift. intros E. inversion E. now split. Qed.

Lemma rbind_ok {A B} (m : res A) (k : A -> res B) y :
  rbind m k = Ok y -> exists x, m = Ok x /\ k x = Ok y.
Proof. destruct m as [x|e]; simpl; [now exists x | discriminate]. Qed.

Ltac inv_res Hr :=
  repeat (apply rbind_ok in Hr; destruct Hr as (? & ? & Hr));
  inversion Hr; subst; clear Hr.

Lemma analyze_truthy srs r : Tools.analyze_tickets srs = Ok r -> truthy r = true.
Proof. unfold Tools.analyze_tickets. intros Hr. inv_res Hr. reflexivity. Qed.

Lemma classify_truthy srs fh sh w r w' :
  Tools.classify_tickets srs fh sh w = (Ok r, w') -> truthy r = true.
Proof.
  unfold Tools.classify_tickets, bind, tick. cbn. intros Hr.
  apply lift_ok in Hr. destruct Hr as [Hr _]. unfold Tools.classify_at in Hr.
  inv_res Hr. reflexivity.
Qed.

Lemma detect_truthy srs memory m r :
  Tools.detect_persistent_sites srs memory m = Ok r -> truthy r = true.
Proof. unfold Tools.detect_persistent_sites. intros Hr. inv_res Hr. reflexivity. Qed.

Lemma actions_truthy cls srs r :
  Tools.create_action_list cls srs = Ok r -> truthy r = true.
Proof. unfold Tools.create_action_list. intros Hr. inv_res Hr. reflexivity. Qed.

Lemma fallback_nonempty shift_id total open_ n :
  Tools.fallback_summary shift_id total open_ n <> "".
Proof. rewrite fallback_summary_template. discriminate. Qed.

Lemma summary_truthy stats cls sites actions shift_id w r w' s :
  Tools.generate_summary stats cls sites actions shift_id w = (Ok r, w') ->
  py_get r "summary" = Ok s -> truthy s = true.
Proof.
  unfold Tools.generate_summary. intros Hrun.
  do 5 (apply bind_ok in Hrun; destruct Hrun as (? & ? & ? & Hrun)).
  apply bind_ok in Hrun. destruct Hrun as (answer & wa & Hc & Hrun).
  destruct answer as [summary|].
  - unfold ret in Hrun. inversion Hrun; subst. cbn. intros Hs; inversion Hs; subst.
    revert Hc.
    unfold catch, bind, tick, lift, ret. cbn.
    destruct (generate_text _ _ _) as [text|]; cbn; [|discriminate].
    destruct (py_strip text) as [stripped|]; cbn; [|discriminate].
    destruct (stripped =? "") eqn:E; intros Hc; inversion Hc; subst.
    cbn. now rewrite E.
  - inv_M Hrun. cbn. intros Hs; inversion Hs; subst. cbn.
    apply negb_true_iff. apply String.eqb_neq. apply fallback_nonempty.
Qed.

Lemma keeps_truthy st1 st2 :
  keeps st1 st2 -> forall k, truthy (Agent.slot st1 k) = true ->
  truthy (Agent.slot st2 k) = true.
Proof. intros Hk k Ht. now rewrite (Hk k Ht). Qed.

Lemma closure_populates srs memory shift_id st w st' w' :
  Agent.closure self srs memory shift_id st w = (Ok st', w') ->
  Agent.all_present st' = true.
Proof.
  unfold Agent.closure. intros Hrun.
  apply bind_ok in Hrun. destruct Hrun as (st1 & w1 & S1 & Hrun).
  apply bind_ok in Hrun. destruct Hrun as (st2 & w2 & S2 & Hrun).
  apply bind_ok in Hrun. destruct Hrun as (st3 & w3 & S3 & Hrun).
  apply bind_ok in Hrun. destruct Hrun as (st4 & w4 & S4 & Hrun).
  assert (K1 : truthy (Agent.slot st1 "stats") = true).
  { destruct (truthy (Agent.slot st "stats")) eqn:E; cbn [negb] in S1.
    - unfold ret in S1. inversion S1; subst. exact E.
    - inv_M S1. rewrite slot_set_same.
      match goal with Hl : lift _ _ = _ |- _ => apply lift_ok in Hl; destruct Hl as [Hl _];
        eapply analyze_truthy; exact Hl end. }
  assert (K2 : keeps st1 st2 /\ truthy (Agent.slot st2 "classifications") = true).
  { destruct (truthy (Agent.slot st1 "classifications")) eqn:E; cbn [negb] in S2.
    - unfold ret in S2. inversion S2; subst. split; [apply keeps_refl | exact E].
    - inv_M S2. split; [now apply keeps_set|]. rewrite slot_set_same.
      match goal with Hl : Tools.classify_tickets _ _ _ _ = _ |- _ =>
        eapply classify_truthy; exact Hl end. }
  assert (K3 : keeps st2 st3 /\ truthy (Agent.slot st3 "persistent_sites") = true).
  { destruct (truthy (Agent.slot st2 "persistent_sites")) eqn:E; cbn [negb] in S3.
    - unfold ret in S3. inversion S3; subst. split; [apply keeps_refl | exact E].
    - inv_M S3. split; [now apply keeps_set|]. rewrite slot_set_same.
      match goal with Hl : lift _ _ = _ |- _ => apply lift_ok in Hl; destruct Hl as [Hl _];
        eapply detect_truthy; exact Hl end. }
  assert (K4 : keeps st3 st4 /\ truthy (Agent.slot st4 "action_list") = true).
  { destruct (truthy (Agent.slot st3 "action_list")) eqn:E; cbn [negb] in S4.
    - unfold ret in S4. inversion S4; subst. split; [apply keeps_refl | exact E].
    - inv_M S4. split; [now apply keeps_set|]. rewrite slot_set_same.
      match goal with Hl : lift (Tools.create_action_list _ _) _ = _ |- _ =>
        apply lift_ok in Hl; destruct Hl as [Hl _];
        eapply actions_truthy; exact Hl end. }
  assert (K5 : keeps st4 st' /\ truthy (Agent.slot st' "summary") = true).
  { destruct (truthy (Agent.slot st4 "summary")) eqn:E; cbn [negb] in Hrun.
    - unfold ret in Hrun. inversion Hrun; subst. split; [apply keeps_refl | exact E].
    - inv_M Hrun. split; [now apply keeps_set|]. rewrite slot_set_same.
      match goal with
      | Hg : Tools.generate_summary _ _ _ _ _ _ = _, Hl : lift (py_get _ "summary") _ = _ |- _ =>
        apply lift_ok in Hl; destruct Hl as [Hl _];
        eapply summary_truthy; [exact Hg | exact Hl] end. }
  destruct K2 as [T2 K2], K3 as [T3 K3], K4 as [T4 K4], K5 as [T5 K5].
  pose proof (keeps_trans T4 T5) as T45.
  pose proof (keeps_trans T3 T45) as T35.
  pose proof (keeps_trans T2 T35) as T25.
  unfold Agent.all_present.
  rewrite (@keeps_truthy _ _ T25 _ K1), (@keeps_truthy _ _ T35 _ K2),
    (@keeps_truthy _ _ T45 _ K3), (@keeps_truthy _ _ T5 _ K4), K5.
  reflexivity.
Qed.
End Completion.

(** ** Orchestrator: runs *)

(** With a backend that proposes nothing on its first call the run returns
    a report whose artifacts all come from the closure step. *)
Example run_with_silent_backend :
  fst (@Agent.run Demo.runtime Demo.host Demo.silent Demo.cfg
         (PList [Demo.ticket1; Demo.ticket2]) (PStr "N-12") false PNone Demo.w0)
  = Ok (PDict
          [ ("shift_id", PStr "N-12");
            ("summary",
             PStr "Shift N-12 summary: 2 SRs handled, 1 open, 1 escalations.");
            ("stats",
             PDict [ ("total", PInt 2); ("open", PInt 1);
                     ("status_counts",
                      PDict [("open", PInt 1); ("closed", PInt 1)]);
                     ("priority_counts",
                      PDict [("p1", PInt 1); ("low", PInt 1)]);
                     ("avg_age_hours", PFloat (inject_Z 0)) ]);
            ("classifications",
             PDict [ ("open_issues",
                      PList [PDict [ ("id", PStr "SR-1");
                                     ("title", PStr "Link down");
                                     ("status", PStr "Open") ]]);
                     ("follow_up_required", PList []);
                     ("escalations",
                      PList [PDict [ ("id", PStr "SR-1");
                                     ("title", PStr "Link down");
                                     ("priority", PStr "P1");
                                     ("reason", PStr "SLA risk or high priority") ]]);
                     ("recurrent", PList []) ]);
            ("actions",
             PList [PDict [ ("action", PStr "Escalate SR SR-1 to L2/management");
                            ("sr_id", PStr "SR-1");
                            ("priority", PStr "P1") ]]);
            ("persistent_sites", PList [PStr "ATH-01"]);
            ("email", PNone);
            ("memory_updated", PBool true) ]).
Proof. vm_compute. reflexivity. Qed.

(** C1 fails on the code.  The backend's first answer proposes
    [create_action_list] with empty arguments.  The classifications slot
    still holds [None], which [state.get("classifications", {})] returns as
    it is, and [create_action_list] raises on it: [run] ends with
    [AttributeError] and returns no report. *)
Theorem run_raises_when_actions_are_proposed_first :
  fst (@Agent.run Demo.runtime Demo.host
         (Demo.proposing
            [Demo.tool_call "call_1" "create_action_list" (PStr "{}")])
         Demo.cfg (PList [Demo.ticket1; Demo.ticket2]) (PStr "N-12")
         false PNone Demo.w0)
  = Raise AttributeError.
Proof. vm_compute. reflexivity. Qed.

(** The same happens when [generate_summary] is proposed first. *)
Example run_raises_when_summary_is_proposed_first :
  fst (@Agent.run Demo.runtime Demo.host
         (Demo.proposing
            [Demo.tool_call "call_1" "generate_summary" (PStr "{}")])
         Demo.cfg (PList [Demo.ticket1; Demo.ticket2]) (PStr "N-12")
         false PNone Demo.w0)
  = Raise AttributeError.
Proof. vm_compute. reflexivity. Qed.

(** An exception of the backend's [chat] is not caught either. *)
Example run_raises_when_backend_is_unreachable :
  fst (@Agent.run Demo.runtime Demo.host Demo.unreachable Demo.cfg
         (PList [Demo.ticket1; Demo.ticket2]) (PStr "N-12") false PNone Demo.w0)
  = Raise (ExternalError "APIConnectionError").
Proof. vm_compute. reflexivity. Qed.

(** When the same operations are proposed in the preferred order the run
    completes. *)
Example run_with_ordered_proposals :
  exists report,
    fst (@Agent.run Demo.runtime Demo.host
           (Demo.proposing
              [ Demo.tool_call "call_1" "classify_tickets" (PStr "{}");
                Demo.tool_call "call_2" "create_action_list" (PStr "{}") ])
           Demo.cfg (PList [Demo.ticket1; Demo.ticket2]) (PStr "N-12")
           false PNone Demo.w0)
    = Ok report
    /\ py_get report "actions"
       = Ok (PList [PDict [ ("action", PStr "Escalate SR SR-1 to L2/management");
                            ("sr_id", PStr "SR-1");
                            ("priority", PStr "P1") ]]).
Proof. eexists. split; vm_compute; reflexivity. Qed.

(* ================================================================= *)
(** * Further properties *)

(** ** Normalisation of text *)

Lemma lower_char_idem c :
  ascii_char c = true -> lower_char (lower_char c) = lower_char c.
Proof.
  destruct c as [[] [] [] [] [] [] [] []]; intros Hc;
    first [discriminate Hc | reflexivity].
Qed.

Lemma is_space_lower_char c :
  ascii_char c = true -> is_space (lower_char c) = is_space c.
Proof.
  destruct c as [[] [] [] [] [] [] [] []]; intros Hc;
    first [discriminate Hc | reflexivity].
Qed.

Lemma ascii_lower_char c : ascii_char c = true -> ascii_char (lower_char c) = true.
Proof.
  destruct c as [[] [] [] [] [] [] [] []]; intros Hc;
    first [discriminate Hc | reflexivity].
Qed.

Lemma is_ascii_cons c s :
  is_ascii (String c s) = true -> ascii_char c = true /\ is_ascii s = true.
Proof. cbn [is_ascii]. apply andb_prop. Qed.

Lemma is_ascii_lower s : is_ascii s = true -> is_ascii (lower s) = true.
Proof.
  induction s as [|c s IH]; [reflexivity|]. intros Hs.
  apply is_ascii_cons in Hs. destruct Hs as [Hc Hs]. cbn [lower is_ascii].
  now rewrite (ascii_lower_char _ Hc), (IH Hs).
Qed.

Lemma is_ascii_lstrip s : is_ascii s = true -> is_ascii (lstrip s) = true.
Proof.
  induction s as [|c s IH]; [reflexivity|]. intros Hs. cbn [lstrip].
  destruct (is_space c); [|exact Hs].
  apply is_ascii_cons in Hs. now apply IH.
Qed.

Lemma is_ascii_rstrip s : is_ascii s = true -> is_ascii (rstrip s) = true.
Proof.
  induction s as [|c s IH]; [reflexivity|]. intros Hs.
  apply is_ascii_cons in Hs. destruct Hs as [Hc Hs]. specialize (IH Hs).
  cbn [rstrip]. destruct (rstrip s) as [|d r].
  - destruct (is_space c); [reflexivity|]. cbn [is_ascii]. now rewrite Hc.
  - cbn [is_ascii] in IH |- *. now rewrite Hc, IH.
Qed.

Lemma is_ascii_strip s : is_ascii s = true -> is_ascii (strip s) = true.
Proof. intros Hs. unfold strip. now apply is_ascii_rstrip, is_ascii_lstrip. Qed.

Lemma lower_idem s : is_ascii s = true -> lower (lower s) = lower s.
Proof.
  induction s as [|c s IH]; [reflexivity|]. intros Hs.
  apply is_ascii_cons in Hs. destruct Hs as [Hc Hs]. cbn [lower].
  now rewrite (lower_char_idem _ Hc), (IH Hs).
Qed.

Lemma lstrip_lower s : is_ascii s = true -> lstrip (lower s) = lower (lstrip s).
Proof.
  induction s as [|c s IH]; [reflexivity|]. intros Hs.
  apply is_ascii_cons in Hs. destruct Hs as [Hc Hs]. cbn [lower lstrip].
  rewrite (is_space_lower_char _ Hc).
  destruct (is_space c); [exact (IH Hs) | reflexivity].
Qed.

Lemma rstrip_lower s : is_ascii s = true -> rstrip (lower s) = lower (rstrip s).
Proof.
  induction s as [|c s IH]; [reflexivity|]. intros Hs.
  apply is_ascii_cons in Hs. destruct Hs as [Hc Hs]. cbn [lower rstrip].
  rewrite (IH Hs), (is_space_lower_char _ Hc).
  destruct (rstrip s); cbn [lower]; [destruct (is_space c)|]; reflexivity.
Qed.

Lemma strip_lower s : is_ascii s = true -> strip (lower s) = lower (strip s).
Proof.
  intros Hs. unfold strip.
  rewrite (lstrip_lower _ Hs). apply rstrip_lower. now apply is_ascii_lstrip.
Qed.

Lemma rstrip_idem s : rstrip (rstrip s) = rstrip s.
Proof.
  induction s as [|c s IH]; simpl; [reflexivity|].
  destruct (rstrip s) as [|d r] eqn:E.
  - destruct (is_space c) eqn:Ec; simpl; [reflexivity | now rewrite Ec].
  - simpl in IH |- *. now rewrite IH.
Qed.

(** Text that does not start with white space keeps its first character
    when white space is cut off its end. *)
Lemma rstrip_head c s :
  is_space c = false -> exists r, rstrip (String c s) = String c r.
Proof.
  intros Hc. simpl. destruct (rstrip s); [rewrite Hc|]; eexists; reflexivity.
Qed.

Lemma lstrip_head s :
  lstrip s = "" \/ exists c r, lstrip s = String c r /\ is_space c = false.
Proof.
  induction s as [|c s IH]; simpl; [now left|].
  destruct (is_space c) eqn:Ec; [exact IH|]. right. now exists c, s.
Qed.

Lemma strip_idem s : strip (strip s) = strip s.
Proof.
  unfold strip. destruct (lstrip_head s) as [->|[c [r [-> Hc]]]]; [reflexivity|].
  destruct (@rstrip_head c r Hc) as [r2 E]. rewrite E.
  cbn [lstrip]. rewrite Hc, <- E. apply rstrip_idem.
Qed.

Lemma norm_value v :
  ascii_text v = true ->
  Tools._norm v = Raise AttributeError
  \/ exists s, is_ascii s = true /\ Tools._norm v = Ok (lower (strip s)).
Proof.
  intros Hv. unfold Tools._norm, py_or.
  destruct (truthy v); [|right; exists ""; split; reflexivity].
  destruct v as [| | | |s| |]; cbn [py_strip rbind]; try (now left).
  right. exists s. split; [exact Hv | reflexivity].
Qed.

Lemma norm_fixed s :
  is_ascii s = true ->
  Tools._norm (PStr (lower (strip s))) = Ok (lower (strip s)).
Proof.
  intros Hs. pose proof (is_ascii_strip _ Hs) as Hs'.
  rewrite norm_text. rewrite (strip_lower _ Hs'), strip_idem.
  now rewrite (lower_idem _ Hs').
Qed.



(** ** Analyzer *)

(** Read a successful computation backwards, one step at a time. *)
Ltac inv_ok Hr :=
  repeat (apply rbind_ok in Hr; destruct Hr as (? & ? & Hr));
  inversion Hr; subst; clear Hr.

Lemma counter_total_set (c : Tools.counter) k v :
  counter_total (dict_set c k v) = counter_total c - site_count c k + v.
Proof.
  unfold site_count. induction c as [|[k' n] c IH]; simpl; [lia|].
  destruct (k' =? k)%string; simpl; [lia|]. rewrite IH. lia.
Qed.

Lemma counter_total_bump (c : Tools.counter) k :
  counter_total (Tools.bump c k) = counter_total c + 1.
Proof. unfold Tools.bump. rewrite counter_total_set. unfold site_count. lia. Qed.

Lemma analyze_step_totals acc item acc' :
  Tools.analyze_step acc item = Ok acc' ->
  counter_total (Tools.status_counts acc')
  = counter_total (Tools.status_counts acc) + 1
  /\ counter_total (Tools.priority_counts acc')
     = counter_total (Tools.priority_counts acc) + 1
  /\ Tools.open_count acc <= Tools.open_count acc' <= Tools.open_count acc + 1.
Proof.
  unfold Tools.analyze_step. intros Hr. inv_ok Hr. cbn.
  rewrite !counter_total_bump.
  repeat split; try reflexivity;
    match goal with |- context [if ?b then _ else _] => destruct b end; lia.
Qed.

Lemma analyze_fold_totals items acc acc' :
  foldM Tools.analyze_step items acc = Ok acc' ->
  counter_total (Tools.status_counts acc')
  = counter_total (Tools.status_counts acc) + Z.of_nat (List.length items)
  /\ counter_total (Tools.priority_counts acc')
     = counter_total (Tools.priority_counts acc) + Z.of_nat (List.length items)
  /\ Tools.open_count acc <= Tools.open_count acc'
     <= Tools.open_count acc + Z.of_nat (List.length items).
Proof.
  revert acc. induction items as [|item items IH]; intros acc; cbn [foldM].
  - intros E; inversion E; subst. cbn. lia.
  - intros Hr. apply rbind_ok in Hr. destruct Hr as (acc1 & H1 & Hr).
    apply analyze_step_totals in H1. apply IH in Hr.
    cbn [List.length]. lia.
Qed.

Section Totals.
Context `{Runtime}.

(** X2: the statistics add up.  [total] is the number of tickets, [open]
    lies between 0 and [total], and the status histogram and the priority
    histogram each count every ticket exactly once. *)
Theorem analyze_tickets_totals (items : list pyval) (r : pyval) :
  Tools.analyze_tickets (PList items) = Ok r ->
  exists statuses priorities open_,
    py_get r "total" = Ok (PInt (Z.of_nat (List.length items)))
    /\ py_get r "open" = Ok (PInt open_)
    /\ 0 <= open_ <= Z.of_nat (List.length items)
    /\ py_get r "status_counts" = Ok (Tools.counter_dict statuses)
    /\ counter_total statuses = Z.of_nat (List.length items)
    /\ py_get r "priority_counts" = Ok (Tools.counter_dict priorities)
    /\ counter_total priorities = Z.of_nat (List.length items).
Proof.
  unfold Tools.analyze_tickets. cbn [py_iter rbind py_len].
  intros Hr. apply rbind_ok in Hr. destruct Hr as (acc & Hf & Hr).
  inversion Hr; subst r; clear Hr.
  apply analyze_fold_totals in Hf. cbn in Hf.
  exists (Tools.status_counts acc), (Tools.priority_counts acc),
    (Tools.open_count acc).
  repeat split; try reflexivity; lia.
Qed.

End Totals.

(** ** Analyzer and Classifier agree *)

Section Agreement.
Context `{Runtime}.

Lemma closed_or_unknown v n :
  ascii_text v = true ->
  Tools._norm v = Ok n ->
  Tools._is_closed (PStr (Tools.or_unknown n)) = Tools._is_closed v.
Proof.
  intros Hv Hn. unfold Tools._is_closed at 2. rewrite Hn. cbn [rbind].
  destruct (norm_value v Hv) as [E|[s [Hs E]]]; rewrite E in Hn;
    inversion Hn; subst n.
  unfold Tools.or_unknown. destruct (lower (strip s) =? "")%string eqn:Ee.
  - apply String.eqb_eq in Ee. rewrite Ee. reflexivity.
  - unfold Tools._is_closed. now rewrite (norm_fixed _ Hs).
Qed.

Lemma analyze_step_open acc sr acc' :
  ascii_text (Tools.fld sr "status") = true ->
  Tools.analyze_step acc (PDict sr) = Ok acc' ->
  exists closed,
    Tools._is_closed (Tools.fld sr "status") = Ok closed
    /\ Tools.open_count acc'
       = if closed then Tools.open_count acc else Tools.open_count acc + 1.
Proof.
  intros Hs. unfold Tools.analyze_step. cbn [Tools.as_dict rbind]. intros Hr.
  apply rbind_ok in Hr. destruct Hr as (ns & Hn & Hr).
  apply rbind_ok in Hr. destruct Hr as (closed & Hc & Hr).
  rewrite (closed_or_unknown _ Hs Hn) in Hc.
  inv_ok Hr. exists closed. split; [exact Hc | reflexivity].
Qed.

(** What one ticket adds to the four lists. *)
Lemma classify_delta now fh sh sr d :
  Tools.classify_step now fh sh no_buckets (PDict sr) = Ok d ->
  exists closed priority text,
    Tools._is_closed (Tools.fld sr "status") = Ok closed
    /\ Tools._norm (Tools.fld sr "priority") = Ok priority
    /\ Tools.joined_text sr = Ok text
    /\ Tools.open_issues d = (if closed then [] else [open_issue_of sr])
    /\ (Tools.follow_up d = []
        \/ closed = false
           /\ exists hours reason,
                Tools.follow_up d = [follow_up_of sr hours reason])
    /\ (truthy (Tools.fld sr "escalation_flag") = true
        \/ Tools.in_set priority Tools.HIGH_PRIORITIES = true ->
        Tools.escalations d = [escalation_of sr]).
Proof.
  unfold Tools.classify_step. cbn [Tools.as_dict rbind].
  destruct (Tools._norm (Tools.fld sr "priority")) as [priority|]; cbn [rbind];
    [|discriminate].
  destruct (Tools._is_closed (Tools.fld sr "status")) as [closed|]; cbn [rbind];
    [|discriminate].
  destruct (match Tools._parse_datetime (Tools.fld sr "last_update") with
            | Some t =>
                rbind (py_ge (Tools.hours_between now t) fh)
                  (fun late => Ok (late, PFloat (Tools.hours_between now t)))
            | None => Ok (false, PNone)
            end) as [[stale hours_since]|]; cbn [rbind]; [|discriminate].
  destruct (Tools._norm (Tools.fld sr "status")) as [nstatus|]; cbn [rbind];
    [|discriminate].
  destruct (negb closed && _) eqn:Hneed; cbn [rbind].
  - destruct (Tools._ticket_reason sr) as [reason|]; cbn [rbind]; [|discriminate].
    destruct (Tools.joined_text sr) as [text|]; cbn [rbind]; [|discriminate].
    destruct (match Tools._parse_datetime (Tools.fld sr "last_update") with
              | Some t => py_ge (Tools.hours_between now t) sh
              | None => Ok false
              end) as [sla_risk|]; cbn [rbind]; [|discriminate].
    intros Hd; inversion Hd; subst d; clear Hd.
    exists closed, priority, text. cbn.
    apply andb_prop in Hneed. destruct Hneed as [Hopen _].
    apply negb_true_iff in Hopen. subst closed.
    repeat split; try reflexivity.
    + right. split; [reflexivity|]. now exists hours_since, reason.
    + intros [-> | ->]; cbn; rewrite ?orb_true_r; reflexivity.
  - destruct (Tools.joined_text sr) as [text|]; cbn [rbind]; [|discriminate].
    destruct (match Tools._parse_datetime (Tools.fld sr "last_update") with
              | Some t => py_ge (Tools.hours_between now t) sh
              | None => Ok false
              end) as [sla_risk|]; cbn [rbind]; [|discriminate].
    intros Hd; inversion Hd; subst d; clear Hd.
    exists closed, priority, text. cbn.
    repeat split; try reflexivity.
    + now destruct closed.
    + now left.
    + intros [-> | ->]; cbn; rewrite ?orb_true_r; reflexivity.
Qed.

Lemma classify_step_open now fh sh acc sr acc' :
  Tools.classify_step now fh sh acc (PDict sr) = Ok acc' ->
  exists closed,
    Tools._is_closed (Tools.fld sr "status") = Ok closed
    /\ List.length (Tools.open_issues acc')
       = if closed then List.length (Tools.open_issues acc)
         else S (List.length (Tools.open_issues acc)).
Proof.
  rewrite classify_step_merge. intros Hr.
  apply rbind_ok in Hr. destruct Hr as (d & Hd & Hr). inversion Hr; subst acc'.
  apply classify_delta in Hd.
  destruct Hd as (closed & _ & _ & Hc & _ & _ & Ho & _).
  exists closed. split; [exact Hc|]. cbn. rewrite length_app, Ho.
  destruct closed; cbn; lia.
Qed.

Lemma open_agreement now fh sh items ta ta' b b' :
  ascii_statuses items = true ->
  foldM Tools.analyze_step items ta = Ok ta' ->
  foldM (Tools.classify_step now fh sh) items b = Ok b' ->
  Tools.open_count ta' - Tools.open_count ta
  = Z.of_nat (List.length (Tools.open_issues b'))
    - Z.of_nat (List.length (Tools.open_issues b)).
Proof.
  revert ta b. induction items as [|item items IH]; intros ta b Hs;
    cbn [foldM].
  - intros Ea Ec. inversion Ea; inversion Ec; subst. lia.
  - intros Ha Hc. cbn [ascii_statuses forallb] in Hs.
    apply andb_prop in Hs. destruct Hs as [Hitem Hs].
    apply rbind_ok in Ha. destruct Ha as (ta1 & Ha1 & Ha).
    apply rbind_ok in Hc. destruct Hc as (b1 & Hc1 & Hc).
    specialize (IH _ _ Hs Ha Hc).
    destruct item as [| | | | | |sr]; try discriminate.
    apply (analyze_step_open _ _ Hitem) in Ha1.
    destruct Ha1 as (c1 & E1 & O1).
    apply classify_step_open in Hc1. destruct Hc1 as (c2 & E2 & O2).
    rewrite E1 in E2. inversion E2; subst c2.
    destruct c1; lia.
Qed.

(** X3: the Analyzer and the Classifier count the same tickets as open:
    on a batch whose statuses are ASCII text (or no text), whenever both
    return, [stats.open] is the length of [open_issues]. *)
Theorem open_count_is_open_issues_length
  (now : Z) (followup_hours sla_hours : pyval) (items : list pyval)
  (stats cls : pyval) :
  ascii_statuses items = true ->
  Tools.analyze_tickets (PList items) = Ok stats ->
  Tools.classify_at now (PList items) followup_hours sla_hours = Ok cls ->
  exists l,
    py_get cls "open_issues" = Ok (PList l)
    /\ py_get stats "open" = Ok (PInt (Z.of_nat (List.length l))).
Proof.
  unfold Tools.analyze_tickets, Tools.classify_at. cbn [py_iter rbind py_len].
  intros Hs Ha Hc.
  apply rbind_ok in Ha. destruct Ha as (ta & Hfa & Ha). inversion Ha; subst.
  apply rbind_ok in Hc. destruct Hc as (b & Hfc & Hc). inversion Hc; subst.
  pose proof (open_agreement _ _ _ _ _ _ Hs Hfa Hfc) as Hagree. cbn in Hagree.
  exists (Tools.open_issues b). split; [reflexivity|]. cbn.
  do 2 f_equal. lia.
Qed.

End Agreement.

(** [analyze_tickets_totals] on the two demo tickets. *)
Lemma analyze_tickets_totals_witness :
  exists statuses priorities open_,
    py_get Sample.stats "total"
    = Ok (PInt (Z.of_nat (List.length Sample.batch)))
    /\ py_get Sample.stats "open" = Ok (PInt open_)
    /\ 0 <= open_ <= Z.of_nat (List.length Sample.batch)
    /\ py_get Sample.stats "status_counts" = Ok (Tools.counter_dict statuses)
    /\ counter_total statuses = Z.of_nat (List.length Sample.batch)
    /\ py_get Sample.stats "priority_counts"
       = Ok (Tools.counter_dict priorities)
    /\ counter_total priorities = Z.of_nat (List.length Sample.batch).
Proof.
  apply (@analyze_tickets_totals Demo.runtime Sample.batch Sample.stats).
  reflexivity.
Defined.

(** [open_count_is_open_issues_length] on the two demo tickets. *)
Lemma open_count_is_open_issues_length_witness :
  exists l,
    py_get Sample.classifications "open_issues" = Ok (PList l)
    /\ py_get Sample.stats "open" = Ok (PInt (Z.of_nat (List.length l))).
Proof.
  apply (@open_count_is_open_issues_length Demo.runtime 0
           (PFloat (8 # 1)) (PFloat (24 # 1)) Sample.batch
           Sample.stats Sample.classifications).
  - reflexivity.
  - reflexivity.
  - reflexivity.
Defined.

(** ** Classifier: batches *)

Section Batches.
Context `{Runtime}.

Lemma classify_fold_cons now fh sh item items b :
  foldM (Tools.classify_step now fh sh) (item :: items) no_buckets = Ok b ->
  exists d b',
    Tools.classify_step now fh sh no_buckets item = Ok d
    /\ foldM (Tools.classify_step now fh sh) items no_buckets = Ok b'
    /\ b = merge d b'.
Proof.
  cbn [foldM]. intros Hr.
  apply rbind_ok in Hr. destruct Hr as (d & Hd & Hr).
  rewrite classify_fold_merge in Hr.
  apply rbind_ok in Hr. destruct Hr as (b' & Hb & Hr). inversion Hr.
  now exists d, b'.
Qed.

(** Every ticket's entries are in the result, and every follow-up of the
    result is the entry of some ticket. *)
Lemma classify_fold_items now fh sh items b :
  foldM (Tools.classify_step now fh sh) items no_buckets = Ok b ->
  (forall item, In item items ->
     exists d,
       Tools.classify_step now fh sh no_buckets item = Ok d
       /\ incl (Tools.open_issues d) (Tools.open_issues b)
       /\ incl (Tools.escalations d) (Tools.escalations b))
  /\ (forall f, In f (Tools.follow_up b) ->
        exists item d,
          In item items
          /\ Tools.classify_step now fh sh no_buckets item = Ok d
          /\ In f (Tools.follow_up d)
          /\ incl (Tools.open_issues d) (Tools.open_issues b)).
Proof.
  revert b. induction items as [|item items IH]; intros b Hr.
  - cbn in Hr. inversion Hr; subst b. split; [intros ? []|intros ? []].
  - apply classify_fold_cons in Hr. destruct Hr as (d & b' & Hd & Hb & ->).
    destruct (IH _ Hb) as [IH1 IH2]. split.
    + intros it [<-|Hin].
      * exists d. split; [exact Hd|]. cbn. split; now apply incl_appl.
      * destruct (IH1 _ Hin) as (d' & Hd' & Ho & He).
        exists d'. split; [exact Hd'|]. cbn.
        split; apply incl_appr; assumption.
    + intros f Hf. cbn in Hf. apply in_app_or in Hf. destruct Hf as [Hf|Hf].
      * exists item, d. split; [now left|]. split; [exact Hd|].
        split; [exact Hf|]. cbn. now apply incl_appl.
      * destruct (IH2 _ Hf) as (it & d' & Hin & Hd' & Hf' & Ho).
        exists it, d'. split; [now right|]. split; [exact Hd'|].
        split; [exact Hf'|]. cbn. now apply incl_appr.
Qed.

(** X4: classifying two batches one after the other, with the same reading
    of the clock, gives each of the four lists of the first batch followed
    by that of the second: entries keep the order of the tickets. *)
Theorem classify_concatenates
  (now : Z) (followup_hours sla_hours : pyval) (a b : list pyval)
  (ra rb : pyval) :
  Tools.classify_at now (PList a) followup_hours sla_hours = Ok ra ->
  Tools.classify_at now (PList b) followup_hours sla_hours = Ok rb ->
  exists ba bb,
    ra = Tools.classify_result ba
    /\ rb = Tools.classify_result bb
    /\ Tools.classify_at now (PList (a ++ b)) followup_hours sla_hours
       = Ok (Tools.classify_result (merge ba bb)).
Proof.
  unfold Tools.classify_at. cbn [py_iter rbind].
  change (Tools.Buckets [] [] [] []) with no_buckets. intros Ha Hb.
  apply rbind_ok in Ha. destruct Ha as (ba & Ha & Ea). inversion Ea; subst ra.
  apply rbind_ok in Hb. destruct Hb as (bb & Hb & Eb). inversion Eb; subst rb.
  exists ba, bb. split; [reflexivity|]. split; [reflexivity|].
  rewrite foldM_app, Ha. cbn [rbind]. rewrite classify_fold_merge, Hb.
  reflexivity.
Qed.

(** X5: every follow-up is an open issue.  Each entry of
    [follow_up_required] is the follow-up entry of a ticket of the batch
    that is not closed and whose open-issue entry is in [open_issues]. *)
Theorem follow_up_is_open
  (now : Z) (followup_hours sla_hours : pyval) (items : list pyval)
  (r : pyval) :
  Tools.classify_at now (PList items) followup_hours sla_hours = Ok r ->
  exists opened followed,
    py_get r "open_issues" = Ok (PList opened)
    /\ py_get r "follow_up_required" = Ok (PList followed)
    /\ forall f, In f followed ->
         exists sr hours reason,
           In (PDict sr) items
           /\ f = follow_up_of sr hours reason
           /\ Tools._is_closed (Tools.fld sr "status") = Ok false
           /\ In (open_issue_of sr) opened.
Proof.
  unfold Tools.classify_at. cbn [py_iter rbind].
  change (Tools.Buckets [] [] [] []) with no_buckets. intros Hr.
  apply rbind_ok in Hr. destruct Hr as (b & Hb & Er). inversion Er; subst r.
  exists (Tools.open_issues b), (Tools.follow_up b).
  split; [reflexivity|]. split; [reflexivity|].
  intros f Hf. destruct (classify_fold_items _ _ _ _ Hb) as [_ Hfrom].
  destruct (Hfrom f Hf) as (item & d & Hin & Hd & Hfd & Ho).
  destruct item as [| | | | | |sr]; try discriminate.
  destruct (classify_delta _ _ _ _ Hd)
    as (closed & p & t & Hc & _ & _ & Hod & Hfu & _).
  destruct Hfu as [E|[-> (hours & reason & E)]]; rewrite E in Hfd;
    [destruct Hfd|].
  destruct Hfd as [<-|[]]. exists sr, hours, reason.
  split; [exact Hin|]. split; [reflexivity|]. split; [exact Hc|].
  apply Ho. rewrite Hod. now left.
Qed.

(** X6: escalation does not look at the status.  A ticket with the
    escalation flag set or with a high priority is in [escalations]
    whenever the classification returns, closed or not. *)
Theorem flagged_or_high_priority_is_escalated
  (now : Z) (followup_hours sla_hours : pyval) (items : list pyval)
  (sr : pydict) (priority : string) (r : pyval) :
  Tools.classify_at now (PList items) followup_hours sla_hours = Ok r ->
  In (PDict sr) items ->
  truthy (Tools.fld sr "escalation_flag") = true
  \/ (Tools.fld sr "priority" = PStr priority
      /\ In (lower (strip priority)) Tools.HIGH_PRIORITIES) ->
  exists escalated,
    py_get r "escalations" = Ok (PList escalated)
    /\ In (escalation_of sr) escalated.
Proof.
  unfold Tools.classify_at. cbn [py_iter rbind].
  change (Tools.Buckets [] [] [] []) with no_buckets. intros Hr Hin Hwhy.
  apply rbind_ok in Hr. destruct Hr as (b & Hb & Er). inversion Er; subst r.
  exists (Tools.escalations b). split; [reflexivity|].
  destruct (classify_fold_items _ _ _ _ Hb) as [Hall _].
  destruct (Hall _ Hin) as (d & Hd & _ & He).
  destruct (classify_delta _ _ _ _ Hd)
    as (closed & p & t & _ & Hp & _ & _ & _ & Hesc).
  apply He. rewrite Hesc; [now left|].
  destruct Hwhy as [Hflag|[Hpr Hhigh]]; [now left|]. right.
  rewrite Hpr, norm_text in Hp. inversion Hp; subst p.
  now apply in_set_In.
Qed.

End Batches.

(** [classify_concatenates] on the first demo ticket followed by the
    second. *)
Lemma classify_concatenates_witness :
  exists ba bb,
    Sample.classifications = Tools.classify_result ba
    /\ Sample.nothing_classified = Tools.classify_result bb
    /\ @Tools.classify_at Demo.runtime 0
         (PList ([Demo.ticket1] ++ [Demo.ticket2])%list)
         (PFloat (8 # 1)) (PFloat (24 # 1))
       = Ok (Tools.classify_result (merge ba bb)).
Proof.
  apply (@classify_concatenates Demo.runtime 0 (PFloat (8 # 1)) (PFloat (24 # 1))
           [Demo.ticket1] [Demo.ticket2]
           Sample.classifications Sample.nothing_classified).
  - reflexivity.
  - reflexivity.
Defined.

(** [follow_up_is_open] on a batch with one follow-up: a ticket that
    waits for a vendor, next to a closed ticket. *)
Lemma follow_up_is_open_witness :
  exists opened followed,
    py_get Sample.waiting_classified "open_issues" = Ok (PList opened)
    /\ py_get Sample.waiting_classified "follow_up_required"
       = Ok (PList followed)
    /\ forall f, In f followed ->
         exists sr hours reason,
           In (PDict sr) Sample.waiting_batch
           /\ f = follow_up_of sr hours reason
           /\ Tools._is_closed (Tools.fld sr "status") = Ok false
           /\ In (open_issue_of sr) opened.
Proof.
  apply (@follow_up_is_open Demo.runtime 0 (PFloat (8 # 1)) (PFloat (24 # 1))
           Sample.waiting_batch Sample.waiting_classified).
  reflexivity.
Defined.

(** [flagged_or_high_priority_is_escalated] on the first demo ticket,
    whose priority is P1. *)
Lemma flagged_or_high_priority_is_escalated_witness :
  exists escalated,
    py_get Sample.classifications "escalations" = Ok (PList escalated)
    /\ In (escalation_of Sample.link_down) escalated.
Proof.
  apply (@flagged_or_high_priority_is_escalated Demo.runtime 0
           (PFloat (8 # 1)) (PFloat (24 # 1)) Sample.batch
           Sample.link_down "P1" Sample.classifications).
  - reflexivity.
  - left. reflexivity.
  - right. split; [reflexivity | vm_compute; tauto].
Defined.

(** ** SiteDetector: what is reported *)

Lemma keys_dict_set {A} (d : list (string * A)) k v :
  dict_keys (dict_set d k v)
  = if existsb (String.eqb k) (dict_keys d) then dict_keys d
    else (dict_keys d ++ [k])%list.
Proof.
  unfold dict_keys. induction d as [|[k' v'] d IH]; simpl; [reflexivity|].
  rewrite (String.eqb_sym k k').
  destruct (k' =? k)%string; simpl; [reflexivity|]. rewrite IH.
  now destruct (existsb (String.eqb k) (map fst d)).
Qed.

Lemma NoDup_keys_dict_set {A} (d : list (string * A)) k v :
  NoDup (dict_keys d) -> NoDup (dict_keys (dict_set d k v)).
Proof.
  intros Hd. rewrite keys_dict_set.
  destruct (existsb (String.eqb k) (dict_keys d)) eqn:E; [exact Hd|].
  apply NoDup_app; [exact Hd | repeat constructor; intros [] |].
  intros x Hx [->|[]].
  assert (existsb (String.eqb x) (dict_keys d) = true)
    by (apply existsb_exists; exists x; split; [exact Hx | apply String.eqb_refl]).
  congruence.
Qed.

Lemma dict_get_In {A} (d : list (string * A)) k v :
  NoDup (dict_keys d) -> (In (k, v) d <-> dict_get d k = Some v).
Proof.
  unfold dict_keys. induction d as [|[k' v'] d IH]; simpl; intros Hd.
  - split; [intros [] | discriminate].
  - inversion Hd as [|? ? Hnot Hd']; subst.
    destruct (String.eqb_spec k' k) as [->|Hne].
    + split.
      * intros [E|Hin]; [now inversion E|].
        exfalso. apply Hnot. apply in_map_iff. now exists (k, v).
      * intros E; inversion E. now left.
    + rewrite <- (IH Hd'). split; [intros [E|Hin]; [inversion E; contradiction | exact Hin]|].
      intros Hin. now right.
Qed.

Lemma positive_dict_set (c : Tools.counter) k v :
  0 < v -> Forall (fun kn => 0 < snd kn) c ->
  Forall (fun kn => 0 < snd kn) (dict_set c k v).
Proof.
  intros Hv Hc. induction c as [|[k' n] c IH]; simpl.
  - now repeat constructor.
  - inversion Hc; subst. destruct (k' =? k)%string; constructor; auto.
Qed.

Lemma site_count_nonneg (c : Tools.counter) s :
  Forall (fun kn => 0 < snd kn) c -> 0 <= site_count c s.
Proof.
  unfold site_count. intros Hc. induction c as [|[k n] c IH]; simpl; [lia|].
  inversion Hc; subst. destruct (k =? s)%string; [cbn in *; lia | auto].
Qed.

Lemma positive_get (c : Tools.counter) s n :
  Forall (fun kn => 0 < snd kn) c -> dict_get c s = Some n -> 0 < n.
Proof.
  intros Hc. induction c as [|[k n'] c IH]; simpl; [discriminate|].
  inversion Hc; subst. destruct (k =? s)%string; [|auto].
  intros E; inversion E; subst. assumption.
Qed.

Lemma insert_sorted_ascending x l : ascending l -> ascending (insert_sorted x l).
Proof.
  unfold ascending. induction l as [|y l IH]; simpl; intros Hl.
  - repeat constructor.
  - destruct (String.leb x y) eqn:E.
    + constructor; [exact Hl | now constructor].
    + inversion Hl as [|? ? Hl' Hhd]; subst. constructor; [now apply IH|].
      assert (Hyx : String.leb y x = true)
        by (destruct (String.leb_total x y); congruence).
      destruct l as [|z l]; simpl; [now constructor|].
      destruct (String.leb x z); constructor; [exact Hyx|].
      now inversion Hhd.
Qed.

Lemma sort_strings_ascending l : ascending (sort_strings l).
Proof.
  induction l as [|x l IH]; simpl; [constructor | now apply insert_sorted_ascending].
Qed.

Lemma NoDup_insert_sorted x l :
  ~ In x l -> NoDup l -> NoDup (insert_sorted x l).
Proof.
  induction l as [|y l IH]; simpl; intros Hx Hl.
  - repeat constructor. intros [].
  - destruct (String.leb x y); [now constructor|].
    inversion Hl; subst. constructor.
    + rewrite In_insert_sorted. intros [->|Hin]; [apply Hx; now left | contradiction].
    + apply IH; [intros Hin; apply Hx; now right | assumption].
Qed.

Lemma NoDup_sort_strings l : NoDup l -> NoDup (sort_strings l).
Proof.
  induction l as [|x l IH]; simpl; intros Hl; [constructor|].
  inversion Hl; subst. apply NoDup_insert_sorted; [|now apply IH].
  now rewrite In_sort_strings.
Qed.

Section Reported.
Context `{Runtime}.

(** X7: the reported sites come in ascending order and without
    repetition, for every input on which the detection returns. *)
Theorem persistent_sites_sorted_unique (srs memory min_recurrence r : pyval) :
  Tools.detect_persistent_sites srs memory min_recurrence = Ok r ->
  exists sites,
    py_get r "persistent_sites" = Ok (PList (map PStr sites))
    /\ ascending sites /\ NoDup sites.
Proof.
  unfold Tools.detect_persistent_sites. intros Hr. inv_ok Hr.
  eexists. split; [reflexivity|]. unfold sorted_set. split.
  - apply sort_strings_ascending.
  - apply NoDup_sort_strings, NoDup_nodup.
Qed.

Lemma count_fold_spec (tickets : list pydict) (acc : Tools.counter) :
  NoDup (dict_keys acc) -> Forall (fun kn => 0 < snd kn) acc ->
  exists counts,
    foldM Tools.count_step (map PDict tickets) acc = Ok counts
    /\ NoDup (dict_keys counts)
    /\ Forall (fun kn => 0 < snd kn) counts
    /\ forall s, site_count counts s = site_count acc s + site_occurrences tickets s.
Proof.
  revert acc. induction tickets as [|sr tickets IH]; intros acc Hnd Hpos.
  - exists acc. cbn. repeat split; try assumption. intros s.
    unfold site_occurrences. cbn. lia.
  - cbn [map foldM]. unfold Tools.count_step at 1. cbn [Tools.as_dict rbind].
    unfold site_occurrences. cbn [filter].
    destruct (Tools.site_key sr) as [key|] eqn:Hk; cbn [rbind].
    + destruct (IH (Tools.bump acc key)) as (counts & Hf & Hnd' & Hpos' & Hc).
      * now apply NoDup_keys_dict_set.
      * apply positive_dict_set; [|exact Hpos].
        pose proof (@site_count_nonneg acc key Hpos). unfold site_count in *. lia.
      * exists counts. repeat split; try assumption. intros s.
        rewrite Hc, site_count_bump. unfold site_occurrences.
        destruct (string_dec key s) as [->|Hne].
        -- rewrite String.eqb_refl. cbn [List.length]. lia.
        -- destruct (String.eqb_spec key s); [contradiction|]. lia.
    + destruct (IH acc Hnd Hpos) as (counts & Hf & Hnd' & Hpos' & Hc).
      exists counts. repeat split; try assumption.
Qed.

Lemma persistent_fold_spec hist (m : Z) counts acc :
  foldM (Tools.persistent_step (Tools.counter_dict hist) (PInt m)) counts acc
  = Ok (acc ++ map fst (filter (recurs hist m) counts))%list.
Proof.
  revert acc. induction counts as [|[site count] counts IH]; intros acc;
    cbn [foldM filter map].
  - now rewrite app_nil_r.
  - unfold Tools.persistent_step at 1. rewrite counter_dict_get.
    cbn [rbind py_int]. rewrite !ge_int. cbn [rbind].
    unfold recurs. cbn [fst snd].
    destruct (m <=? count)%Z; cbn [rbind orb].
    + rewrite IH. cbn [map]. now rewrite <- app_assoc.
    + destruct (m <=? site_count hist site)%Z; cbn [rbind]; rewrite IH;
        cbn [map];
        [now rewrite <- app_assoc | reflexivity].
Qed.

(** X8: which sites are reported.  For a batch of tickets, a memory whose
    recurring sites are integer counts and an integer threshold, the
    detection returns; [current_counts] gives for each site the number of
    tickets counted under it, and a site is reported exactly when it has a
    ticket in the batch and its batch count or its historical count
    reaches the threshold. *)
Theorem persistent_sites_exactly
  (tickets : list pydict) (memory : pydict) (hist : Tools.counter) (m : Z) :
  dict_get_d memory "recurring_sites" (PDict []) = Tools.counter_dict hist ->
  exists sites counts,
    Tools.detect_persistent_sites (PList (map PDict tickets)) (PDict memory)
      (PInt m)
    = Ok (PDict [ ("persistent_sites", PList (map PStr sites));
                  ("current_counts", Tools.counter_dict counts) ])
    /\ (forall s, site_count counts s = site_occurrences tickets s)
    /\ (forall s,
          In s sites <->
          0 < site_occurrences tickets s
          /\ (m <= site_occurrences tickets s \/ m <= site_count hist s)).
Proof.
  intros Hmem. unfold Tools.detect_persistent_sites. cbn [py_iter rbind].
  destruct (count_fold_spec tickets (acc := []))
    as (counts & Hf & Hnd & Hpos & Hc); [constructor | constructor |].
  rewrite Hf. cbn [rbind].
  assert (Hmc : (if truthy (PDict memory)
                 then py_get_d (PDict memory) "recurring_sites" (PDict [])
                 else Ok (PDict [])) = Ok (Tools.counter_dict hist)).
  { cbn [py_get_d]. rewrite Hmem. destruct memory; [|reflexivity].
    cbn in Hmem |- *. now rewrite Hmem. }
  rewrite Hmc. cbn [rbind]. rewrite persistent_fold_spec. cbn [rbind app].
  eexists _, counts. split; [reflexivity|]. split.
  - intros s. rewrite Hc. unfold site_count. cbn. lia.
  - intros s. rewrite In_sorted_set, in_map_iff. split.
    + intros [[s' n] [E Hin]]. cbn in E. subst s'.
      apply filter_In in Hin. destruct Hin as [Hin Hrec].
      apply (proj1 (@dict_get_In _ counts s n Hnd)) in Hin.
      pose proof (@positive_get counts s n Hpos Hin) as Hn.
      pose proof (Hc s) as Hs. unfold site_count at 1 in Hs. rewrite Hin in Hs.
      cbn in Hs. unfold recurs in Hrec. cbn [fst snd] in Hrec.
      apply orb_prop in Hrec. rewrite !Z.leb_le in Hrec. lia.
    + intros [Hpos' Hrec]. pose proof (Hc s) as Hs. cbn in Hs.
      unfold site_count at 1 in Hs.
      destruct (dict_get counts s) as [n|] eqn:Hg; [|lia].
      exists (s, n). split; [reflexivity|]. apply filter_In. split.
      * now apply (proj2 (@dict_get_In _ counts s n Hnd)).
      * unfold recurs. cbn [fst snd]. apply orb_true_iff.
        rewrite !Z.leb_le. lia.
Qed.

End Reported.

(** [persistent_sites_sorted_unique] on the three site tickets. *)
Lemma persistent_sites_sorted_unique_witness :
  exists sites,
    py_get Sample.sites "persistent_sites" = Ok (PList (map PStr sites))
    /\ ascending sites /\ NoDup sites.
Proof.
  apply (@persistent_sites_sorted_unique Demo.runtime
           (PList Demo.site_batch) Demo.site_memory (PInt 2) Sample.sites).
  reflexivity.
Defined.

(** [persistent_sites_exactly] on the three site tickets, with threshold 2:
    one site reaches it in the batch, the other in the history. *)
Lemma persistent_sites_exactly_witness :
  exists sites counts,
    @Tools.detect_persistent_sites Demo.runtime
      (PList (map PDict Sample.site_tickets)) (PDict Sample.site_document)
      (PInt 2)
    = Ok (PDict [ ("persistent_sites", PList (map PStr sites));
                  ("current_counts", Tools.counter_dict counts) ])
    /\ (forall s,
          site_count counts s
          = @site_occurrences Demo.runtime Sample.site_tickets s)
    /\ (forall s,
          In s sites <->
          0 < @site_occurrences Demo.runtime Sample.site_tickets s
          /\ (2 <= @site_occurrences Demo.runtime Sample.site_tickets s
              \/ 2 <= site_count Sample.site_history s)).
Proof.
  apply (@persistent_sites_exactly Demo.runtime Sample.site_tickets
           Sample.site_document Sample.site_history 2).
  reflexivity.
Defined.

(** ** SummaryComposer: the backend's text *)

Section BackendText.
Context `{Runtime} `{Host} `{LLM}.

#[local] Arguments Tools.fallback_summary : simpl never.


(** X10: whatever the backend does, a summary that is returned is text and
    is not empty. *)
Theorem summary_never_blank
  (stats classifications persistent_sites action_list shift_id r : pyval)
  (w w' : world) :
  Tools.generate_summary stats classifications persistent_sites action_list
    shift_id w = (Ok r, w') ->
  exists s, r = PDict [("summary", PStr s)] /\ s <> "".
Proof.
  unfold Tools.generate_summary. intros Hrun.
  do 5 (apply bind_ok in Hrun; destruct Hrun as (? & ? & ? & Hrun)).
  apply bind_ok in Hrun. destruct Hrun as (answer & wa & Hc & Hrun).
  destruct answer as [summary|].
  - unfold ret in Hrun. inversion Hrun; subst. exists summary.
    split; [reflexivity|]. revert Hc.
    unfold catch, bind, tick, lift, ret. cbn.
    destruct (generate_text _ _ _) as [text|]; cbn; [|discriminate].
    destruct (py_strip text) as [stripped|]; cbn; [|discriminate].
    destruct (String.eqb_spec stripped ""); intros Hc; inversion Hc; subst.
    assumption.
  - inv_M Hrun. eexists. split; [reflexivity|].
    rewrite fallback_summary_template. discriminate.
Qed.

End BackendText.

(** ** Email notifier *)

Section Email.
Context `{Runtime} `{Host}.

Lemma settings_resolved settings name :
  rbind (py_get (PDict settings) name) (fun a => Ok (py_or a (Tools.env name)))
  = Ok (setting settings name).
Proof. reflexivity. Qed.

(** X11: without a host, a sender or a recipient nothing is sent: the
    transport is not contacted, the report is not looked at, and the
    outcome says that the settings are missing. *)
Theorem send_email_needs_settings
  (report to subject : pyval) (settings : pydict) (port : Z) (w : world) :
  port_of settings = Ok port ->
  truthy (setting settings "SMTP_HOST") = false
  \/ truthy (setting settings "SMTP_FROM") = false
  \/ truthy (recipient_of to settings) = false ->
  Tools.send_email report to subject (PDict settings) w
  = (Ok (PDict [ ("sent", PBool false);
                 ("message", PStr "SMTP settings missing; email not sent.");
                 ("to", recipient_of to settings) ]), w).
Proof.
  intros Hport Hmiss. unfold Tools.send_email.
  unfold bind at 1, lift at 1. rewrite settings_resolved.
  unfold bind at 1, lift at 1.
  change (rbind (py_get (PDict settings) "SMTP_PORT") _) with (port_of settings).
  rewrite Hport.
  unfold bind at 1, lift at 1. rewrite settings_resolved.
  unfold bind at 1, lift at 1. rewrite settings_resolved.
  unfold bind at 1, lift at 1. rewrite settings_resolved.
  unfold bind at 1.
  assert (Hrec : (if truthy to then ret to
                  else lift (rbind (py_get (PDict settings) "SMTP_TO")
                               (fun a => Ok (py_or a (Tools.env "SMTP_TO"))))) w
                 = (Ok (recipient_of to settings), w)).
  { unfold recipient_of. destruct (truthy to); reflexivity. }
  rewrite Hrec.
  assert (Hif : negb (truthy (setting settings "SMTP_HOST"))
                || negb (truthy (setting settings "SMTP_FROM"))
                || negb (truthy (recipient_of to settings)) = true).
  { destruct Hmiss as [->|[->| ->]]; cbn; rewrite ?orb_true_r; reflexivity. }
  rewrite Hif. reflexivity.
Qed.

(** X12: the port is converted before anything else is checked: a port
    that is no number makes [send_email] raise, even where nothing would
    have been sent. *)
Theorem send_email_bad_port_raises
  (report to subject : pyval) (settings : pydict) (e : exn) (w : world) :
  port_of settings = Raise e ->
  Tools.send_email report to subject (PDict settings) w = (Raise e, w).
Proof.
  intros Hport. unfold Tools.send_email.
  unfold bind at 1, lift at 1. rewrite settings_resolved.
  unfold bind at 1, lift at 1.
  change (rbind (py_get (PDict settings) "SMTP_PORT") _) with (port_of settings).
  now rewrite Hport.
Qed.

Lemma action_lines (actions : list pydict) (acc : list pyval) :
  foldM Tools.action_line (map PDict actions) acc
  = Ok (acc ++ map PStr (map action_text actions))%list.
Proof.
  revert acc. induction actions as [|a actions IH]; intros acc; cbn [map foldM].
  - now rewrite app_nil_r.
  - unfold Tools.action_line at 1. cbn [Tools.as_dict rbind].
    rewrite IH. now rewrite <- app_assoc.
Qed.

Lemma join_text sep (lines : list string) :
  Tools.join sep (map PStr lines) = Ok (String.concat sep lines).
Proof.
  induction lines as [|l lines IH]; cbn [map Tools.join String.concat];
    [reflexivity|].
  destruct lines as [|l' lines]; [reflexivity|].
  cbn [map] in IH |- *. now rewrite IH.
Qed.

(** X13: once the settings are there and the message can be built, the
    outcome of the transport is reported and never raised: for a port that
    converts, a report with a text summary and a list of actions, and a
    body that [MIMEText] accepts, [send_email] returns, with [sent] true
    and "Email sent." or with [sent] false and the transport's error after
    "Email failed: ". *)
Theorem send_email_reports_outcome
  (report settings : pydict) (to subject : pyval) (summary : string)
  (actions : list pydict) (port : Z) (w : world) :
  port_of settings = Ok port ->
  truthy (setting settings "SMTP_HOST") = true ->
  truthy (setting settings "SMTP_FROM") = true ->
  truthy (recipient_of to settings) = true ->
  dict_get_d report "summary" (PStr "") = PStr summary ->
  dict_get_d report "actions" (PList []) = PList (map PDict actions) ->
  mime_text (email_body summary actions) = Ok tt ->
  exists r w',
    Tools.send_email (PDict report) to subject (PDict settings) w = (Ok r, w')
    /\ py_get r "to" = Ok (recipient_of to settings)
    /\ (py_get r "sent" = Ok (PBool true)
        /\ py_get r "message" = Ok (PStr "Email sent.")
        \/ py_get r "sent" = Ok (PBool false)
           /\ exists e, py_get r "message" = Ok (PStr ("Email failed: " ++ e))).
Proof.
  intros Hport Hhost Hfrom Hto Hsum Hact Hmime. unfold Tools.send_email.
  unfold bind at 1, lift at 1. rewrite settings_resolved.
  unfold bind at 1, lift at 1.
  change (rbind (py_get (PDict settings) "SMTP_PORT") _) with (port_of settings).
  rewrite Hport.
  unfold bind at 1, lift at 1. rewrite settings_resolved.
  unfold bind at 1, lift at 1. rewrite settings_resolved.
  unfold bind at 1, lift at 1. rewrite settings_resolved.
  unfold bind at 1.
  assert (Hrec : (if truthy to then ret to
                  else lift (rbind (py_get (PDict settings) "SMTP_TO")
                               (fun a => Ok (py_or a (Tools.env "SMTP_TO"))))) w
                 = (Ok (recipient_of to settings), w)).
  { unfold recipient_of. destruct (truthy to); reflexivity. }
  rewrite Hrec, Hhost, Hfrom, Hto. cbn [negb orb].
  assert (Hsubj : exists s wS,
             (if truthy subject then ret subject
              else
                bind (lift (py_get (PDict report) "shift_id"))
                  (fun shift_id =>
                     bind (if truthy shift_id then ret (py_str shift_id)
                           else bind tick (fun t => ret (utcnow_date t)))
                       (fun label => ret (PStr ("Shift Summary - " ++ label))))) w
             = (Ok s, wS)).
  { destruct (truthy subject); [now eexists _, _|].
    unfold bind, lift, ret, tick. cbn [py_get py_get_d].
    destruct (truthy (dict_get_d report "shift_id" PNone)); now eexists _, _. }
  destruct Hsubj as (subj & wS & Hsubj).
  unfold bind at 1. rewrite Hsubj.
  unfold bind at 1, lift at 1. cbn [py_get_d]. rewrite Hsum.
  unfold bind at 1, lift at 1. rewrite Hact. cbn [rbind py_iter].
  unfold bind at 1, lift at 1. rewrite action_lines.
  pose proof (join_text nl
                (summary :: "" :: "Actions:" :: map action_text actions))
    as Hbody.
  cbn [map app] in Hbody |- *.
  unfold bind at 1, lift at 1. rewrite Hbody.
  change (String.concat nl _) with (email_body summary actions).
  unfold bind at 1, lift at 1. rewrite Hmime.
  unfold bind, tick, ret.
  destruct (smtp_session _ _ _ _ _ _ _ _ _) as [e|]; eexists _, _;
    (split; [reflexivity|]); (split; [reflexivity|]).
  - right. split; [reflexivity|]. now exists e.
  - left. split; reflexivity.
Qed.

End Email.


(** [summary_never_blank] with a backend that cannot be reached. *)
Lemma summary_never_blank_witness :
  exists s,
    PDict [("summary",
            PStr "Shift N-12 summary: 2 SRs handled, 1 open, 1 escalations.")]
    = PDict [("summary", PStr s)]
    /\ s <> "".
Proof.
  apply (@summary_never_blank Demo.runtime Demo.host Demo.unreachable
           Sample.stats Sample.classifications (PList [PStr "ATH-01"])
           (PDict [("actions", PList [])]) (PStr "N-12")
           (PDict [("summary",
                    PStr "Shift N-12 summary: 2 SRs handled, 1 open, 1 escalations.")])
           Demo.w0 (@World Demo.host 1 [])).
  vm_compute. reflexivity.
Defined.

(** [send_email_needs_settings] without any setting. *)
Lemma send_email_needs_settings_witness :
  @Tools.send_email Demo.runtime Demo.host
    (PDict Demo.run_report) PNone PNone (PDict []) Demo.w0
  = (Ok (PDict [ ("sent", PBool false);
                 ("message", PStr "SMTP settings missing; email not sent.");
                 ("to", @recipient_of Demo.host PNone []) ]), Demo.w0).
Proof.
  apply (@send_email_needs_settings Demo.runtime Demo.host
           (PDict Demo.run_report) PNone PNone [] 587 Demo.w0).
  - reflexivity.
  - left. reflexivity.
Defined.

(** [send_email_bad_port_raises] with a port that is a service name. *)
Lemma send_email_bad_port_raises_witness :
  @Tools.send_email Demo.runtime Demo.host
    (PDict Demo.run_report) PNone PNone (PDict [("SMTP_PORT", PStr "smtp")])
    Demo.w0
  = (Raise ValueError, Demo.w0).
Proof.
  apply (@send_email_bad_port_raises Demo.runtime Demo.host
           (PDict Demo.run_report) PNone PNone [("SMTP_PORT", PStr "smtp")]
           ValueError Demo.w0).
  reflexivity.
Defined.

(** [send_email_reports_outcome] with complete settings and a transport
    that refuses the connection. *)
Lemma send_email_reports_outcome_witness :
  exists r w',
    @Tools.send_email Demo.runtime Demo.host
      (PDict Demo.run_report) PNone PNone (PDict Sample.relay) Demo.w0
    = (Ok r, w')
    /\ py_get r "to" = Ok (@recipient_of Demo.host PNone Sample.relay)
    /\ (py_get r "sent" = Ok (PBool true)
        /\ py_get r "message" = Ok (PStr "Email sent.")
        \/ py_get r "sent" = Ok (PBool false)
           /\ exists e, py_get r "message" = Ok (PStr ("Email failed: " ++ e))).
Proof.
  apply (@send_email_reports_outcome Demo.runtime Demo.host
           Demo.run_report Sample.relay PNone PNone "Quiet night." [] 587
           Demo.w0); reflexivity.
Defined.

(** ** MemoryStore: save and load *)

Section SaveLoad.
Context `{Runtime} `{Host}.

(** X14: saving and loading are inverse on a disk that returns what was
    written and a codec that decodes what it encodes: [save_memory] creates
    the directory where the path names one, writes the document and
    returns true, and a [load_memory] of the same path gives the document
    back. *)
Theorem save_then_load
  (path : string) (memory : pyval) (w : world) (fs1 fs2 : FS) :
  path <> "" ->
  (if (Memory.dirname path =? "")%string then Ok (disk w)
   else makedirs (disk w) (Memory.dirname path)) = Ok fs1 ->
  open_write fs1 path (json_dumps_indent memory) = Ok fs2 ->
  path_exists fs2 path = true ->
  open_read fs2 (PStr path) = Ok (json_dumps_indent memory) ->
  json_loads (json_dumps_indent memory) = Ok memory ->
  bind (Memory.save_memory (PStr path) memory)
    (fun saved =>
       bind (Memory.load_memory (PStr path)) (fun loaded => ret (saved, loaded)))
    w
  = (Ok (true, memory), World (ticks w) fs2).
Proof.
  intros Hp Hdir Hwrite Hex Hread Hcodec.
  assert (Htruthy : truthy (PStr path) = true).
  { cbn. destruct (String.eqb_spec path ""); [contradiction | reflexivity]. }
  unfold Memory.save_memory, Memory.load_memory. rewrite Htruthy. cbn [negb].
  unfold Memory._ensure_dir, Memory.os_path_exists.
  unfold bind, lift, ret, catch, get_disk, put_disk. cbn.
  destruct (Memory.dirname path =? "")%string; cbn.
  - inversion Hdir; subst fs1. rewrite Hwrite. cbn.
    rewrite Hex. cbn. rewrite Hread. cbn. now rewrite Hcodec.
  - rewrite Hdir. cbn. rewrite Hwrite. cbn.
    rewrite Hex. cbn. rewrite Hread. cbn. now rewrite Hcodec.
Qed.

End SaveLoad.

(** [save_then_load] of an empty document on an empty disk. *)
Lemma save_then_load_witness :
  bind (@Memory.save_memory Demo.runtime Demo.host
          (PStr "data/memory.json") (PDict []))
    (fun saved =>
       bind (@Memory.load_memory Demo.runtime Demo.host (PStr "data/memory.json"))
         (fun loaded => ret (saved, loaded)))
    Demo.w0
  = (Ok (true, PDict []), @World Demo.host 0 [("data/memory.json", "{}")]).
Proof.
  apply (@save_then_load Demo.runtime Demo.host "data/memory.json" (PDict [])
           Demo.w0 [] [("data/memory.json", "{}")]).
  - discriminate.
  - reflexivity.
  - reflexivity.
  - reflexivity.
  - reflexivity.
  - reflexivity.
Defined.

(** ** ToolRouter: names and malformed arguments *)

(** Select the handler of a literal operation name. *)
Ltac select_handler :=
  unfold Agent._execute_tool; cbn [Agent.is_name];
  repeat match goal with
         | |- context [String.eqb ?a ?b] =>
             let r := eval vm_compute in (String.eqb a b) in
             change (String.eqb a b) with r
         end;
  cbv iota.

Section Router.
Context `{Runtime} `{Host} `{LLM}.
Variable self : Agent.config.

(** X15: a name outside the dispatch table is answered with an error
    value; the arguments are not looked at, whatever they are, and neither
    the run state nor the world changes. *)
Theorem unknown_tool_is_reported (name args : pyval) (st : pydict) (w : world) :
  (forall s, In s tool_names -> Agent.is_name name s = false) ->
  Agent._execute_tool self name args st w
  = (Ok (PDict [("error", PStr ("Unknown tool: " ++ py_str name))], st), w).
Proof.
  intros Hno. unfold Agent._execute_tool.
  repeat (rewrite Hno by (cbn; tauto)). reflexivity.
Qed.

(** X16: arguments that are not a dictionary make every operation of the
    table raise [AttributeError] at its first lookup, before anything is
    computed or stored. *)
Theorem non_dict_arguments_raise
  (name : string) (args : pyval) (st : pydict) (w : world) :
  In name tool_names ->
  (forall d, args <> PDict d) ->
  Agent._execute_tool self (PStr name) args st w = (Raise AttributeError, w).
Proof.
  intros Hin Hargs.
  assert (Hget : forall k fb, Agent.arg_or args k fb = Raise AttributeError).
  { intros k fb. unfold Agent.arg_or. destruct args; try reflexivity.
    now destruct (Hargs d). }
  unfold tool_names in Hin.
  repeat (destruct Hin as [Hin|Hin]; [subst name|]); try contradiction;
    select_handler; unfold bind at 1, lift at 1; now rewrite Hget.
Qed.

(** X17: the transcript grows by one tool message per proposed invocation,
    in the order of the proposals, each carrying the invocation's id and
    name; earlier messages are kept. *)
Theorem dispatch_all_answers_each_call
  (calls messages : list pyval) (st : pydict) (w : world)
  (messages' : list pyval) (st' : pydict) (w' : world) :
  Agent.dispatch_all self calls messages st w = (Ok (messages', st'), w') ->
  exists added,
    messages' = (messages ++ added)%list /\ Forall2 answers calls added.
Proof.
  revert messages st w. induction calls as [|call calls IH];
    intros messages st w; cbn [Agent.dispatch_all].
  - unfold ret. intros E; inversion E; subst. exists [].
    split; [now rewrite app_nil_r | constructor].
  - intros Hrun.
    apply bind_ok in Hrun. destruct Hrun as (c & w1 & Hc & Hrun).
    apply bind_ok in Hrun. destruct Hrun as ([result st1] & w2 & Hx & Hrun).
    apply IH in Hrun. destruct Hrun as (added & -> & Hall).
    destruct call as [| | | | | |d]; try discriminate.
    unfold lift in Hc. cbn in Hc. inversion Hc; subst c w1.
    eexists (_ :: added). split; [now rewrite <- app_assoc|].
    constructor; [|exact Hall]. repeat split.
Qed.

End Router.

(** [unknown_tool_is_reported] for a name outside the table. *)
Lemma unknown_tool_is_reported_witness :
  Demo.dispatch (PStr "no_such_tool") PNone Demo.two_ticket_state Demo.w0
  = (Ok (PDict [("error", PStr ("Unknown tool: " ++ @py_str Demo.runtime (PStr "no_such_tool")))],
         Demo.two_ticket_state), Demo.w0).
Proof.
  apply (@unknown_tool_is_reported Demo.runtime Demo.host Demo.silent Demo.cfg
           (PStr "no_such_tool") PNone Demo.two_ticket_state Demo.w0).
  intros s Hs. unfold tool_names in Hs.
  repeat (destruct Hs as [<-|Hs]; [reflexivity|]). contradiction.
Defined.

(** [non_dict_arguments_raise] for arguments that decode to a list. *)
Lemma non_dict_arguments_raise_witness :
  Demo.dispatch (PStr "analyze_tickets") (PList []) Demo.two_ticket_state Demo.w0
  = (Raise AttributeError, Demo.w0).
Proof.
  apply (@non_dict_arguments_raise Demo.runtime Demo.host Demo.silent Demo.cfg
           "analyze_tickets" (PList []) Demo.two_ticket_state Demo.w0).
  - left. reflexivity.
  - intros d. discriminate.
Defined.

(** [dispatch_all_answers_each_call] for two proposals. *)
Lemma dispatch_all_answers_each_call_witness :
  exists added,
    Sample.answers_given = ([] ++ added)%list
    /\ Forall2 answers Sample.proposals added.
Proof.
  apply (@dispatch_all_answers_each_call Demo.runtime Demo.host Demo.silent
           Demo.cfg Sample.proposals [] Demo.two_ticket_state Demo.w0
           Sample.answers_given
           (dict_set Demo.two_ticket_state "stats" Sample.stats) Demo.w0).
  vm_compute. reflexivity.
Defined.

(** ** MemoryStore: a document without an escalation log *)

Section MissingLog.
Context `{Runtime} `{Host}.

Lemma views_core_set m v log k x :
  k <> "stats" -> k <> "escalations" ->
  views_core m v log ->
  dict_get (dict_set m k x) "past_shifts"
  = (if (k =? "past_shifts")%string then Some x
     else dict_get m "past_shifts") ->
  (exists ms,
      dict_get (dict_set m k x) "stats" = Some (PDict ms)
      /\ dict_get ms "total_shifts" = Some (PInt (v_shifts v))
      /\ dict_get ms "total_srs" = Some (PInt (v_tickets v)))
  /\ dict_get (dict_set m k x) "escalations" = option_map PList log.
Proof.
  intros Hs He [[ms [Hm [Ha Hb]]] [_ [_ Hl]]] _. split.
  - exists ms. now rewrite dict_get_set_other.
  - now rewrite dict_get_set_other.
Qed.

Lemma count_run_core m v log (stats : pydict) total :
  views_core m v log ->
  dict_get_d stats "total" (PInt 0) = PInt total ->
  exists m',
    Memory.count_run (PDict m) (PDict stats) = Ok (PDict m')
    /\ views_core m' (View (v_shifts v + 1) (v_tickets v + total)
                        (v_past v) (v_sites v) (v_log v)) log.
Proof.
  intros Hv Ht. pose proof Hv as [[ms [Hm [Ha Hb]]] [Hp [Hs Hl]]].
  unfold Memory.count_run. cbn [py_item]. unfold dict_item.
  rewrite Hm. cbn [rbind py_get_d]. unfold dict_get_d at 1. rewrite Ha.
  cbn [rbind py_int py_setitem py_item]. unfold dict_item.
  rewrite dict_get_set_same.
  cbn [rbind py_get_d]. unfold dict_get_d at 1.
  rewrite dict_get_set_other by discriminate. rewrite Hb, Ht.
  cbn [rbind py_int py_setitem]. eexists. split; [reflexivity|].
  unfold views_core; cbn [v_past v_sites v_log v_shifts v_tickets].
  split; [eexists; split; [apply dict_get_set_same | split; other_key]|].
  repeat split; other_key.
Qed.

Lemma record_shift_core timestamp m v log (report : pydict) stats :
  views_core m v log ->
  exists m',
    Memory.record_shift timestamp (PDict m) (PDict report) stats = Ok (PDict m')
    /\ views_core m'
         (View (v_shifts v) (v_tickets v)
            (lastn 50 (v_past v ++ [shift_record timestamp report stats]))
            (v_sites v) (v_log v)) log.
Proof.
  intros Hv. pose proof Hv as [[ms [Hm [Ha Hb]]] [Hp [Hs Hl]]].
  unfold Memory.record_shift. cbn [py_get py_get_d rbind py_setdefault].
  rewrite Hp. cbn [rbind py_append py_setitem py_item]. unfold dict_item.
  rewrite dict_get_set_same. cbn [rbind py_last py_setitem].
  eexists. split; [reflexivity|].
  unfold views_core; cbn [v_past v_sites v_log v_shifts v_tickets].
  split; [exists ms; other_key; auto|]. repeat split; other_key.
Qed.

Lemma bump_sites_core (sites : list string) m v log :
  views_core m v log ->
  exists m',
    foldM Memory.bump_site (map PStr sites) (PDict m) = Ok (PDict m')
    /\ views_core m' (View (v_shifts v) (v_tickets v) (v_past v)
                        (fold_left Tools.bump sites (v_sites v)) (v_log v)) log.
Proof.
  revert m v. induction sites as [|k sites IH]; intros m v Hv; cbn [map foldM].
  - exists m. split; [reflexivity | now destruct v].
  - pose proof Hv as [[ms [Hm [Ha Hb]]] [Hp [Hs Hl]]].
    unfold Memory.bump_site at 1. cbn [py_setdefault]. rewrite Hs.
    cbn [rbind py_item]. unfold dict_item. rewrite Hs. cbn [rbind].
    rewrite counter_dict_get. cbn [rbind py_int]. rewrite counter_dict_set.
    cbn [rbind py_setitem].
    apply (IH _ (View (v_shifts v) (v_tickets v) (v_past v)
                   (Tools.bump (v_sites v) k) (v_log v))).
    unfold views_core; cbn [v_past v_sites v_log v_shifts v_tickets].
    split; [exists ms; other_key; auto|]. repeat split; other_key.
Qed.

(** X18: the escalation log is the one entry [update_memory] does not
    create when it is missing.  On a memory document that has its counters,
    history and site counters but no "escalations" entry, the update raises
    [KeyError] when the run has no escalation; with at least one escalation
    it creates the log and goes through. *)
Theorem update_memory_without_log
  (m report classifications stats : pydict) (v : memory_view)
  (sites : list string) (escs : list pyval) (total : Z) (w : world) :
  views_core m v None ->
  dict_get_d stats "total" (PInt 0) = PInt total ->
  dict_get_d classifications "escalations" (PList []) = PList escs ->
  match escs with
  | [] =>
      Memory.update_memory (PDict m) (PDict report) (PDict classifications)
        (PList (map PStr sites)) (PDict stats) w
      = (Raise KeyError, World (S (ticks w)) (disk w))
  | _ =>
      exists m',
        Memory.update_memory (PDict m) (PDict report) (PDict classifications)
          (PList (map PStr sites)) (PDict stats) w
        = (Ok (PDict m'), World (S (ticks w)) (disk w))
        /\ views m'
             (View (v_shifts v + 1) (v_tickets v + total)
                (lastn 50 (v_past v
                           ++ [shift_record (utcnow_iso (ticks w) ++ "Z") report
                                 (PDict stats)]))
                (fold_left Tools.bump sites (v_sites v))
                (lastn 200 escs))
  end.
Proof.
  intros Hv Ht He.
  assert (Hm : py_or (PDict m) Memory.DEFAULT_MEMORY = PDict m).
  { destruct Hv as [[ms [Hm _]] _]. destruct m; [discriminate | reflexivity]. }
  unfold Memory.update_memory. rewrite Hm.
  destruct (count_run_core stats Hv Ht) as [m1 [E1 Hv1]].
  destruct (record_shift_core (utcnow_iso (ticks w) ++ "Z") report (PDict stats) Hv1)
    as [m2 [E2 Hv2]].
  destruct (bump_sites_core sites Hv2) as [m3 [E3 Hv3]].
  cbn [v_past v_sites v_log v_shifts v_tickets] in *.
  unfold bind, lift, tick, ret. rewrite E1. cbn [ticks disk]. rewrite E2.
  unfold Memory.bump_sites.
  assert (Hit : py_iter (py_or (PList (map PStr sites)) (PList []))
                = Ok (map PStr sites)) by (destruct sites; reflexivity).
  rewrite Hit. cbn [rbind]. rewrite E3.
  unfold Memory.log_escalations. cbn [py_get_d rbind]. rewrite He.
  cbn [py_iter rbind].
  pose proof Hv3 as [[ms [Hs3 [Ha3 Hb3]]] [Hp3 [Hc3 Hl3]]].
  cbn [v_past v_sites v_log v_shifts v_tickets option_map] in *.
  destruct escs as [|esc escs].
  - cbn [foldM rbind py_item]. unfold dict_item. now rewrite Hl3.
  - cbn [foldM]. unfold Memory.log_escalation at 1. cbn [py_setdefault].
    rewrite Hl3. cbn [rbind py_append py_setitem app]. rewrite dict_set_set.
    assert (Hv4 : views (dict_set m3 "escalations" (PList [esc]))
                    (View (v_shifts v + 1) (v_tickets v + total)
                       (lastn 50 (v_past v
                                  ++ [shift_record (utcnow_iso (ticks w) ++ "Z")
                                        report (PDict stats)]))
                       (fold_left Tools.bump sites (v_sites v)) [esc])).
    { unfold views; cbn [v_past v_sites v_log v_shifts v_tickets].
      split; [exists ms; other_key; auto|]. repeat split; other_key. }
    destruct (log_escalations_views escs Hv4) as [m5 [E5 Hv5]].
    rewrite E5. cbn [rbind py_item]. unfold dict_item.
    pose proof Hv5 as [_ [_ [_ Hl5]]]. cbn [v_log] in Hl5.
    rewrite Hl5. cbn [rbind py_last py_setitem app].
    eexists. split; [reflexivity|].
    exact (views_log (lastn 200 (esc :: escs)) Hv5).
Qed.

End MissingLog.

(** [update_memory_without_log] for a run without escalations. *)
Lemma update_memory_without_log_witness :
  @Memory.update_memory Demo.runtime Demo.host
    (PDict Sample.memory_without_log) (PDict Demo.run_report) (PDict [])
    (PList (map PStr ["ATH-01"])) (PDict Demo.run_stats) Demo.w0
  = (Raise KeyError, @World Demo.host 1 []).
Proof.
  apply (@update_memory_without_log Demo.runtime Demo.host
           Sample.memory_without_log Demo.run_report [] Demo.run_stats
           (View 0 0 [] [] []) ["ATH-01"] [] 2 Demo.w0).
  - unfold views_core. split.
    + eexists. repeat split; reflexivity.
    + repeat split; reflexivity.
  - reflexivity.
  - reflexivity.
Defined.

(** ** Orchestrator: the run as a whole *)

Section WholeRun.
Context `{Runtime} `{Host} `{LLM}.
Variable self : Agent.config.

Lemma save_memory_written (p : string) (memory : pyval) (w : world) fs1 fs2 :
  p <> "" ->
  (if (Memory.dirname p =? "")%string then Ok (disk w)
   else makedirs (disk w) (Memory.dirname p)) = Ok fs1 ->
  open_write fs1 p (json_dumps_indent memory) = Ok fs2 ->
  Memory.save_memory (PStr p) memory w = (Ok true, World (ticks w) fs2).
Proof.
  intros Hp Hdir Hwrite.
  assert (Htruthy : truthy (PStr p) = true).
  { cbn. destruct (String.eqb_spec p ""); [contradiction | reflexivity]. }
  unfold Memory.save_memory. rewrite Htruthy. cbn [negb].
  unfold Memory._ensure_dir.
  unfold bind, lift, ret, get_disk, put_disk. cbn.
  destruct (Memory.dirname p =? "")%string; cbn.
  - inversion Hdir; subst fs1. now rewrite Hwrite.
  - rewrite Hdir. cbn. now rewrite Hwrite.
Qed.

Lemma save_memory_flag (p : string) (memory : pyval) (w w' : world) saved :
  Memory.save_memory (PStr p) memory w = (Ok saved, w') ->
  saved = negb (p =? "")%string.
Proof.
  unfold Memory.save_memory. cbn [truthy].
  destruct (p =? "")%string; cbn [negb].
  - unfold ret. now inversion 1.
  - intros Hrun. inv_M Hrun. reflexivity.
Qed.

Lemma empty_report_items {A} (shift_id : pyval)
  (k : pyval -> pyval -> pyval -> M A) (w : world) :
  bind (lift (dict_item (Agent.EMPTY_REPORT shift_id) "classifications"))
    (fun classifications =>
       bind (lift (dict_item (Agent.EMPTY_REPORT shift_id) "persistent_sites"))
         (fun persistent_sites =>
            bind (lift (dict_item (Agent.EMPTY_REPORT shift_id) "stats"))
              (fun stats => k classifications persistent_sites stats))) w
  = k (PDict [ ("open_issues", PList []); ("follow_up_required", PList []);
               ("escalations", PList []); ("recurrent", PList []) ])
      (PList (map PStr []))
      (PDict [("total", PInt 0); ("open", PInt 0)]) w.
Proof. reflexivity. Qed.

(** X19: a run without tickets consults neither the backend nor the mail
    transport, whatever notification was asked for, and still counts as a
    shift: it returns the fixed empty report with [memory_updated] true,
    and the document it writes has one more shift, the same ticket total,
    the same site counters and one more history record. *)
Theorem run_on_empty_batch
  (srs shift_id email_to : pyval) (notify_email : bool) (w : world)
  (m : pydict) (v : memory_view) (fs1 : FS) :
  Agent._normalize_srs srs = Ok [] ->
  Agent.memory_path self <> "" ->
  Memory.load_memory (PStr (Agent.memory_path self)) w = (Ok (PDict m), w) ->
  views m v ->
  (if (Memory.dirname (Agent.memory_path self) =? "")%string then Ok (disk w)
   else makedirs (disk w) (Memory.dirname (Agent.memory_path self))) = Ok fs1 ->
  (forall text, exists fs2, open_write fs1 (Agent.memory_path self) text = Ok fs2) ->
  exists m' fs2,
    Agent.run self srs shift_id notify_email email_to w
    = (Ok (empty_batch_report shift_id true), World (S (ticks w)) fs2)
    /\ open_write fs1 (Agent.memory_path self) (json_dumps_indent (PDict m'))
       = Ok fs2
    /\ views m'
         (View (v_shifts v + 1) (v_tickets v)
            (lastn 50 (v_past v
                       ++ [shift_record (utcnow_iso (ticks w) ++ "Z")
                             (Agent.EMPTY_REPORT shift_id)
                             (PDict [("total", PInt 0); ("open", PInt 0)])]))
            (v_sites v) (lastn 200 (v_log v))).
Proof.
  intros Hnorm Hp Hload Hv Hdir Hwrite.
  destruct (@update_memory_views _ _ m (Agent.EMPTY_REPORT shift_id)
              [ ("open_issues", PList []); ("follow_up_required", PList []);
                ("escalations", PList []); ("recurrent", PList []) ]
              [("total", PInt 0); ("open", PInt 0)] v [] [] 0 w Hv
              eq_refl eq_refl) as [m' [Hupd Hv']].
  cbn [fold_left] in Hv'. rewrite app_nil_r, Z.add_0_r in Hv'.
  destruct (Hwrite (json_dumps_indent (PDict m'))) as [fs2 Hfs2].
  exists m', fs2. split; [|split; assumption].
  unfold Agent.run. unfold bind at 1, lift at 1. rewrite Hnorm.
  unfold bind at 1. rewrite Hload.
  rewrite !empty_report_items. unfold bind at 1. rewrite Hupd.
  unfold bind at 1.
  rewrite (@save_memory_written (Agent.memory_path self) (PDict m')
             (World (S (ticks w)) (disk w)) fs1 fs2 Hp Hdir Hfs2).
  reflexivity.
Qed.

(** X20: the fallback of [load_memory] covers a file that cannot be read
    or parsed, not one that parses to something else than a memory
    document: when the memory file holds a value from which "stats" cannot
    be taken, the run raises before anything is written. *)
Theorem run_raises_on_foreign_memory
  (srs shift_id email_to : pyval) (notify_email : bool) (w : world)
  (text : string) (doc : pyval) (e : exn) :
  Agent._normalize_srs srs = Ok [] ->
  Agent.memory_path self <> "" ->
  path_exists (disk w) (Agent.memory_path self) = true ->
  open_read (disk w) (PStr (Agent.memory_path self)) = Ok text ->
  json_loads text = Ok doc ->
  truthy doc = true ->
  py_item doc "stats" = Raise e ->
  Agent.run self srs shift_id notify_email email_to w = (Raise e, w).
Proof.
  intros Hnorm Hp Hex Hread Hjson Hdoc Hstats.
  assert (Hload : Memory.load_memory (PStr (Agent.memory_path self)) w
                  = (Ok doc, w)).
  { unfold Memory.load_memory. cbn [truthy].
    destruct (String.eqb_spec (Agent.memory_path self) ""); [contradiction|].
    cbn [negb]. unfold Memory.os_path_exists.
    unfold bind, lift, ret, catch, get_disk. cbn.
    rewrite Hex. cbn. rewrite Hread. cbn. rewrite Hjson. now destruct w. }
  unfold Agent.run. unfold bind at 1, lift at 1. rewrite Hnorm.
  unfold bind at 1. rewrite Hload.
  rewrite !empty_report_items. unfold bind at 1.
  unfold Memory.update_memory.
  assert (Hor : py_or doc Memory.DEFAULT_MEMORY = doc)
    by (unfold py_or; now rewrite Hdoc).
  rewrite Hor. unfold bind at 1, lift at 1. unfold Memory.count_run.
  rewrite Hstats. reflexivity.
Qed.

(** X21: what a returned report says about its side effects: it is an
    object whose "memory_updated" is true exactly when a memory path is
    configured, and whose "email" is None whenever notification was not
    asked for and no recipient was given. *)
Theorem run_report_flags
  (srs shift_id email_to r : pyval) (notify_email : bool) (w w' : world) :
  Agent.run self srs shift_id notify_email email_to w = (Ok r, w') ->
  exists report,
    r = PDict report
    /\ dict_get report "memory_updated"
       = Some (PBool (negb (Agent.memory_path self =? "")%string))
    /\ (notify_email = false -> truthy email_to = false ->
        dict_get report "email" = Some PNone).
Proof.
  intros Hrun. unfold Agent.run in Hrun.
  apply bind_ok in Hrun. destruct Hrun as (batch & w1 & Hnorm & Hrun).
  apply bind_ok in Hrun. destruct Hrun as (memory & w2 & Hload & Hrun).
  destruct batch as [|sr batch].
  - inv_M Hrun.
    match goal with
    | Hs : Memory.save_memory _ _ _ = (Ok ?b, _) |- _ =>
        apply save_memory_flag in Hs; subst b
    end.
    eexists. split; [reflexivity|]. split; [reflexivity|].
    intros _ _. reflexivity.
  - inv_M Hrun.
    match goal with
    | Hs : Memory.save_memory _ _ _ = (Ok ?b, _) |- _ =>
        apply save_memory_flag in Hs; subst b
    end.
    eexists. split; [reflexivity|]. split; [reflexivity|].
    intros -> Hto.
    match goal with
    | Hm : (if _ then _ else _) _ = (Ok ?x, _) |- _ =>
        cbn [orb] in Hm; rewrite Hto in Hm; unfold ret in Hm;
        inversion Hm; reflexivity
    end.
Qed.

End WholeRun.

(** [run_on_empty_batch] with notification asked for, a backend that
    cannot be reached and no memory file. *)
Lemma run_on_empty_batch_witness :
  exists m' fs2,
    @Agent.run Demo.runtime Demo.host Demo.unreachable Demo.cfg
      (PList []) (PStr "N-13") true (PStr "lead@example.net") Demo.w0
    = (Ok (empty_batch_report (PStr "N-13") true), @World Demo.host 1 fs2)
    /\ @open_write Demo.host [] "data/memory.json"
         (@json_dumps_indent Demo.runtime (PDict m'))
       = Ok fs2
    /\ views m'
         (View (0 + 1) 0
            (lastn 50 ([] ++ [shift_record ("1970-01-01T00:00:00" ++ "Z")
                                (Agent.EMPTY_REPORT (PStr "N-13"))
                                (PDict [("total", PInt 0); ("open", PInt 0)])]))
            [] (lastn 200 [])).
Proof.
  apply (@run_on_empty_batch Demo.runtime Demo.host Demo.unreachable Demo.cfg
           (PList []) (PStr "N-13") (PStr "lead@example.net") true
           Demo.w0 Demo.fresh_memory (View 0 0 [] [] []) []).
  - reflexivity.
  - discriminate.
  - reflexivity.
  - unfold views. split.
    + eexists. repeat split; reflexivity.
    + repeat split; reflexivity.
  - reflexivity.
  - intros text. eexists. reflexivity.
Defined.

(** [run_raises_on_foreign_memory] with a memory file that holds a list. *)
Lemma run_raises_on_foreign_memory_witness :
  @Agent.run Sample.runtime Demo.host Demo.silent Demo.cfg
    (PList []) PNone false PNone Sample.foreign_memory_world
  = (Raise TypeError, Sample.foreign_memory_world).
Proof.
  apply (@run_raises_on_foreign_memory Sample.runtime Demo.host Demo.silent
           Demo.cfg (PList []) PNone PNone false Sample.foreign_memory_world
           "[1]" (PList [PInt 1]) TypeError).
  - reflexivity.
  - discriminate.
  - reflexivity.
  - reflexivity.
  - reflexivity.
  - reflexivity.
  - reflexivity.
Defined.

(** [run_report_flags] for a run without tickets. *)
Lemma run_report_flags_witness :
  exists report,
    empty_batch_report PNone true = PDict report
    /\ dict_get report "memory_updated"
       = Some (PBool (negb (Agent.memory_path Demo.cfg =? "")%string))
    /\ (false = false -> truthy PNone = false ->
        dict_get report "email" = Some PNone).
Proof.
  apply (@run_report_flags Demo.runtime Demo.host Demo.silent Demo.cfg
           (PList []) PNone PNone (empty_batch_report PNone true) false
           Demo.w0 (@World Demo.host 1 [("data/memory.json", "{...}")])).
  vm_compute. reflexivity.
Defined.

(** ** Orchestrator: normalisation and closure *)

Section Intake.
Context `{Runtime} `{Host} `{LLM}.
Variable self : Agent.config.

Lemma dicts_of_dicts (l : list pyval) :
  let is_dict := fun sr => match sr with PDict _ => true | _ => false end in
  filter is_dict (filter is_dict l) = filter is_dict l.
Proof.
  intros is_dict. induction l as [|sr l IH]; [reflexivity|].
  destruct sr; cbn; try exact IH. f_equal. exact IH.
Qed.

(** X22: what [_normalize_srs] returns is a list of dictionaries, and
    normalising it again changes nothing. *)
Theorem normalize_srs_keeps_dicts (srs : pyval) (batch : list pyval) :
  Agent._normalize_srs srs = Ok batch ->
  Forall (fun sr => exists d, sr = PDict d) batch
  /\ Agent._normalize_srs (PList batch) = Ok batch.
Proof.
  unfold Agent._normalize_srs at 1.
  destruct (truthy srs); cbn [negb].
  - destruct srs as [| | | | |l|]; try discriminate.
    intros E; inversion E; subst batch; clear E. split.
    + apply Forall_forall. intros sr Hin. apply filter_In in Hin.
      destruct Hin as [_ Hd]. destruct sr; try discriminate. now eexists.
    + unfold Agent._normalize_srs.
      destruct (truthy (PList (filter _ l))) eqn:E; cbn [negb].
      * f_equal. apply dicts_of_dicts.
      * cbn [truthy] in E. destruct (filter _ l); [reflexivity | discriminate].
  - intros E; inversion E; subst batch. split; [constructor | reflexivity].
Qed.

(** X23: after the closure step every artifact slot of the run state
    holds a truthy value, whatever the loop left behind. *)
Theorem closure_fills_every_slot
  (srs : list pyval) (memory shift_id : pyval) (st st' : pydict) (w w' : world) :
  Agent.closure self srs memory shift_id st w = (Ok st', w') ->
  forall k, In k artifact_slots -> truthy (Agent.slot st' k) = true.
Proof.
  intros Hrun k Hk. apply closure_populates in Hrun.
  unfold Agent.all_present in Hrun.
  repeat match type of Hrun with
         | _ && _ = true => apply andb_true_iff in Hrun; destruct Hrun as [Hrun ?]
         end.
  each_slot Hk k; assumption.
Qed.

End Intake.

(** [normalize_srs_keeps_dicts] on a list with a number between the two
    demo tickets. *)
Lemma normalize_srs_keeps_dicts_witness :
  Forall (fun sr => exists d, sr = PDict d) Sample.batch
  /\ Agent._normalize_srs (PList Sample.batch) = Ok Sample.batch.
Proof.
  apply (@normalize_srs_keeps_dicts
           (PList [Demo.ticket1; PInt 3; Demo.ticket2]) Sample.batch).
  reflexivity.
Defined.

(** [closure_fills_every_slot] on the two demo tickets, from a run state
    in which no slot is set, for the summary slot. *)
Lemma closure_fills_every_slot_witness :
  truthy (Agent.slot Sample.closed_state "summary") = true.
Proof.
  apply (@closure_fills_every_slot Demo.runtime Demo.host Demo.silent Demo.cfg
           Sample.batch (PDict Demo.fresh_memory) PNone Demo.two_ticket_state
           Sample.closed_state Demo.w0 (@World Demo.host 2 []) eq_refl
           "summary").
  vm_compute. tauto.
Defined.
